(** * The jumping task: a shallow embedding of [gym_jumping_task.envs]

    The development follows the three modules of the package:
    [jumping_task] (class [JumpTaskEnv]), [jumping_colors_task]
    (class [JumpTaskEnvWithColors]) and [jumping_coordinates_task]
    (class [JumpTaskEnvWithCoordinates]).

    Conventions.
    - Positions, speeds, sizes and rewards are Python integers (every
      default of the constructor and every [argparse] option is an [int]);
      they are values of [Z].  The float literal [0.] returned when the step
      budget is exhausted is the integer [0].
    - An environment object is the record [Env] of its attributes; a method
      is a computation in the monad [M], which threads the object and can
      raise.  A state reached by a raising call is kept in the result, as
      Python keeps the attributes assigned before the [raise].
    - [self.rewards] and the [info] dictionary returned by [step] are
      finite maps with string keys; a missing key raises [KeyError].
    - A method that a subclass overrides is called through [self]; the
      methods of [JumpTaskEnv] take the methods of [self] they call as
      arguments, and each class instantiates them.
    - The [while] loop of [step] takes fuel; [OutOfFuel] is not a Python
      outcome, and the theorems that need a result show that enough fuel
      exists.
    - Rendering with pygame ([render], [rendering], [zoom], [slow_motion])
      only draws; it is left out.  The raster observations are kept as the
      list of slice assignments that paint them; building one fails as numpy
      does: [ValueError] from [np.zeros] for a negative dimension,
      [IndexError] from an assignment with an integer subscript outside its
      axis. *)

From Stdlib Require Import ZArith Bool List Lia.
From stdpp Require Import base option gmap strings list fin_maps.

Local Open Scope Z_scope.

(** ** Constants of [jumping_task.py] *)

Definition JUMP_HEIGHT : Z := 15.
Definition JUMP_VERTICAL_SPEED : Z := 1.
Definition JUMP_HORIZONTAL_SPEED : Z := 1.

Definition OBSTACLE_1 : Z := 20.
Definition OBSTACLE_2 : Z := 55.
Definition ALLOWED_OBSTACLE_X : list Z := [20; 30; 40].
Definition ALLOWED_OBSTACLE_Y : list Z := [10; 20].
Definition LEFT : Z := 14.
Definition RIGHT : Z := 48.
Definition DOWN : Z := 0.
Definition UP : Z := 41.

(** ** Data *)

(** The second component of [self.jumping]: the strings ["up"] and
    ["down"]; [None] is Python's [None]. *)
Inductive direction : Set := up | down.

(** [class COLORS(enum.Enum)] with its values. *)
Inductive COLORS : Set := RED | GREEN.

Definition COLORS_value (c : COLORS) : Z :=
  match c with RED => 0 | GREEN => 1 end.

(** numpy element types that occur: [np.float32], and the default types
    numpy gives to an array built from Python integers or floats. *)
Inductive DType : Set := float32 | float64 | int_.

(** The float literals written into the rasters. *)
Inductive intensity : Set := F0_0 | F0_5 | F1_0.

Definition GREYSCALE_WHITE := F1_0.
Definition GREYSCALE_GREY := F0_5.
Definition RGB_WHITE := F1_0.

(** One subscript of an assignment [obs[a:b, j, :] = c]. *)
Inductive subscript : Set :=
| Slice (start stop : Z)
| At (i : Z)
| Whole.

Record assignment : Set := Assign { target : list subscript; value : intensity }.

(** The views applied to the painted array before it is returned:
    [.T], [np.transpose(obs, axes)], [[::-1]]. *)
Inductive view : Set := Transpose (axes : list nat) | Reversed.

Inductive contents : Set :=
| Painted (zeros_shape : list Z) (paint : list assignment) (views : list view)
| Values (v : list Z).

Record ndarray : Set := { array_shape : list Z; array_dtype : DType; array_data : contents }.

(** [np.array] of a list of Python integers. *)
Definition np_array (v : list Z) : ndarray :=
  {| array_shape := [Z.of_nat (length v)]; array_dtype := int_; array_data := Values v |}.

(** [gym.spaces.Box]: bounds are a scalar or an array; without [shape] the
    shape is that of [low], without [dtype] gym takes [np.float32]. *)
Inductive bound : Set := Scalar (v : Z) | Bounds (v : list Z).

Record Box : Set := { low : bound; high : bound; shape : list Z; dtype : DType }.

Definition spaces_Box (low high : bound) (shape : option (list Z)) (dtype : option DType) : Box :=
  {| low := low; high := high;
     shape := match shape, low with
              | Some sh, _ => sh
              | None, Bounds v => [Z.of_nat (length v)]
              | None, Scalar _ => []
              end;
     dtype := default float32 dtype |}.

(** The seeded generator [self.np_random]: the sequence of raw draws it will
    produce and the number of draws consumed so far. *)
Record RandomState : Type := { draws : nat -> nat; cursor : nat }.

(** ** The environment object *)

Record Env : Type := {
  np_random : RandomState;
  rewards : gmap string Z;
  scr_w : Z;
  scr_h : Z;
  state_shape : list Z;
  legal_actions : list Z;
  nb_actions : Z;
  agent_speed : Z;
  agent_current_speed : Z;
  jumping : bool * option direction;
  agent_init_pos : Z;
  agent_size : Z * Z;
  obstacle_size : Z * Z;
  step_id : Z;
  max_number_of_steps : Z;
  finish_jump : bool;
  min_x_position : Z;
  max_x_position : Z;
  min_y_position : Z;
  max_y_position : Z;
  observation_space : Box;
  action_space : Z;
  agent_pos_x : Z;
  agent_pos_y : Z;
  done : bool;
  floor_height : Z;
  two_obstacles : bool;
  obstacle_position : Z;
  (* attributes of JumpTaskEnvWithColors only *)
  _obstacle_color : COLORS;
  _already_collided : bool
}.

(** Attribute assignment [self.f = v], one function per assigned attribute. *)

Definition set_np_random (v : RandomState) (self : Env) : Env :=
  {| np_random := v; rewards := rewards self; scr_w := scr_w self;
     scr_h := scr_h self; state_shape := state_shape self;
     legal_actions := legal_actions self; nb_actions := nb_actions self;
     agent_speed := agent_speed self;
     agent_current_speed := agent_current_speed self;
     jumping := jumping self; agent_init_pos := agent_init_pos self;
     agent_size := agent_size self; obstacle_size := obstacle_size self;
     step_id := step_id self;
     max_number_of_steps := max_number_of_steps self;
     finish_jump := finish_jump self; min_x_position := min_x_position self;
     max_x_position := max_x_position self;
     min_y_position := min_y_position self;
     max_y_position := max_y_position self;
     observation_space := observation_space self;
     action_space := action_space self; agent_pos_x := agent_pos_x self;
     agent_pos_y := agent_pos_y self; done := done self;
     floor_height := floor_height self; two_obstacles := two_obstacles self;
     obstacle_position := obstacle_position self;
     _obstacle_color := _obstacle_color self;
     _already_collided := _already_collided self |}.

Definition set_rewards (v : gmap string Z) (self : Env) : Env :=
  {| np_random := np_random self; rewards := v; scr_w := scr_w self;
     scr_h := scr_h self; state_shape := state_shape self;
     legal_actions := legal_actions self; nb_actions := nb_actions self;
     agent_speed := agent_speed self;
     agent_current_speed := agent_current_speed self;
     jumping := jumping self; agent_init_pos := agent_init_pos self;
     agent_size := agent_size self; obstacle_size := obstacle_size self;
     step_id := step_id self;
     max_number_of_steps := max_number_of_steps self;
     finish_jump := finish_jump self; min_x_position := min_x_position self;
     max_x_position := max_x_position self;
     min_y_position := min_y_position self;
     max_y_position := max_y_position self;
     observation_space := observation_space self;
     action_space := action_space self; agent_pos_x := agent_pos_x self;
     agent_pos_y := agent_pos_y self; done := done self;
     floor_height := floor_height self; two_obstacles := two_obstacles self;
     obstacle_position := obstacle_position self;
     _obstacle_color := _obstacle_color self;
     _already_collided := _already_collided self |}.

Definition set_state_shape (v : list Z) (self : Env) : Env :=
  {| np_random := np_random self; rewards := rewards self;
     scr_w := scr_w self; scr_h := scr_h self; state_shape := v;
     legal_actions := legal_actions self; nb_actions := nb_actions self;
     agent_speed := agent_speed self;
     agent_current_speed := agent_current_speed self;
     jumping := jumping self; agent_init_pos := agent_init_pos self;
     agent_size := agent_size self; obstacle_size := obstacle_size self;
     step_id := step_id self;
     max_number_of_steps := max_number_of_steps self;
     finish_jump := finish_jump self; min_x_position := min_x_position self;
     max_x_position := max_x_position self;
     min_y_position := min_y_position self;
     max_y_position := max_y_position self;
     observation_space := observation_space self;
     action_space := action_space self; agent_pos_x := agent_pos_x self;
     agent_pos_y := agent_pos_y self; done := done self;
     floor_height := floor_height self; two_obstacles := two_obstacles self;
     obstacle_position := obstacle_position self;
     _obstacle_color := _obstacle_color self;
     _already_collided := _already_collided self |}.

Definition set_observation_space (v : Box) (self : Env) : Env :=
  {| np_random := np_random self; rewards := rewards self;
     scr_w := scr_w self; scr_h := scr_h self;
     state_shape := state_shape self; legal_actions := legal_actions self;
     nb_actions := nb_actions self; agent_speed := agent_speed self;
     agent_current_speed := agent_current_speed self;
     jumping := jumping self; agent_init_pos := agent_init_pos self;
     agent_size := agent_size self; obstacle_size := obstacle_size self;
     step_id := step_id self;
     max_number_of_steps := max_number_of_steps self;
     finish_jump := finish_jump self; min_x_position := min_x_position self;
     max_x_position := max_x_position self;
     min_y_position := min_y_position self;
     max_y_position := max_y_position self; observation_space := v;
     action_space := action_space self; agent_pos_x := agent_pos_x self;
     agent_pos_y := agent_pos_y self; done := done self;
     floor_height := floor_height self; two_obstacles := two_obstacles self;
     obstacle_position := obstacle_position self;
     _obstacle_color := _obstacle_color self;
     _already_collided := _already_collided self |}.

Definition set_agent_current_speed (v : Z) (self : Env) : Env :=
  {| np_random := np_random self; rewards := rewards self;
     scr_w := scr_w self; scr_h := scr_h self;
     state_shape := state_shape self; legal_actions := legal_actions self;
     nb_actions := nb_actions self; agent_speed := agent_speed self;
     agent_current_speed := v; jumping := jumping self;
     agent_init_pos := agent_init_pos self; agent_size := agent_size self;
     obstacle_size := obstacle_size self; step_id := step_id self;
     max_number_of_steps := max_number_of_steps self;
     finish_jump := finish_jump self; min_x_position := min_x_position self;
     max_x_position := max_x_position self;
     min_y_position := min_y_position self;
     max_y_position := max_y_position self;
     observation_space := observation_space self;
     action_space := action_space self; agent_pos_x := agent_pos_x self;
     agent_pos_y := agent_pos_y self; done := done self;
     floor_height := floor_height self; two_obstacles := two_obstacles self;
     obstacle_position := obstacle_position self;
     _obstacle_color := _obstacle_color self;
     _already_collided := _already_collided self |}.

Definition set_jumping (v : bool * option direction) (self : Env) : Env :=
  {| np_random := np_random self; rewards := rewards self;
     scr_w := scr_w self; scr_h := scr_h self;
     state_shape := state_shape self; legal_actions := legal_actions self;
     nb_actions := nb_actions self; agent_speed := agent_speed self;
     agent_current_speed := agent_current_speed self; jumping := v;
     agent_init_pos := agent_init_pos self; agent_size := agent_size self;
     obstacle_size := obstacle_size self; step_id := step_id self;
     max_number_of_steps := max_number_of_steps self;
     finish_jump := finish_jump self; min_x_position := min_x_position self;
     max_x_position := max_x_position self;
     min_y_position := min_y_position self;
     max_y_position := max_y_position self;
     observation_space := observation_space self;
     action_space := action_space self; agent_pos_x := agent_pos_x self;
     agent_pos_y := agent_pos_y self; done := done self;
     floor_height := floor_height self; two_obstacles := two_obstacles self;
     obstacle_position := obstacle_position self;
     _obstacle_color := _obstacle_color self;
     _already_collided := _already_collided self |}.

Definition set_step_id (v : Z) (self : Env) : Env :=
  {| np_random := np_random self; rewards := rewards self;
     scr_w := scr_w self; scr_h := scr_h self;
     state_shape := state_shape self; legal_actions := legal_actions self;
     nb_actions := nb_actions self; agent_speed := agent_speed self;
     agent_current_speed := agent_current_speed self;
     jumping := jumping self; agent_init_pos := agent_init_pos self;
     agent_size := agent_size self; obstacle_size := obstacle_size self;
     step_id := v; max_number_of_steps := max_number_of_steps self;
     finish_jump := finish_jump self; min_x_position := min_x_position self;
     max_x_position := max_x_position self;
     min_y_position := min_y_position self;
     max_y_position := max_y_position self;
     observation_space := observation_space self;
     action_space := action_space self; agent_pos_x := agent_pos_x self;
     agent_pos_y := agent_pos_y self; done := done self;
     floor_height := floor_height self; two_obstacles := two_obstacles self;
     obstacle_position := obstacle_position self;
     _obstacle_color := _obstacle_color self;
     _already_collided := _already_collided self |}.

Definition set_done (v : bool) (self : Env) : Env :=
  {| np_random := np_random self; rewards := rewards self;
     scr_w := scr_w self; scr_h := scr_h self;
     state_shape := state_shape self; legal_actions := legal_actions self;
     nb_actions := nb_actions self; agent_speed := agent_speed self;
     agent_current_speed := agent_current_speed self;
     jumping := jumping self; agent_init_pos := agent_init_pos self;
     agent_size := agent_size self; obstacle_size := obstacle_size self;
     step_id := step_id self;
     max_number_of_steps := max_number_of_steps self;
     finish_jump := finish_jump self; min_x_position := min_x_position self;
     max_x_position := max_x_position self;
     min_y_position := min_y_position self;
     max_y_position := max_y_position self;
     observation_space := observation_space self;
     action_space := action_space self; agent_pos_x := agent_pos_x self;
     agent_pos_y := agent_pos_y self; done := v;
     floor_height := floor_height self; two_obstacles := two_obstacles self;
     obstacle_position := obstacle_position self;
     _obstacle_color := _obstacle_color self;
     _already_collided := _already_collided self |}.

Definition set_floor_height (v : Z) (self : Env) : Env :=
  {| np_random := np_random self; rewards := rewards self;
     scr_w := scr_w self; scr_h := scr_h self;
     state_shape := state_shape self; legal_actions := legal_actions self;
     nb_actions := nb_actions self; agent_speed := agent_speed self;
     agent_current_speed := agent_current_speed self;
     jumping := jumping self; agent_init_pos := agent_init_pos self;
     agent_size := agent_size self; obstacle_size := obstacle_size self;
     step_id := step_id self;
     max_number_of_steps := max_number_of_steps self;
     finish_jump := finish_jump self; min_x_position := min_x_position self;
     max_x_position := max_x_position self;
     min_y_position := min_y_position self;
     max_y_position := max_y_position self;
     observation_space := observation_space self;
     action_space := action_space self; agent_pos_x := agent_pos_x self;
     agent_pos_y := agent_pos_y self; done := done self; floor_height := v;
     two_obstacles := two_obstacles self;
     obstacle_position := obstacle_position self;
     _obstacle_color := _obstacle_color self;
     _already_collided := _already_collided self |}.

Definition set_two_obstacles (v : bool) (self : Env) : Env :=
  {| np_random := np_random self; rewards := rewards self;
     scr_w := scr_w self; scr_h := scr_h self;
     state_shape := state_shape self; legal_actions := legal_actions self;
     nb_actions := nb_actions self; agent_speed := agent_speed self;
     agent_current_speed := agent_current_speed self;
     jumping := jumping self; agent_init_pos := agent_init_pos self;
     agent_size := agent_size self; obstacle_size := obstacle_size self;
     step_id := step_id self;
     max_number_of_steps := max_number_of_steps self;
     finish_jump := finish_jump self; min_x_position := min_x_position self;
     max_x_position := max_x_position self;
     min_y_position := min_y_position self;
     max_y_position := max_y_position self;
     observation_space := observation_space self;
     action_space := action_space self; agent_pos_x := agent_pos_x self;
     agent_pos_y := agent_pos_y self; done := done self;
     floor_height := floor_height self; two_obstacles := v;
     obstacle_position := obstacle_position self;
     _obstacle_color := _obstacle_color self;
     _already_collided := _already_collided self |}.

Definition set_obstacle_position (v : Z) (self : Env) : Env :=
  {| np_random := np_random self; rewards := rewards self;
     scr_w := scr_w self; scr_h := scr_h self;
     state_shape := state_shape self; legal_actions := legal_actions self;
     nb_actions := nb_actions self; agent_speed := agent_speed self;
     agent_current_speed := agent_current_speed self;
     jumping := jumping self; agent_init_pos := agent_init_pos self;
     agent_size := agent_size self; obstacle_size := obstacle_size self;
     step_id := step_id self;
     max_number_of_steps := max_number_of_steps self;
     finish_jump := finish_jump self; min_x_position := min_x_position self;
     max_x_position := max_x_position self;
     min_y_position := min_y_position self;
     max_y_position := max_y_position self;
     observation_space := observation_space self;
     action_space := action_space self; agent_pos_x := agent_pos_x self;
     agent_pos_y := agent_pos_y self; done := done self;
     floor_height := floor_height self; two_obstacles := two_obstacles self;
     obstacle_position := v; _obstacle_color := _obstacle_color self;
     _already_collided := _already_collided self |}.

Definition set_agent_pos_x (v : Z) (self : Env) : Env :=
  {| np_random := np_random self; rewards := rewards self;
     scr_w := scr_w self; scr_h := scr_h self;
     state_shape := state_shape self; legal_actions := legal_actions self;
     nb_actions := nb_actions self; agent_speed := agent_speed self;
     agent_current_speed := agent_current_speed self;
     jumping := jumping self; agent_init_pos := agent_init_pos self;
     agent_size := agent_size self; obstacle_size := obstacle_size self;
     step_id := step_id self;
     max_number_of_steps := max_number_of_steps self;
     finish_jump := finish_jump self; min_x_position := min_x_position self;
     max_x_position := max_x_position self;
     min_y_position := min_y_position self;
     max_y_position := max_y_position self;
     observation_space := observation_space self;
     action_space := action_space self; agent_pos_x := v;
     agent_pos_y := agent_pos_y self; done := done self;
     floor_height := floor_height self; two_obstacles := two_obstacles self;
     obstacle_position := obstacle_position self;
     _obstacle_color := _obstacle_color self;
     _already_collided := _already_collided self |}.

Definition set_agent_pos_y (v : Z) (self : Env) : Env :=
  {| np_random := np_random self; rewards := rewards self;
     scr_w := scr_w self; scr_h := scr_h self;
     state_shape := state_shape self; legal_actions := legal_actions self;
     nb_actions := nb_actions self; agent_speed := agent_speed self;
     agent_current_speed := agent_current_speed self;
     jumping := jumping self; agent_init_pos := agent_init_pos self;
     agent_size := agent_size self; obstacle_size := obstacle_size self;
     step_id := step_id self;
     max_number_of_steps := max_number_of_steps self;
     finish_jump := finish_jump self; min_x_position := min_x_position self;
     max_x_position := max_x_position self;
     min_y_position := min_y_position self;
     max_y_position := max_y_position self;
     observation_space := observation_space self;
     action_space := action_space self; agent_pos_x := agent_pos_x self;
     agent_pos_y := v; done := done self; floor_height := floor_height self;
     two_obstacles := two_obstacles self;
     obstacle_position := obstacle_position self;
     _obstacle_color := _obstacle_color self;
     _already_collided := _already_collided self |}.

Definition set_obstacle_color (v : COLORS) (self : Env) : Env :=
  {| np_random := np_random self; rewards := rewards self;
     scr_w := scr_w self; scr_h := scr_h self;
     state_shape := state_shape self; legal_actions := legal_actions self;
     nb_actions := nb_actions self; agent_speed := agent_speed self;
     agent_current_speed := agent_current_speed self;
     jumping := jumping self; agent_init_pos := agent_init_pos self;
     agent_size := agent_size self; obstacle_size := obstacle_size self;
     step_id := step_id self;
     max_number_of_steps := max_number_of_steps self;
     finish_jump := finish_jump self; min_x_position := min_x_position self;
     max_x_position := max_x_position self;
     min_y_position := min_y_position self;
     max_y_position := max_y_position self;
     observation_space := observation_space self;
     action_space := action_space self; agent_pos_x := agent_pos_x self;
     agent_pos_y := agent_pos_y self; done := done self;
     floor_height := floor_height self; two_obstacles := two_obstacles self;
     obstacle_position := obstacle_position self; _obstacle_color := v;
     _already_collided := _already_collided self |}.

Definition set_already_collided (v : bool) (self : Env) : Env :=
  {| np_random := np_random self; rewards := rewards self;
     scr_w := scr_w self; scr_h := scr_h self;
     state_shape := state_shape self; legal_actions := legal_actions self;
     nb_actions := nb_actions self; agent_speed := agent_speed self;
     agent_current_speed := agent_current_speed self;
     jumping := jumping self; agent_init_pos := agent_init_pos self;
     agent_size := agent_size self; obstacle_size := obstacle_size self;
     step_id := step_id self;
     max_number_of_steps := max_number_of_steps self;
     finish_jump := finish_jump self; min_x_position := min_x_position self;
     max_x_position := max_x_position self;
     min_y_position := min_y_position self;
     max_y_position := max_y_position self;
     observation_space := observation_space self;
     action_space := action_space self; agent_pos_x := agent_pos_x self;
     agent_pos_y := agent_pos_y self; done := done self;
     floor_height := floor_height self; two_obstacles := two_obstacles self;
     obstacle_position := obstacle_position self;
     _obstacle_color := _obstacle_color self; _already_collided := v |}.

(** ** Methods as computations on the object *)

Inductive exn : Set := ValueError | KeyError | IndexError.

Inductive outcome (A : Type) : Type :=
| Return (a : A)
| Raise (e : exn)
| OutOfFuel.
Arguments Return {A} a.
Arguments Raise {A} e.
Arguments OutOfFuel {A}.

Definition M (A : Type) : Type := Env -> outcome A * Env.

Definition ret {A} (a : A) : M A := fun self => (Return a, self).

Definition bind {A B} (m : M A) (k : A -> M B) : M B :=
  fun self =>
    match m self with
    | (Return a, self') => k a self'
    | (Raise e, self') => (Raise e, self')
    | (OutOfFuel, self') => (OutOfFuel, self')
    end.

Declare Scope py_scope.
Delimit Scope py_scope with py.
Bind Scope py_scope with M.
Notation "'let*' x := m 'in' k" := (bind m (fun x => k))
  (at level 10, x name, m at level 100, k at level 200) : py_scope.
Notation "'let*' ' p := m 'in' k" := (bind m (fun p => k))
  (at level 10, p pattern, m at level 100, k at level 200) : py_scope.
Notation "m >> k" := (bind m (fun _ => k))
  (at level 100, k at level 200, right associativity) : py_scope.
Local Open Scope py_scope.

Definition raise {A} (e : exn) : M A := fun self => (Raise e, self).
Definition attr {A} (f : Env -> A) : M A := fun self => (Return (f self), self).
Definition assign (f : Env -> Env) : M unit := fun self => (Return tt, f self).

(** [d[k]] on a dictionary. *)
Definition getitem {V} (d : gmap string V) (k : string) : M V :=
  match d !! k with
  | Some v => ret v
  | None => raise KeyError
  end.

(** [x in l] on a list of integers. *)
Definition contains (l : list Z) (x : Z) : bool := existsb (Z.eqb x) l.

(** [self.np_random.choice(l)]. *)
Definition choice (l : list Z) : M Z :=
  fun self =>
    let rs := np_random self in
    let i := (draws rs (cursor rs) mod length l)%nat in
    (Return (nth i l 0),
     set_np_random {| draws := draws rs; cursor := S (cursor rs) |} self).

(** An integer subscript [i] on an axis of length [n] is in range when
    [-n <= i < n]; a slice is clipped to the axis and never fails. *)
Definition subscript_in_range (n : Z) (s : subscript) : bool :=
  match s with
  | At i => (- n <=? i) && (i <? n)
  | Slice _ _ | Whole => true
  end.

(** The subscripts of one assignment, axis by axis. *)
Fixpoint subscripts_in_range (shape : list Z) (target : list subscript) : bool :=
  match shape, target with
  | n :: shape, s :: target => subscript_in_range n s && subscripts_in_range shape target
  | _, _ => true
  end.

(** [obs = np.zeros(shape)] followed by the assignments [obs[target] = value]:
    [np.zeros] raises [ValueError] for a negative dimension, and an
    assignment with an integer subscript out of range raises [IndexError].
    Nothing of the object is assigned. *)
Definition np_zeros_painted (shape : list Z) (paint : list assignment) : M unit :=
  if existsb (fun n => n <? 0) shape then raise ValueError
  else if forallb (fun a => subscripts_in_range shape (target a)) paint then ret tt
  else raise IndexError.

(** What [step] returns: observation, reward, terminal flag, info. *)
Definition StepResult : Type := ndarray * Z * bool * gmap string bool.

(** ** [class JumpTaskEnv] *)

Module JumpTaskEnv.

(** The inner function [_overlapping_objects(env, sx, sy)] of
    [_game_status]. *)
Definition _overlapping_objects (env : Env) (sx sy : Z) : bool :=
  (sx + (obstacle_size env).1 >? agent_pos_x env)
  && (sx <? agent_pos_x env + (agent_size env).1)
  && (sy + (obstacle_size env).2 >? agent_pos_y env)
  && (sy <? agent_pos_y env + (agent_size env).2).

Definition _game_status : M (bool * bool) :=
  fun self =>
    let failure :=
      if two_obstacles self then
        _overlapping_objects self OBSTACLE_1 (floor_height self)
        || _overlapping_objects self OBSTACLE_2 (floor_height self)
      else
        _overlapping_objects self (obstacle_position self) (floor_height self) in
    let success := scr_w self <? agent_pos_x self + (agent_size self).1 in
    let self := set_done (failure || success) self in
    (Return (failure, success), self).

Definition _continue_jump : M unit :=
  fun self =>
    let self :=
      set_agent_pos_x (Z.max (agent_pos_x self + agent_current_speed self) 0) self in
    let self :=
      if agent_pos_y self >? floor_height self + JUMP_HEIGHT
      then set_jumping ((jumping self).1, Some down) self
      else self in
    let self :=
      match (jumping self).2 with
      | Some up =>
          set_agent_pos_y (agent_pos_y self + agent_speed self * JUMP_VERTICAL_SPEED) self
      | Some down =>
          let self :=
            set_agent_pos_y (agent_pos_y self - agent_speed self * JUMP_VERTICAL_SPEED) self in
          if agent_pos_y self =? floor_height self
          then set_jumping (false, (jumping self).2) self
          else self
      | None => self
      end in
    (Return tt, self).

(** [get_state]: the greyscale raster.  The array has [scr_h] rows and
    [scr_w] columns, and the outline and the floor are written with the
    roles of the two axes exchanged ([obs[0:scr_w, scr_h-1]],
    [obs[scr_w-1, 0:scr_h]], [obs[0:scr_w, floor_height]]). *)
Definition get_state : M ndarray :=
  fun self =>
    let _fill_rec (left up : Z) (size : Z * Z) (color : intensity) :=
      Assign [Slice left (left + size.1); Slice up (up + size.2)] color in
    let paint :=
      [_fill_rec (agent_pos_x self) (agent_pos_y self) (agent_size self) F1_0]
      ++ (if two_obstacles self then
            [_fill_rec OBSTACLE_1 (floor_height self) (obstacle_size self) GREYSCALE_GREY;
             _fill_rec OBSTACLE_2 (floor_height self) (obstacle_size self) GREYSCALE_GREY]
          else
            [_fill_rec (obstacle_position self) (floor_height self) (obstacle_size self)
               GREYSCALE_GREY])
      ++ [Assign [Slice 0 (scr_w self); At 0] GREYSCALE_WHITE;
          Assign [Slice 0 (scr_w self); At (scr_h self - 1)] GREYSCALE_WHITE;
          Assign [At 0; Slice 0 (scr_h self)] GREYSCALE_WHITE;
          Assign [At (scr_w self - 1); Slice 0 (scr_h self)] GREYSCALE_WHITE;
          Assign [Slice 0 (scr_w self); At (floor_height self)] GREYSCALE_WHITE] in
    (np_zeros_painted [scr_h self; scr_w self] paint >>
     ret {| array_shape := [scr_w self; scr_h self];
            array_dtype := float32;
            array_data := Painted [scr_h self; scr_w self] paint [Transpose [1; 0]%nat] |})
      self.

Section Methods_calling_self.

(** The methods of [self] that the methods below call. *)
Variable self_get_state : M ndarray.
Variable self__game_status : M (bool * bool).

Definition _reset (obstacle_position floor_height : Z) (two_obstacles : bool) : M ndarray :=
  fun self =>
    let self := set_agent_pos_x (agent_init_pos self) self in
    let self := set_agent_pos_y floor_height self in
    let self := set_agent_current_speed (agent_speed self * JUMP_HORIZONTAL_SPEED) self in
    let self := set_jumping (false, None) self in
    let self := set_step_id 0 self in
    let self := set_done false self in
    let self := set_floor_height floor_height self in
    let self := set_two_obstacles two_obstacles self in
    if two_obstacles then self_get_state self
    else if (obstacle_position <? min_x_position self)
            || (obstacle_position >=? max_x_position self)
    then (Raise ValueError, self)
    else if (floor_height <? min_y_position self)
            || (floor_height >=? max_y_position self)
    then (Raise ValueError, self)
    else
      let self := set_obstacle_position obstacle_position self in
      self_get_state self.

(** The loop [while self.jumping[0] and not killed and not exited] of
    [step]. *)
Fixpoint finish_jump_loop (fuel : nat) (killed exited : bool) : M (bool * bool) :=
  fun self =>
    if (jumping self).1 && negb killed && negb exited then
      match fuel with
      | O => (OutOfFuel, self)
      | S fuel =>
          (_continue_jump >>
           let* '(killed, exited) := self__game_status in
           finish_jump_loop fuel killed exited) self
      end
    else (Return (killed, exited), self).

Definition step (fuel : nat) (action : Z) : M StepResult :=
  let* x0 := attr agent_pos_x in
  let reward := - x0 in
  let* exhausted := attr (fun self => step_id self >? max_number_of_steps self) in
  if exhausted then
    assign (set_done true) >>
    let* state := self_get_state in
    let* done := attr done in
    ret (state, 0, done, ∅)
  else
    let* legal := attr (fun self => contains (legal_actions self) action) in
    if negb legal then raise ValueError
    else
      let* in_the_air := attr (fun self => (jumping self).1) in
      (if in_the_air then _continue_jump
       else if action =? 0 then
         assign (fun self => set_agent_pos_x (agent_pos_x self + agent_speed self) self) >>
         assign (fun self =>
                   set_agent_current_speed (agent_speed self * JUMP_HORIZONTAL_SPEED) self)
       else if action =? 1 then
         assign (set_jumping (true, Some up)) >>
         _continue_jump
       else if action =? 2 then
         let* on_screen := attr (fun self => agent_pos_x self >? 0) in
         if on_screen then
           assign (fun self => set_agent_pos_x (agent_pos_x self - agent_speed self) self) >>
           assign (fun self =>
                     set_agent_current_speed (- agent_speed self * JUMP_HORIZONTAL_SPEED) self)
         else assign (set_agent_current_speed 0)
       else ret tt) >>
      let* '(killed, exited) := self__game_status in
      let* full_jump := attr finish_jump in
      let* '(killed, exited) :=
        if full_jump then finish_jump_loop fuel killed exited
        else ret (killed, exited) in
      let* x1 := attr agent_pos_x in
      let reward := reward + x1 in
      let* table := attr rewards in
      let* reward :=
        if killed then getitem table "life"
        else if exited then let* exit := getitem table "exit" in ret (reward + exit)
        else ret reward in
      assign (fun self => set_step_id (step_id self + 1) self) >>
      let* state := self_get_state in
      let* done := attr done in
      ret (state, reward, done, {["collision" := killed]}).

End Methods_calling_self.

Section Reset_calling_self.

Variable self__reset : Z -> Z -> bool -> M ndarray.

(** [reset()]: one of the six random layouts; [_reset] is called with
    its default [two_obstacles=False]. *)
Definition reset : M ndarray :=
  let* obstacle_position := choice ALLOWED_OBSTACLE_X in
  let* floor_height := choice ALLOWED_OBSTACLE_Y in
  self__reset obstacle_position floor_height false.

End Reset_calling_self.

(** The keyword arguments of [__init__] with their defaults; [rendering],
    [zoom] and [slow_motion] only drive the display and [use_colors] is
    passed separately (the colour class fixes it). *)
Module kwargs.
Record t : Set := {
  seed : Z;
  scr_w : Z;
  scr_h : Z;
  floor_height : Z;
  agent_w : Z;
  agent_h : Z;
  agent_init_pos : Z;
  agent_speed : Z;
  obstacle_position : Z;
  obstacle_size : Z * Z;
  with_left_action : bool;
  max_number_of_steps : Z;
  two_obstacles : bool;
  finish_jump : bool
}.

Definition defaults : t :=
  {| seed := 42; scr_w := 60; scr_h := 60; floor_height := 10;
     agent_w := 5; agent_h := 10; agent_init_pos := 0; agent_speed := 1;
     obstacle_position := 30; obstacle_size := (9, 10);
     with_left_action := false; max_number_of_steps := 600;
     two_obstacles := false; finish_jump := false |}.
End kwargs.

Section Construction.

(** [gym.utils.seeding.np_random]: the draws of the generator seeded
    with a given value. *)
Variable seeding_np_random : Z -> nat -> nat.
Variable self_reset : M ndarray.

Definition seed (seed : Z) : M (list Z) :=
  assign (set_np_random {| draws := seeding_np_random seed; cursor := 0 |}) >>
  ret [seed].

(** [__init__]: the attributes it assigns, in the order of the source,
    then [self.reset()].  The attributes that only [_reset] assigns keep
    what the object had.  The arguments [floor_height],
    [obstacle_position] and [two_obstacles] are not read. *)
Definition __init__ (kw : kwargs.t) (use_colors : bool) : M unit :=
  seed (kwargs.seed kw) >>
  assign (fun self =>
    let state_shape :=
      if use_colors then [kwargs.scr_w kw; kwargs.scr_h kw; 3]
      else [kwargs.scr_w kw; kwargs.scr_h kw] in
    let legal_actions :=
      if kwargs.with_left_action kw then [0; 1; 2] else [0; 1] in
    let nb_actions := Z.of_nat (length legal_actions) in
    {| np_random := np_random self;
       rewards := {["life" := -1; "exit" := 100]};
       scr_w := kwargs.scr_w kw;
       scr_h := kwargs.scr_h kw;
       state_shape := state_shape;
       legal_actions := legal_actions;
       nb_actions := nb_actions;
       agent_speed := kwargs.agent_speed kw;
       agent_current_speed := kwargs.agent_speed kw * JUMP_HORIZONTAL_SPEED;
       jumping := (false, None);
       agent_init_pos := kwargs.agent_init_pos kw;
       agent_size := (kwargs.agent_w kw, kwargs.agent_h kw);
       obstacle_size := kwargs.obstacle_size kw;
       step_id := 0;
       max_number_of_steps := kwargs.max_number_of_steps kw;
       finish_jump := kwargs.finish_jump kw;
       min_x_position := LEFT;
       max_x_position := RIGHT;
       min_y_position := DOWN;
       max_y_position := UP;
       observation_space := spaces_Box (Scalar 0) (Scalar 1) (Some state_shape) None;
       action_space := nb_actions;
       agent_pos_x := agent_pos_x self;
       agent_pos_y := agent_pos_y self;
       done := done self;
       floor_height := floor_height self;
       two_obstacles := two_obstacles self;
       obstacle_position := obstacle_position self;
       _obstacle_color := _obstacle_color self;
       _already_collided := _already_collided self |}) >>
  self_reset >>
  ret tt.

End Construction.

(** [close()], without the display. *)
Definition close : M unit := assign (set_done true).

End JumpTaskEnv.

(** A new object, before [__init__] has assigned anything: every attribute
    holds a placeholder that is overwritten before it is read. *)
Definition object_new : Env :=
  {| np_random := {| draws := fun _ => O; cursor := O |};
     rewards := ∅; scr_w := 0; scr_h := 0; state_shape := [];
     legal_actions := []; nb_actions := 0; agent_speed := 0;
     agent_current_speed := 0; jumping := (false, None); agent_init_pos := 0;
     agent_size := (0, 0); obstacle_size := (0, 0); step_id := 0;
     max_number_of_steps := 0; finish_jump := false; min_x_position := 0;
     max_x_position := 0; min_y_position := 0; max_y_position := 0;
     observation_space := spaces_Box (Scalar 0) (Scalar 0) (Some []) None;
     action_space := 0; agent_pos_x := 0; agent_pos_y := 0; done := false;
     floor_height := 0; two_obstacles := false; obstacle_position := 0;
     _obstacle_color := GREEN; _already_collided := false |}.

(** ** Instances of [JumpTaskEnv] itself: every call through [self] reaches
    the method of the class. *)

Module Base.
Definition get_state := JumpTaskEnv.get_state.
Definition _game_status := JumpTaskEnv._game_status.
Definition _reset := JumpTaskEnv._reset get_state.
Definition reset := JumpTaskEnv.reset _reset.
Definition step : nat -> Z -> M StepResult := JumpTaskEnv.step get_state _game_status.
Definition __init__ (seeding_np_random : Z -> nat -> nat) (kw : JumpTaskEnv.kwargs.t) :=
  JumpTaskEnv.__init__ seeding_np_random reset kw false.
End Base.

(** ** [class JumpTaskEnvWithColors(JumpTaskEnv)] *)

Module JumpTaskEnvWithColors.

(** [get_state]: the RGB raster. *)
Definition get_state : M ndarray :=
  fun self =>
    let _fill_rec (left up : Z) (size : Z * Z) (color : intensity) :=
      [Assign [Slice left (left + size.1); Slice up (up + size.2); Whole] color] in
    let _fill_obstacle (left up : Z) (size : Z * Z) :=
      let right := left + size.1 in
      let down := up + size.2 in
      map (fun channel =>
             if channel =? COLORS_value (_obstacle_color self)
             then Assign [Slice left right; Slice up down; At channel] F0_5
             else Assign [Slice left right; Slice up down; At channel] F0_0)
          [0; 1; 2] in
    let paint :=
      _fill_rec (agent_pos_x self) (agent_pos_y self) (agent_size self) RGB_WHITE
      ++ (if two_obstacles self then
            _fill_obstacle OBSTACLE_1 (floor_height self) (obstacle_size self)
            ++ _fill_obstacle OBSTACLE_2 (floor_height self) (obstacle_size self)
          else
            _fill_obstacle (obstacle_position self) (floor_height self) (obstacle_size self))
      ++ [Assign [Slice 0 (scr_w self); At 0; Whole] RGB_WHITE;
          Assign [Slice 0 (scr_w self); At (scr_h self - 1); Whole] RGB_WHITE;
          Assign [At 0; Slice 0 (scr_h self); Whole] RGB_WHITE;
          Assign [At (scr_w self - 1); Slice 0 (scr_h self); Whole] RGB_WHITE;
          Assign [Slice 0 (scr_w self); At (floor_height self); Whole] RGB_WHITE] in
    (np_zeros_painted [scr_h self; scr_w self; 3] paint >>
     ret {| array_shape := [scr_w self; scr_h self; 3];
            array_dtype := float32;
            array_data := Painted [scr_h self; scr_w self; 3] paint
                            [Transpose [1; 0; 2]%nat; Reversed] |})
      self.

Definition _reset (obstacle_position floor_height : Z) (two_obstacles : bool) : M ndarray :=
  assign (set_already_collided false) >>
  JumpTaskEnv._reset get_state obstacle_position floor_height two_obstacles.

Definition reset := JumpTaskEnv.reset _reset.

Definition _game_status : M (bool * bool) :=
  let* '(collided, success) := JumpTaskEnv._game_status in
  let* color := attr _obstacle_color in
  let* collided :=
    match color with
    | GREEN =>
        assign (set_done success) >>
        let* already := attr _already_collided in
        ret (negb already && collided)
    | RED =>
        assign (set_done (collided || success)) >>
        ret collided
    end in
  assign (fun self => set_already_collided (_already_collided self || collided) self) >>
  ret (collided, success).

Definition step (fuel : nat) (action : Z) : M StepResult :=
  let* '(state, reward, done, info) := JumpTaskEnv.step get_state _game_status fuel action in
  let* on_floor := attr (fun self => agent_pos_y self =? floor_height self) in
  let* bonus :=
    if on_floor then getitem info "collision" else ret false in
  let* reward :=
    if bonus then
      let* table := attr rewards in
      let* collision := getitem table "collision" in
      ret (reward + collision)
    else ret reward in
  ret (state, reward, done, info).

Definition __init__ (seeding_np_random : Z -> nat -> nat)
    (obstacle_color : COLORS) (kw : JumpTaskEnv.kwargs.t) : M unit :=
  assign (set_obstacle_color obstacle_color) >>
  JumpTaskEnv.__init__ seeding_np_random reset kw true >>
  let* color := attr _obstacle_color in
  (match color with
   | GREEN => assign (fun self => set_rewards (<["collision" := 100]> (rewards self)) self)
   | RED => assign (fun self => set_rewards (<["collision" := 0]> (rewards self)) self)
   end) >>
  assign (set_already_collided false).

End JumpTaskEnvWithColors.

(** ** [class JumpTaskEnvWithCoordinates(JumpTaskEnv)] *)

Module JumpTaskEnvWithCoordinates.

Definition get_state : M ndarray :=
  fun self =>
    let coordinates :=
      [agent_pos_x self - obstacle_position self;
       agent_pos_y self - floor_height self] in
    (Return (np_array coordinates), self).

Definition _game_status := JumpTaskEnv._game_status.
Definition _reset := JumpTaskEnv._reset get_state.
Definition reset := JumpTaskEnv.reset _reset.
Definition step : nat -> Z -> M StepResult := JumpTaskEnv.step get_state _game_status.

Definition __init__ (seeding_np_random : Z -> nat -> nat) (kw : JumpTaskEnv.kwargs.t)
  : M unit :=
  JumpTaskEnv.__init__ seeding_np_random reset kw false >>
  let low := Bounds [1 - RIGHT; 0] in
  let high := Bounds [56 - LEFT; 16] in
  assign (set_state_shape [3]) >>
  assign (set_observation_space (spaces_Box low high None (Some float32))).

End JumpTaskEnvWithCoordinates.

(** * Vocabulary of the properties *)

(** ** Runs and example states *)

(** The calls [step(a)] for the actions of a list, each on the object as the
    previous call left it: the outcome of every call with the object after
    it. *)
Fixpoint rollout (step : Z -> M StepResult) (actions : list Z) (self : Env)
  : list (outcome StepResult * Env) :=
  match actions with
  | [] => []
  | a :: actions =>
      let r := step a self in
      r :: rollout step actions r.2
  end.

(** The object after the calls. *)
Definition after (step : Z -> M StepResult) (actions : list Z) (self : Env) : Env :=
  fold_left (fun self a => (step a self).2) actions self.

Definition returned {A} (r : outcome A * Env) : bool :=
  match r.1 with Return _ => true | _ => false end.

Definition reward_of (r : outcome StepResult * Env) : option Z :=
  match r.1 with Return (_, reward, _, _) => Some reward | _ => None end.

Definition collision_of (r : outcome StepResult * Env) : option bool :=
  match r.1 with Return (_, _, _, info) => info !! "collision" | _ => None end.

(** A generator used in the examples: the n-th raw draw is n. *)
Definition counting_draws : Z -> nat -> nat := fun _ n => n.

(** The states an instance of [JumpTaskEnv] can be in: after construction,
    and after any call of [reset], [_reset] or [step] that came back, with a
    result or with an exception. *)
Inductive reachable : Env -> Prop :=
| reachable_init seeding kw self :
    Base.__init__ seeding kw object_new = (Return tt, self) -> reachable self
| reachable_reset self :
    reachable self -> reachable (Base.reset self).2
| reachable__reset self obstacle_position floor_height two_obstacles :
    reachable self ->
    reachable (Base._reset obstacle_position floor_height two_obstacles self).2
| reachable_step self fuel action :
    reachable self ->
    (Base.step fuel action self).1 <> OutOfFuel ->
    reachable (Base.step fuel action self).2.

(** The environment built with the default arguments. *)
Definition default_env (seeding : Z -> nat -> nat) : Env :=
  (Base.__init__ seeding JumpTaskEnv.kwargs.defaults object_new).2.

(** The default environment after [_reset(obstacle_position, floor_height)]. *)
Definition episode (obstacle_position floor_height : Z) : Env :=
  (Base._reset obstacle_position floor_height false (default_env counting_draws)).2.

(** The default environment after 601 steps to the right: the step budget
    of 600 is used up. *)
Definition exhausted_env : Env :=
  after (Base.step 0) (repeat 0 601%nat) (episode 30 10).

(** The default environment after three steps to the right. *)
Definition walked_env : Env := after (Base.step 0) [0; 0; 0] (episode 30 10).

(** The default environment after 26 steps to the right: the agent has run
    into the obstacle at 30 and the episode is over. *)
Definition collided_env : Env :=
  after (Base.step 0) (repeat 0 26%nat) (episode 30 10).

(** The keyword arguments with [finish_jump=True]. *)
Definition with_finish_jump (kw : JumpTaskEnv.kwargs.t) : JumpTaskEnv.kwargs.t :=
  {| JumpTaskEnv.kwargs.seed := JumpTaskEnv.kwargs.seed kw;
     JumpTaskEnv.kwargs.scr_w := JumpTaskEnv.kwargs.scr_w kw;
     JumpTaskEnv.kwargs.scr_h := JumpTaskEnv.kwargs.scr_h kw;
     JumpTaskEnv.kwargs.floor_height := JumpTaskEnv.kwargs.floor_height kw;
     JumpTaskEnv.kwargs.agent_w := JumpTaskEnv.kwargs.agent_w kw;
     JumpTaskEnv.kwargs.agent_h := JumpTaskEnv.kwargs.agent_h kw;
     JumpTaskEnv.kwargs.agent_init_pos := JumpTaskEnv.kwargs.agent_init_pos kw;
     JumpTaskEnv.kwargs.agent_speed := JumpTaskEnv.kwargs.agent_speed kw;
     JumpTaskEnv.kwargs.obstacle_position := JumpTaskEnv.kwargs.obstacle_position kw;
     JumpTaskEnv.kwargs.obstacle_size := JumpTaskEnv.kwargs.obstacle_size kw;
     JumpTaskEnv.kwargs.with_left_action := JumpTaskEnv.kwargs.with_left_action kw;
     JumpTaskEnv.kwargs.max_number_of_steps := JumpTaskEnv.kwargs.max_number_of_steps kw;
     JumpTaskEnv.kwargs.two_obstacles := JumpTaskEnv.kwargs.two_obstacles kw;
     JumpTaskEnv.kwargs.finish_jump := true |}.

(** An episode of the environment built with [finish_jump=True] and the other
    defaults. *)
Definition full_jump_episode (obstacle_position floor_height : Z) : Env :=
  (Base._reset obstacle_position floor_height false
     (Base.__init__ counting_draws (with_finish_jump JumpTaskEnv.kwargs.defaults)
        object_new).2).2.

(** ** The detector as functions of the object *)

(** The failure and success flags of [JumpTaskEnv._game_status]. *)
Definition failure_of (self : Env) : bool :=
  if two_obstacles self then
    JumpTaskEnv._overlapping_objects self OBSTACLE_1 (floor_height self)
    || JumpTaskEnv._overlapping_objects self OBSTACLE_2 (floor_height self)
  else JumpTaskEnv._overlapping_objects self (obstacle_position self) (floor_height self).

Definition success_of (self : Env) : bool :=
  scr_w self <? agent_pos_x self + (agent_size self).1.

Definition out_of_fuel {A} (r : outcome A * Env) : bool :=
  match r.1 with OutOfFuel => true | _ => false end.

(** The keyword arguments with [two_obstacles=True]. *)
Definition with_two_obstacles (kw : JumpTaskEnv.kwargs.t) : JumpTaskEnv.kwargs.t :=
  {| JumpTaskEnv.kwargs.seed := JumpTaskEnv.kwargs.seed kw;
     JumpTaskEnv.kwargs.scr_w := JumpTaskEnv.kwargs.scr_w kw;
     JumpTaskEnv.kwargs.scr_h := JumpTaskEnv.kwargs.scr_h kw;
     JumpTaskEnv.kwargs.floor_height := JumpTaskEnv.kwargs.floor_height kw;
     JumpTaskEnv.kwargs.agent_w := JumpTaskEnv.kwargs.agent_w kw;
     JumpTaskEnv.kwargs.agent_h := JumpTaskEnv.kwargs.agent_h kw;
     JumpTaskEnv.kwargs.agent_init_pos := JumpTaskEnv.kwargs.agent_init_pos kw;
     JumpTaskEnv.kwargs.agent_speed := JumpTaskEnv.kwargs.agent_speed kw;
     JumpTaskEnv.kwargs.obstacle_position := JumpTaskEnv.kwargs.obstacle_position kw;
     JumpTaskEnv.kwargs.obstacle_size := JumpTaskEnv.kwargs.obstacle_size kw;
     JumpTaskEnv.kwargs.with_left_action := JumpTaskEnv.kwargs.with_left_action kw;
     JumpTaskEnv.kwargs.max_number_of_steps := JumpTaskEnv.kwargs.max_number_of_steps kw;
     JumpTaskEnv.kwargs.two_obstacles := true;
     JumpTaskEnv.kwargs.finish_jump := JumpTaskEnv.kwargs.finish_jump kw |}.

(** The attributes of [JumpTaskEnv()] after construction: everything but the
    generator and the randomly drawn layout is fixed by the defaults. *)
Definition default_attributes (rs : RandomState) (ox fy : Z) : Env :=
  {| np_random := rs;
     rewards := {["life" := -1; "exit" := 100]};
     scr_w := 60; scr_h := 60; state_shape := [60; 60];
     legal_actions := [0; 1]; nb_actions := 2;
     agent_speed := 1; agent_current_speed := 1; jumping := (false, None);
     agent_init_pos := 0; agent_size := (5, 10); obstacle_size := (9, 10);
     step_id := 0; max_number_of_steps := 600; finish_jump := false;
     min_x_position := 14; max_x_position := 48;
     min_y_position := 0; max_y_position := 41;
     observation_space := {| low := Scalar 0; high := Scalar 1;
                             shape := [60; 60]; dtype := float32 |};
     action_space := 2;
     agent_pos_x := 0; agent_pos_y := fy; done := false; floor_height := fy;
     two_obstacles := false; obstacle_position := ox;
     _obstacle_color := GREEN; _already_collided := false |}.

(** The agent's y after each call of a rollout. *)
Definition heights (calls : list (outcome StepResult * Env)) : list Z :=
  map (fun r => agent_pos_y r.2) calls.

Definition rising : list Z :=
  [11; 12; 13; 14; 15; 16; 17; 18; 19; 20; 21; 22; 23; 24; 25; 26].

Definition falling : list Z :=
  [25; 24; 23; 22; 21; 20; 19; 18; 17; 16; 15; 14; 13; 12; 11; 10].

(** ** The stages of an accepted step *)

(** One call of [_continue_jump], as a function on the object. *)
Definition tick (self : Env) : Env := (JumpTaskEnv._continue_jump self).2.

(** The branch on [self.jumping[0]] and on the action. *)
Definition movement (action : Z) (self : Env) : Env :=
  if (jumping self).1 then tick self
  else if action =? 0 then
    let self := set_agent_pos_x (agent_pos_x self + agent_speed self) self in
    set_agent_current_speed (agent_speed self * JUMP_HORIZONTAL_SPEED) self
  else if action =? 1 then tick (set_jumping (true, Some up) self)
  else if action =? 2 then
    if agent_pos_x self >? 0 then
      let self := set_agent_pos_x (agent_pos_x self - agent_speed self) self in
      set_agent_current_speed (- agent_speed self * JUMP_HORIZONTAL_SPEED) self
    else set_agent_current_speed 0 self
  else self.

Section Stages.

Variable self_get_state : M ndarray.
Variable self__game_status : M (bool * bool).

(** The loop, when [finish_jump] is set. *)
Definition complete_jump (fuel : nat) (killed exited : bool) : M (bool * bool) :=
  let* full_jump := attr finish_jump in
  if full_jump then JumpTaskEnv.finish_jump_loop self__game_status fuel killed exited
  else ret (killed, exited).

(** Reward, step counter and result; [x0] is the agent's x when [step]
    was called. *)
Definition settle (x0 : Z) (killed exited : bool) : M StepResult :=
  let* x1 := attr agent_pos_x in
  let reward := - x0 + x1 in
  let* table := attr rewards in
  let* reward :=
    if killed then getitem table "life"
    else if exited then let* exit := getitem table "exit" in ret (reward + exit)
    else ret reward in
  assign (fun self => set_step_id (step_id self + 1) self) >>
  let* state := self_get_state in
  let* done := attr done in
  ret (state, reward, done, {["collision" := killed]}).

End Stages.

(** ** The jump invariant *)

(** The agent stands on the floor or is a whole number of vertical steps
    above it, and the vertical step is positive. *)
Definition jump_wf (self : Env) : Prop :=
  0 < agent_speed self
  /\ match jumping self with
     | (false, _) => agent_pos_y self = floor_height self
     | (true, Some up) =>
         exists k, 0 <= k /\ agent_pos_y self = floor_height self + k * agent_speed self
     | (true, Some down) =>
         exists k, 1 <= k /\ agent_pos_y self = floor_height self + k * agent_speed self
     | (true, None) => False
     end.

(** A bound on the number of calls of [_continue_jump] left in the jump. *)
Definition jump_measure (self : Env) : Z :=
  match jumping self with
  | (true, Some down) => agent_pos_y self - floor_height self
  | (true, Some up) =>
      if agent_pos_y self >? floor_height self + JUMP_HEIGHT
      then agent_pos_y self - floor_height self
      else (floor_height self + JUMP_HEIGHT - agent_pos_y self)
           + JUMP_HEIGHT + 1 + agent_speed self
  | _ => 0
  end.

(** The attributes the jump depends on. *)
Definition same_motion (s s' : Env) : Prop :=
  agent_pos_y s' = agent_pos_y s /\ jumping s' = jumping s
  /\ agent_speed s' = agent_speed s /\ floor_height s' = floor_height s.

(** The attributes that neither the movement nor the loop assigns. *)
Definition same_setting (s s' : Env) : Prop :=
  rewards s' = rewards s /\ step_id s' = step_id s
  /\ finish_jump s' = finish_jump s /\ scr_w s' = scr_w s
  /\ agent_size s' = agent_size s /\ obstacle_size s' = obstacle_size s
  /\ two_obstacles s' = two_obstacles s
  /\ obstacle_position s' = obstacle_position s
  /\ floor_height s' = floor_height s /\ agent_speed s' = agent_speed s
  /\ _obstacle_color s' = _obstacle_color s /\ scr_h s' = scr_h s.

(** ** Observations *)

(** A method that reads the object and assigns nothing, whether it returns
    or raises. *)
Definition read_only {A} (m : M A) : Prop := forall s, (m s).2 = s.

(** An observation method whose outcome depends on the setting of the
    episode only, not on where the agent is or on the step counter. *)
Definition reads_setting (self_get_state : M ndarray) : Prop :=
  (forall s s', same_setting s s' ->
                returned (self_get_state s') = returned (self_get_state s))
  /\ (forall n s, returned (self_get_state (set_step_id n s)) = returned (self_get_state s)).

(** ** Rules and values the statements refer to *)

(** The reward rule of [JumpTaskEnv.step], on the objects before and after
    the call: the life penalty on a collision, otherwise the distance
    covered, plus the exit bonus at the right edge. *)
Definition reward_rule (life exit : Z) (self self' : Env) : Z :=
  if failure_of self' then life
  else if success_of self' then agent_pos_x self' - agent_pos_x self + exit
  else agent_pos_x self' - agent_pos_x self.

(** The collision flag [JumpTaskEnvWithColors._game_status] returns. *)
Definition collided_of (self : Env) : bool :=
  match _obstacle_color self with
  | GREEN => negb (_already_collided self) && failure_of self
  | RED => failure_of self
  end.

(** The default colour environment with a green obstacle, and an episode
    of it. *)
Definition green_env : Env :=
  (JumpTaskEnvWithColors.__init__ counting_draws GREEN JumpTaskEnv.kwargs.defaults
     object_new).2.

Definition green_episode (obstacle_position floor_height : Z) : Env :=
  (JumpTaskEnvWithColors._reset obstacle_position floor_height false green_env).2.

(** The agent has jumped at x = 0 towards the obstacle at 20 and is coming
    down, at x = 22 and y = 20, just above the obstacle. *)
Definition above_obstacle_env : Env :=
  after (JumpTaskEnvWithColors.step 0) (repeat 1 22%nat) (green_episode 20 10).

(** The agent has walked 15 steps towards the green obstacle at 20. *)
Definition before_obstacle_env : Env :=
  after (JumpTaskEnvWithColors.step 0) (repeat 0 15%nat) (green_episode 20 10).

(** The default colour environment after 601 steps to the right: the
    agent has walked through the green obstacle and past the right edge, and
    the step budget of 600 is used up. *)
Definition exhausted_green_env : Env :=
  after (JumpTaskEnvWithColors.step 0) (repeat 0 601%nat) (green_episode 20 10).

(** The number of calls of a rollout whose [info] has the collision flag
    set. *)
Definition collisions (calls : list (outcome StepResult * Env)) : nat :=
  length (List.filter (fun r => match collision_of r with
                                | Some true => true
                                | _ => false
                                end) calls).

(** The relative-coordinate vector, as numpy builds it from two integers. *)
Definition relative_coordinates (self : Env) : ndarray :=
  {| array_shape := [2];
     array_dtype := int_;
     array_data := Values [agent_pos_x self - obstacle_position self;
                           agent_pos_y self - floor_height self] |}.

(** ** Vocabulary of the further properties *)

(** The default environment one jump action into an episode: the agent is
    in the air. *)
Definition airborne_env : Env := after (Base.step 0) [1] (episode 30 10).

(** The object with the attributes that the calls of an episode assign
    cleared: what is left is what [_reset] reads and what it keeps. *)
Definition forget_episode (self : Env) : Env :=
  set_agent_pos_x 0
    (set_agent_pos_y 0
       (set_agent_current_speed 0
          (set_jumping (false, None) (set_step_id 0 (set_done false self))))).

(** The same for the colour class, whose status method also assigns
    [_already_collided]. *)
Definition forget_colors_episode (self : Env) : Env :=
  forget_episode (set_already_collided false self).

(** The keyword arguments with a given screen size. *)
Definition with_screen (scr_w scr_h : Z) (kw : JumpTaskEnv.kwargs.t) : JumpTaskEnv.kwargs.t :=
  {| JumpTaskEnv.kwargs.seed := JumpTaskEnv.kwargs.seed kw;
     JumpTaskEnv.kwargs.scr_w := scr_w;
     JumpTaskEnv.kwargs.scr_h := scr_h;
     JumpTaskEnv.kwargs.floor_height := JumpTaskEnv.kwargs.floor_height kw;
     JumpTaskEnv.kwargs.agent_w := JumpTaskEnv.kwargs.agent_w kw;
     JumpTaskEnv.kwargs.agent_h := JumpTaskEnv.kwargs.agent_h kw;
     JumpTaskEnv.kwargs.agent_init_pos := JumpTaskEnv.kwargs.agent_init_pos kw;
     JumpTaskEnv.kwargs.agent_speed := JumpTaskEnv.kwargs.agent_speed kw;
     JumpTaskEnv.kwargs.obstacle_position := JumpTaskEnv.kwargs.obstacle_position kw;
     JumpTaskEnv.kwargs.obstacle_size := JumpTaskEnv.kwargs.obstacle_size kw;
     JumpTaskEnv.kwargs.with_left_action := JumpTaskEnv.kwargs.with_left_action kw;
     JumpTaskEnv.kwargs.max_number_of_steps := JumpTaskEnv.kwargs.max_number_of_steps kw;
     JumpTaskEnv.kwargs.two_obstacles := JumpTaskEnv.kwargs.two_obstacles kw;
     JumpTaskEnv.kwargs.finish_jump := JumpTaskEnv.kwargs.finish_jump kw |}.

(** The default environment after the rejected [_reset(30, 70)]: the floor
    height 70 is kept, and is no row of the 60 x 60 raster. *)
Definition floor_outside_env : Env := (Base._reset 30 70 false (episode 30 10)).2.

(** A call that returned with the terminal flag clear: the episode goes
    on. *)
Definition running (r : outcome StepResult * Env) : bool :=
  match r.1 with Return (_, _, false, _) => true | _ => false end.

(** The sum of the rewards the calls returned. *)
Definition total_reward (calls : list (outcome StepResult * Env)) : Z :=
  fold_right (fun r acc => default 0 (reward_of r) + acc) 0 calls.

(** The default colour environment with a red obstacle, an episode of it,
    and the agent after 15 steps towards the obstacle at 20. *)
Definition red_env : Env :=
  (JumpTaskEnvWithColors.__init__ counting_draws RED JumpTaskEnv.kwargs.defaults
     object_new).2.

Definition red_episode (obstacle_position floor_height : Z) : Env :=
  (JumpTaskEnvWithColors._reset obstacle_position floor_height false red_env).2.

Definition before_red_obstacle_env : Env :=
  after (JumpTaskEnvWithColors.step 0) (repeat 0 15%nat) (red_episode 20 10).

(** A policy for one episode: walk right for [p] steps, jump, and go on
    choosing "right" (the action is not read while the agent is in the air)
    until 56 calls have been made. *)
Definition jump_at (p : nat) : list Z := repeat 0 p ++ [1] ++ repeat 0 (55 - p)%nat.

(** What the policy [jump_at p] does in the default environment with the
    obstacle at [ox] and the floor at [fy]: every call returns; no obstacle
    is met exactly when [p = ox - 14], and then the policy collects 56 + 100
    and ends the episode. *)
Definition jump_policy_checked (rs : RandomState) (fuel : nat) (ox fy : Z) (p : nat)
  : bool :=
  let self := default_attributes rs ox fy in
  let calls := rollout (Base.step fuel) (jump_at p) self in
  forallb returned calls
  && Bool.eqb (collisions calls =? 0)%nat (Z.of_nat p =? ox - 14)
  && (if Z.of_nat p =? ox - 14
      then (total_reward calls =? 56 + 100) && done (after (Base.step fuel) (jump_at p) self)
      else true).

(** Walking right without a jump meets the obstacle. *)
Definition walk_checked (rs : RandomState) (fuel : nat) (ox fy : Z) : bool :=
  (0 <? collisions (rollout (Base.step fuel) (repeat 0%Z 56%nat)
                      (default_attributes rs ox fy)))%nat.

(** * Properties *)

(** ** Tactics and helpers *)

(** Two objects with different agent positions are different objects. *)
Lemma moved_x {A} (r : outcome A * Env) (self : Env) :
  (agent_pos_x r.2 =? agent_pos_x self) = false -> r.2 <> self.
Proof. intros H E. rewrite E, Z.eqb_refl in H. discriminate H. Qed.

Ltac unfold_monad :=
  unfold bind, ret, attr, assign, raise, getitem in *.

Ltac unfold_base :=
  unfold Base.step, Base.get_state, Base._game_status, Base._reset, Base.reset,
    JumpTaskEnvWithCoordinates.step, JumpTaskEnvWithCoordinates.get_state,
    JumpTaskEnvWithCoordinates._game_status, JumpTaskEnvWithCoordinates._reset,
    JumpTaskEnv.step, JumpTaskEnv._reset in *.

Ltac reduce_attributes :=
  cbn [np_random rewards scr_w scr_h state_shape legal_actions nb_actions
       agent_speed agent_current_speed jumping agent_init_pos agent_size
       obstacle_size step_id max_number_of_steps finish_jump min_x_position
       max_x_position min_y_position max_y_position observation_space
       action_space agent_pos_x agent_pos_y done floor_height two_obstacles
       obstacle_position _obstacle_color _already_collided
       set_np_random set_rewards set_state_shape set_observation_space
       set_agent_current_speed set_jumping set_step_id set_done
       set_floor_height set_two_obstacles set_obstacle_position
       set_agent_pos_x set_agent_pos_y set_obstacle_color
       set_already_collided fst snd] in *.

(** ** The collision detector *)

Lemma game_status_eq (self : Env) :
  JumpTaskEnv._game_status self
  = (Return (failure_of self, success_of self),
     set_done (failure_of self || success_of self) self).
Proof. reflexivity. Qed.

(** ** The observation methods *)

Lemma read_only_inv {A} (m : M A) (s : Env) (a : A) (s' : Env) :
  read_only m -> m s = (Return a, s') -> s' = s.
Proof. intros H E. specialize (H s). rewrite E in H. exact H. Qed.

Lemma read_only_returns {A} (m : M A) (s : Env) :
  read_only m -> returned (m s) = true -> exists a, m s = (Return a, s).
Proof.
  intros H Hr. specialize (H s). unfold returned in Hr.
  destruct (m s) as [[a|e|] s']; cbn [fst snd] in *; try discriminate Hr.
  subst s'. exists a. reflexivity.
Qed.

(** Case analysis on the outcome of a read-only method. *)
Ltac destruct_read_only m s frame :=
  let a := fresh "obs" in
  let e := fresh "e" in
  let s1 := fresh "s" in
  let E := fresh "Eo" in
  let H := fresh "H" in
  destruct (m s) as [[a|e|] s1] eqn:E;
  pose proof (frame s) as H; rewrite E in H; cbn [snd] in H; subst s1.

Lemma base_get_state_read_only : read_only Base.get_state.
Proof.
  intros s. unfold Base.get_state, JumpTaskEnv.get_state, np_zeros_painted, bind, ret, raise.
  destruct (existsb _ _); [reflexivity|]. destruct (forallb _ _); reflexivity.
Qed.

Lemma colors_get_state_read_only : read_only JumpTaskEnvWithColors.get_state.
Proof.
  intros s. unfold JumpTaskEnvWithColors.get_state, np_zeros_painted, bind, ret, raise.
  destruct (existsb _ _); [reflexivity|]. destruct (forallb _ _); reflexivity.
Qed.

Lemma coordinates_get_state_read_only : read_only JumpTaskEnvWithCoordinates.get_state.
Proof. intros s. reflexivity. Qed.

Lemma np_zeros_painted_returned {A} (shape : list Z) (paint : list assignment)
    (a : A) (s : Env) :
  returned ((np_zeros_painted shape paint >> ret a) s)
  = negb (existsb (fun n => n <? 0) shape)
    && forallb (fun a => subscripts_in_range shape (target a)) paint.
Proof.
  unfold np_zeros_painted, returned, bind, raise, ret.
  destruct (existsb _ _); [reflexivity|]. destruct (forallb _ _); reflexivity.
Qed.

Ltac raster_arithmetic :=
  cbn [existsb forallb app map target subscripts_in_range subscript_in_range
       andb orb negb COLORS_value Z.eqb Pos.eqb];
  rewrite ?andb_true_r, ?orb_false_r;
  rewrite !andb_true_iff, negb_true_iff, orb_false_iff, !Z.leb_le, !Z.ltb_lt, !Z.ltb_ge;
  lia.

(** Whether the greyscale raster can be built: the screen is square and the
    floor is one of its rows, counted from either end. *)
Lemma base_get_state_returned (s : Env) :
  returned (Base.get_state s) = true
  <-> 0 < scr_w s /\ scr_h s = scr_w s /\ - scr_w s <= floor_height s < scr_w s.
Proof.
  unfold Base.get_state, JumpTaskEnv.get_state.
  rewrite np_zeros_painted_returned.
  destruct (two_obstacles s); raster_arithmetic.
Qed.

(** The RGB raster is indexed in the same way. *)
Lemma colors_get_state_returned (s : Env) :
  returned (JumpTaskEnvWithColors.get_state s) = true
  <-> 0 < scr_w s /\ scr_h s = scr_w s /\ - scr_w s <= floor_height s < scr_w s.
Proof.
  unfold JumpTaskEnvWithColors.get_state.
  rewrite np_zeros_painted_returned.
  destruct (two_obstacles s), (_obstacle_color s); raster_arithmetic.
Qed.

Lemma raster_reads_setting (self_get_state : M ndarray) :
  (forall s, returned (self_get_state s) = true
             <-> 0 < scr_w s /\ scr_h s = scr_w s /\ - scr_w s <= floor_height s < scr_w s) ->
  reads_setting self_get_state.
Proof.
  intros H. split.
  - intros s s' (_ & _ & _ & Hw & _ & _ & _ & _ & Hf & _ & _ & Hh).
    apply eq_true_iff_eq. rewrite !H, Hw, Hf, Hh. reflexivity.
  - intros n s. apply eq_true_iff_eq. rewrite !H. reflexivity.
Qed.

Lemma base_reads_setting : reads_setting Base.get_state.
Proof. apply raster_reads_setting, base_get_state_returned. Qed.

Lemma colors_reads_setting : reads_setting JumpTaskEnvWithColors.get_state.
Proof. apply raster_reads_setting, colors_get_state_returned. Qed.

Lemma coordinates_get_state_total (s : Env) :
  exists obs, JumpTaskEnvWithCoordinates.get_state s = (Return obs, s).
Proof. eexists. reflexivity. Qed.

Lemma coordinates_reads_setting : reads_setting JumpTaskEnvWithCoordinates.get_state.
Proof. split; reflexivity. Qed.

(** C4. [_overlapping_objects] holds of an obstacle at (sx, sy) exactly when
    the four strict inequalities of the half-open test hold; the failure flag
    of [_game_status] is this test on the obstacle(s) of the layout; and an
    obstacle that only shares an edge with the agent (its right edge on the
    agent's left edge, its left edge on the agent's right edge, its top on
    the agent's bottom, its bottom on the agent's top) does not collide. *)
Theorem overlap_is_half_open (env : Env) (sx sy : Z) :
  let ax := agent_pos_x env in
  let ay := agent_pos_y env in
  let aw := (agent_size env).1 in
  let ah := (agent_size env).2 in
  let ow := (obstacle_size env).1 in
  let oh := (obstacle_size env).2 in
  (JumpTaskEnv._overlapping_objects env sx sy = true
   <-> sx + ow > ax /\ sx < ax + aw /\ sy + oh > ay /\ sy < ay + ah)
  /\ (JumpTaskEnv._game_status env).1
     = Return
         ((if two_obstacles env then
             JumpTaskEnv._overlapping_objects env OBSTACLE_1 (floor_height env)
             || JumpTaskEnv._overlapping_objects env OBSTACLE_2 (floor_height env)
           else
             JumpTaskEnv._overlapping_objects env (obstacle_position env) (floor_height env)),
          (scr_w env <? ax + aw))
  /\ (sx + ow = ax \/ sx = ax + aw \/ sy + oh = ay \/ sy = ay + ah ->
      JumpTaskEnv._overlapping_objects env sx sy = false).
Proof.
  intros ax ay aw ah ow oh. unfold JumpTaskEnv._overlapping_objects.
  fold ax ay aw ah ow oh. split; [|split].
  - rewrite !andb_true_iff, !Z.gtb_lt, !Z.ltb_lt. lia.
  - reflexivity.
  - intros H. rewrite !andb_false_iff, !Z.gtb_ltb, !Z.ltb_ge. lia.
Qed.

Example touching_obstacle_does_not_collide :
  let env := after (Base.step 0) (repeat 0 25%nat) (episode 30 10) in
  agent_pos_x env + (agent_size env).1 = obstacle_position env
  /\ JumpTaskEnv._overlapping_objects env (obstacle_position env) (floor_height env) = false.
Proof. vm_compute. split; reflexivity. Qed.

(** ** Reachability of the states used in the examples *)

Lemma reachable_after (fuel : nat) (actions : list Z) :
  forall self,
    reachable self ->
    forallb (fun r => negb (out_of_fuel r)) (rollout (Base.step fuel) actions self) = true ->
    reachable (after (Base.step fuel) actions self).
Proof.
  induction actions as [|a actions IH]; intros self Hr Hf; [exact Hr|].
  cbn [rollout forallb] in Hf. apply andb_true_iff in Hf as [Ha Hf].
  unfold after. cbn [fold_left]. apply IH; [|exact Hf].
  apply reachable_step; [exact Hr|].
  unfold out_of_fuel in Ha. intros E. rewrite E in Ha. discriminate.
Qed.

Lemma reachable_episode (obstacle_position floor_height : Z) :
  reachable (episode obstacle_position floor_height).
Proof.
  apply reachable__reset.
  apply (reachable_init counting_draws JumpTaskEnv.kwargs.defaults).
  vm_compute. reflexivity.
Qed.


(** ** Illegal actions *)




(** ** Explicit reset out of range *)

(** C7, as stated, fails: after three steps to the right in the default
    environment, [_reset(100, 10)] raises and the agent is back at x = 0 with
    the step counter at 0. *)
Lemma reset_out_of_range_mutates :
  ~ (forall self obstacle_position floor_height,
        (obstacle_position < min_x_position self
         \/ obstacle_position >= max_x_position self
         \/ floor_height < min_y_position self
         \/ floor_height >= max_y_position self) ->
        Base._reset obstacle_position floor_height false self = (Raise ValueError, self)).
Proof.
  intros H.
  assert (Hx : (agent_pos_x (Base._reset 100 10 false walked_env).2
                =? agent_pos_x walked_env) = false)
    by (vm_compute; reflexivity).
  assert (Hr : 100 >= max_x_position walked_env) by (vm_compute; discriminate).
  apply (moved_x _ _ Hx).
  rewrite (H walked_env 100 10 (or_intror (or_introl Hr))). reflexivity.
Qed.

(** C7, amended.  A single-obstacle [_reset] whose obstacle position is
    outside [min_x_position, max_x_position) or whose floor height is outside
    [min_y_position, max_y_position) raises [ValueError]; [obstacle_position]
    keeps its value, and the attributes assigned before the check hold the
    values of the attempted reset: the agent is at its initial x on the new
    floor height, the jump phase is grounded, [step_id] is 0, [done] is
    false, [floor_height] is the rejected argument.  The same holds in the
    subclasses, where the colour class has also cleared
    [_already_collided]. *)
Theorem reset_out_of_range (obstacle_position' floor_height' : Z) (self : Env) :
  (obstacle_position' < min_x_position self
   \/ obstacle_position' >= max_x_position self
   \/ floor_height' < min_y_position self
   \/ floor_height' >= max_y_position self) ->
  exists self',
    Base._reset obstacle_position' floor_height' false self = (Raise ValueError, self')
    /\ JumpTaskEnvWithCoordinates._reset obstacle_position' floor_height' false self
       = (Raise ValueError, self')
    /\ JumpTaskEnvWithColors._reset obstacle_position' floor_height' false self
       = (Raise ValueError, set_already_collided false self')
    /\ obstacle_position self' = obstacle_position self
    /\ agent_pos_x self' = agent_init_pos self
    /\ agent_pos_y self' = floor_height'
    /\ agent_current_speed self' = agent_speed self * JUMP_HORIZONTAL_SPEED
    /\ jumping self' = (false, None)
    /\ step_id self' = 0
    /\ done self' = false
    /\ floor_height self' = floor_height'
    /\ two_obstacles self' = false.
Proof.
  intros H.
  unfold JumpTaskEnvWithColors._reset. unfold_base. unfold_monad. simpl.
  destruct (obstacle_position' <? min_x_position self) eqn:E1;
    destruct (obstacle_position' >=? max_x_position self) eqn:E2;
    destruct (floor_height' <? min_y_position self) eqn:E3;
    destruct (floor_height' >=? max_y_position self) eqn:E4;
    simpl; try (eexists; repeat split; reflexivity).
  apply Z.ltb_ge in E1, E3. rewrite Z.geb_leb in E2, E4.
  apply Z.leb_gt in E2, E4. lia.
Qed.

Lemma reset_out_of_range_witness :
  exists self',
    Base._reset 100 10 false (episode 30 10) = (Raise ValueError, self')
    /\ obstacle_position self' = obstacle_position (episode 30 10).
Proof.
  assert (Hr : 100 >= max_x_position (episode 30 10)) by (vm_compute; discriminate).
  destruct (reset_out_of_range 100 10 (episode 30 10) (or_intror (or_introl Hr)))
    as (self' & H & _ & _ & Hp & _).
  exists self'. split; [exact H|exact Hp].
Defined.

(** ** Construction and random reset *)

Lemma choice_spec (l : list Z) (self : Env) :
  l <> [] ->
  exists v,
    In v l
    /\ choice l self
       = (Return v,
          set_np_random {| draws := draws (np_random self);
                           cursor := S (cursor (np_random self)) |} self).
Proof.
  intros Hl. unfold choice.
  exists (nth (draws (np_random self) (cursor (np_random self)) mod length l)%nat l 0).
  split; [|reflexivity].
  apply nth_In. apply Nat.mod_upper_bound.
  destruct l; [congruence|simpl; lia].
Qed.

(** The greyscale raster can be built when the screen is square and every
    allowed floor height is one of its rows. *)
Lemma base_get_state_on_allowed_floor (s : Env) :
  scr_h s = scr_w s ->
  Forall (fun fy => fy < scr_w s) ALLOWED_OBSTACLE_Y ->
  In (floor_height s) ALLOWED_OBSTACLE_Y ->
  exists obs, Base.get_state s = (Return obs, s).
Proof.
  intros Hh Hall Hin.
  apply read_only_returns; [apply base_get_state_read_only|].
  apply base_get_state_returned.
  pose proof (proj1 (List.Forall_forall _ _) Hall _ Hin) as Hf.
  cbv beta in Hf. unfold ALLOWED_OBSTACLE_Y in Hin. simpl in Hin. lia.
Qed.

Lemma allowed_x_in_range (v : Z) : In v ALLOWED_OBSTACLE_X -> LEFT <= v < RIGHT.
Proof. unfold ALLOWED_OBSTACLE_X, LEFT, RIGHT. simpl. lia. Qed.

Lemma allowed_y_in_range (v : Z) : In v ALLOWED_OBSTACLE_Y -> DOWN <= v < UP.
Proof. unfold ALLOWED_OBSTACLE_Y, DOWN, UP. simpl. lia. Qed.

(** [reset()] always gives a single-obstacle episode at one of the allowed
    positions, when the bounds are those set by [__init__]. *)
Lemma reset_single_obstacle (self_get_state : M ndarray) (self : Env) :
  (forall s, scr_w s = scr_w self -> scr_h s = scr_h self ->
             In (floor_height s) ALLOWED_OBSTACLE_Y ->
             exists obs, self_get_state s = (Return obs, s)) ->
  min_x_position self = LEFT -> max_x_position self = RIGHT ->
  min_y_position self = DOWN -> max_y_position self = UP ->
  exists obs self',
    JumpTaskEnv.reset (JumpTaskEnv._reset self_get_state) self = (Return obs, self')
    /\ two_obstacles self' = false
    /\ In (obstacle_position self') ALLOWED_OBSTACLE_X
    /\ In (floor_height self') ALLOWED_OBSTACLE_Y
    /\ (min_x_position self' = LEFT /\ max_x_position self' = RIGHT
        /\ min_y_position self' = DOWN /\ max_y_position self' = UP)
    /\ scr_w self' = scr_w self /\ scr_h self' = scr_h self.
Proof.
  intros Hg H1 H2 H3 H4. unfold JumpTaskEnv.reset, bind.
  destruct (choice_spec ALLOWED_OBSTACLE_X self) as (ox & Hox & ->); [discriminate|].
  match goal with |- context [choice ALLOWED_OBSTACLE_Y ?s] =>
    destruct (choice_spec ALLOWED_OBSTACLE_Y s) as (fy & Hfy & ->); [discriminate|] end.
  apply allowed_x_in_range in Hox as Hx. apply allowed_y_in_range in Hfy as Hy.
  unfold JumpTaskEnv._reset.
  cbn [min_x_position max_x_position min_y_position max_y_position set_np_random
       set_agent_pos_x set_agent_pos_y set_agent_current_speed set_jumping
       set_step_id set_done set_floor_height set_two_obstacles].
  rewrite H1, H2, H3, H4.
  replace (ox <? LEFT) with false by (symmetry; apply Z.ltb_ge; lia).
  replace (ox >=? RIGHT) with false by (symmetry; rewrite Z.geb_leb; apply Z.leb_gt; lia).
  replace (fy <? DOWN) with false by (symmetry; apply Z.ltb_ge; lia).
  replace (fy >=? UP) with false by (symmetry; rewrite Z.geb_leb; apply Z.leb_gt; lia).
  cbn [orb].
  match goal with |- context [self_get_state ?s] =>
    destruct (Hg s) as [obs Ho]; [reflexivity|reflexivity|exact Hfy|] end.
  eexists _, _. split; [exact Ho|]. cbn. repeat split; assumption || reflexivity.
Qed.

Lemma base_reset_single_obstacle (self : Env) :
  scr_h self = scr_w self ->
  Forall (fun fy => fy < scr_w self) ALLOWED_OBSTACLE_Y ->
  min_x_position self = LEFT -> max_x_position self = RIGHT ->
  min_y_position self = DOWN -> max_y_position self = UP ->
  exists obs self',
    Base.reset self = (Return obs, self')
    /\ two_obstacles self' = false
    /\ In (obstacle_position self') ALLOWED_OBSTACLE_X
    /\ In (floor_height self') ALLOWED_OBSTACLE_Y
    /\ (min_x_position self' = LEFT /\ max_x_position self' = RIGHT
        /\ min_y_position self' = DOWN /\ max_y_position self' = UP)
    /\ scr_w self' = scr_w self /\ scr_h self' = scr_h self.
Proof.
  intros Hsq Hrows. apply reset_single_obstacle.
  intros s Hw Hh Hin. apply base_get_state_on_allowed_floor; [| |exact Hin].
  - rewrite Hw, Hh. exact Hsq.
  - rewrite Hw. exact Hrows.
Qed.

(** C9: the code at the failing input.  Constructing a [JumpTaskEnv] with
    [two_obstacles=True], on a square screen that has every allowed floor
    height among its rows (so that the first observation can be built),
    succeeds and gives an object whose [two_obstacles] attribute is false,
    with one obstacle at one of the allowed random positions; and every
    later [reset()] does the same: the argument is never read, the fixed
    obstacles at 20 and 55 are not used. *)
Theorem two_obstacles_argument_ignored
    (seeding : Z -> nat -> nat) (kw : JumpTaskEnv.kwargs.t) :
  JumpTaskEnv.kwargs.scr_h kw = JumpTaskEnv.kwargs.scr_w kw ->
  Forall (fun fy => fy < JumpTaskEnv.kwargs.scr_w kw) ALLOWED_OBSTACLE_Y ->
  exists self,
    Base.__init__ seeding (with_two_obstacles kw) object_new = (Return tt, self)
    /\ two_obstacles self = false
    /\ In (obstacle_position self) ALLOWED_OBSTACLE_X
    /\ failure_of self
       = JumpTaskEnv._overlapping_objects self (obstacle_position self) (floor_height self)
    /\ exists obs self',
        Base.reset self = (Return obs, self')
        /\ two_obstacles self' = false
        /\ In (obstacle_position self') ALLOWED_OBSTACLE_X.
Proof.
  intros Hsq Hrows.
  unfold Base.__init__, JumpTaskEnv.__init__, JumpTaskEnv.seed, bind, assign, ret.
  unfold Base.reset, Base._reset.
  fold Base._reset. fold Base.reset.
  match goal with |- context [Base.reset ?s] =>
    destruct (base_reset_single_obstacle s Hsq Hrows eq_refl eq_refl eq_refl eq_refl)
      as (obs & self & E & Ht & Hp & Hf & (H1 & H2 & H3 & H4) & Hw & Hh);
      rewrite E end.
  exists self. split; [reflexivity|]. split; [exact Ht|]. split; [exact Hp|].
  split; [unfold failure_of; rewrite Ht; reflexivity|].
  cbn [scr_w scr_h] in Hw, Hh.
  change (JumpTaskEnv.kwargs.scr_w (with_two_obstacles kw))
    with (JumpTaskEnv.kwargs.scr_w kw) in Hw.
  change (JumpTaskEnv.kwargs.scr_h (with_two_obstacles kw))
    with (JumpTaskEnv.kwargs.scr_h kw) in Hh.
  destruct (base_reset_single_obstacle self) as (obs' & self' & E' & Ht' & Hp' & _);
    try assumption.
  - rewrite Hw, Hh. exact Hsq.
  - rewrite Hw. exact Hrows.
  - exists obs', self'. auto.
Qed.

Lemma two_obstacles_argument_ignored_witness :
  exists self,
    Base.__init__ counting_draws (with_two_obstacles JumpTaskEnv.kwargs.defaults) object_new
    = (Return tt, self)
    /\ two_obstacles self = false.
Proof.
  assert (Hrows : Forall (fun fy => fy < JumpTaskEnv.kwargs.scr_w JumpTaskEnv.kwargs.defaults)
                    ALLOWED_OBSTACLE_Y)
    by (repeat constructor).
  destruct (two_obstacles_argument_ignored counting_draws JumpTaskEnv.kwargs.defaults
              eq_refl Hrows) as (self & E & Ht & _).
  exists self. split; [exact E|exact Ht].
Defined.

(** ** The default environment *)

Lemma default_env_attributes (seeding : Z -> nat -> nat) :
  exists ox fy,
    In ox ALLOWED_OBSTACLE_X /\ In fy ALLOWED_OBSTACLE_Y
    /\ Base.__init__ seeding JumpTaskEnv.kwargs.defaults object_new
       = (Return tt, default_attributes {| draws := seeding 42; cursor := 2 |} ox fy).
Proof.
  unfold Base.__init__, JumpTaskEnv.__init__, JumpTaskEnv.seed, Base.reset,
    JumpTaskEnv.reset, choice, bind, assign, ret.
  cbv beta zeta. cbn [np_random set_np_random draws cursor].
  change (JumpTaskEnv.kwargs.seed JumpTaskEnv.kwargs.defaults) with 42.
  assert (B1 : (seeding 42%Z 0 mod length ALLOWED_OBSTACLE_X < 3)%nat)
    by (apply Nat.mod_upper_bound; discriminate).
  assert (B2 : (seeding 42%Z 1 mod length ALLOWED_OBSTACLE_Y < 2)%nat)
    by (apply Nat.mod_upper_bound; discriminate).
  destruct (seeding 42%Z 0 mod length ALLOWED_OBSTACLE_X)%nat as [|[|[|n1]]];
    [| | |lia];
    (destruct (seeding 42%Z 1 mod length ALLOWED_OBSTACLE_Y)%nat as [|[|n2]];
     [| |lia]);
    eexists _, _; (split; [|split; [|vm_compute; reflexivity]]);
    simpl; auto.
Qed.

(** ** The jump trajectory in the default configuration *)

Lemma heights_of_16_jumps :
  heights (rollout (Base.step 0) (repeat 1 16%nat) (episode 30 10)) = rising.
Proof. vm_compute. reflexivity. Qed.

(** C2, as stated, fails: in the default environment with the floor at 10,
    after the 16th of 16 jump actions the agent is at y = 26, above 25 and
    not back at 10. *)
Lemma sixteen_jumps_reach_26 :
  agent_pos_x (episode 30 10) = 0
  /\ floor_height (episode 30 10) = 10
  /\ ~ (Forall (fun y => y <= 25)
          (heights (rollout (Base.step 0) (repeat 1 16%nat) (episode 30 10)))
        /\ last (heights (rollout (Base.step 0) (repeat 1 16%nat) (episode 30 10)))
           = Some 10).
Proof.
  split; [vm_compute; reflexivity|]. split; [vm_compute; reflexivity|].
  rewrite heights_of_16_jumps. intros [_ H]. cbv in H. discriminate H.
Qed.

(** C2, amended.  In the default configuration, after [_reset] with an
    allowed obstacle position and the floor at 10, the agent is at x = 0 and
    y = 10; under 16 jump actions its y rises by one per call to
    26 = 10 + JUMP_HEIGHT + 1, and under 16 more calls it falls by one per
    call back to 10, where the jump ends; y never exceeds 26, and every call
    returns. *)
Theorem jump_rises_to_26_and_returns
    (seeding : Z -> nat -> nat) (fuel : nat) (obstacle_position' : Z) :
  In obstacle_position' ALLOWED_OBSTACLE_X ->
  exists obs self,
    Base._reset obstacle_position' 10 false (default_env seeding) = (Return obs, self)
    /\ agent_pos_x self = 0
    /\ agent_pos_y self = 10
    /\ heights (rollout (Base.step fuel) (repeat 1 16%nat) self) = rising
    /\ heights (rollout (Base.step fuel) (repeat 1 32%nat) self) = rising ++ falling
    /\ forallb returned (rollout (Base.step fuel) (repeat 1 32%nat) self) = true
    /\ forallb (fun y => y <=? 10 + JUMP_HEIGHT + 1)
         (heights (rollout (Base.step fuel) (repeat 1 32%nat) self)) = true
    /\ (jumping (after (Base.step fuel) (repeat 1 32%nat) self)).1 = false.
Proof.
  intros Hop.
  destruct (default_env_attributes seeding) as (ox & fy & _ & _ & E).
  unfold default_env. rewrite E. cbn [snd].
  destruct Hop as [<-|[<-|[<-|[]]]];
    eexists _, _; (split; [vm_compute; reflexivity|]);
    vm_compute; repeat split.
Qed.

Lemma jump_rises_to_26_and_returns_witness :
  exists obs self,
    Base._reset 30 10 false (default_env counting_draws) = (Return obs, self)
    /\ heights (rollout (Base.step 0) (repeat 1 32%nat) self) = rising ++ falling.
Proof.
  destruct (jump_rises_to_26_and_returns counting_draws 0 30)
    as (obs & self & E & _ & _ & _ & H & _).
  - right; left; reflexivity.
  - exists obs, self. split; [exact E|exact H].
Defined.

(** ** The structure of an accepted step

    An accepted call of [step] moves the agent, evaluates the game status,
    runs the jump-completion loop when [finish_jump] is set, and settles
    reward, counter and result.  The stages are named here and [step] is
    shown to be their composition. *)

Lemma _continue_jump_eq (self : Env) :
  JumpTaskEnv._continue_jump self = (Return tt, tick self).
Proof. reflexivity. Qed.

Section Stage_lemmas.

Variable self_get_state : M ndarray.
Variable self__game_status : M (bool * bool).

Lemma step_accepted (fuel : nat) (action : Z) (self : Env) :
  (step_id self >? max_number_of_steps self) = false ->
  contains (legal_actions self) action = true ->
  JumpTaskEnv.step self_get_state self__game_status fuel action self
  = (let* '(killed, exited) := self__game_status in
     let* '(killed, exited) := complete_jump self__game_status fuel killed exited in
     settle self_get_state (agent_pos_x self) killed exited) (movement action self).
Proof.
  intros He Hl.
  unfold JumpTaskEnv.step, complete_jump, settle, movement, tick.
  unfold bind, attr, assign, ret, raise. cbv beta.
  rewrite He, Hl. cbn [negb].
  destruct (jumping self).1; [reflexivity|].
  destruct (action =? 0); [reflexivity|].
  destruct (action =? 1); [reflexivity|].
  destruct (action =? 2); [|reflexivity].
  destruct (agent_pos_x self >? 0); reflexivity.
Qed.

Lemma step_exhausted_eq (fuel : nat) (action : Z) (self : Env) :
  (step_id self >? max_number_of_steps self) = true ->
  JumpTaskEnv.step self_get_state self__game_status fuel action self
  = (let* state := self_get_state in
     let* done := attr done in
     ret (state, 0, done, ∅)) (set_done true self).
Proof.
  intros He. unfold JumpTaskEnv.step. unfold bind, attr, assign, ret. cbv beta.
  rewrite He. reflexivity.
Qed.

End Stage_lemmas.

(** The object after the last stage: the observation is built last and
    assigns nothing, so the object is the same whether it is built or
    not. *)
Section Step_tail.

Variable self_get_state : M ndarray.
Hypothesis get_state_read_only : read_only self_get_state.

Lemma exhausted_tail_state (s : Env) :
  ((let* state := self_get_state in
    let* done := attr done in
    ret (state, 0, done, (∅ : gmap string bool))) s).2 = s.
Proof.
  unfold bind, attr, ret.
  destruct_read_only self_get_state s get_state_read_only; reflexivity.
Qed.

Lemma settle_state (x0 : Z) (killed exited : bool) (s : Env) :
  (settle self_get_state x0 killed exited s).2 = s
  \/ (settle self_get_state x0 killed exited s).2 = set_step_id (step_id s + 1) s.
Proof.
  unfold settle, bind, attr, assign, ret, getitem, raise. cbv beta.
  destruct killed; [|destruct exited];
    repeat match goal with
           | |- context [match ?m !! ?key with _ => _ end] => destruct (m !! key)
           end;
    unfold ret, raise; cbv beta iota; try (left; reflexivity);
    destruct_read_only self_get_state (set_step_id (step_id s + 1) s) get_state_read_only;
    right; reflexivity.
Qed.

End Step_tail.

(** ** The terminal flag *)

Lemma set_done_set_done (b b' : bool) (self : Env) :
  set_done b (set_done b' self) = set_done b self.
Proof. reflexivity. Qed.

Lemma tick_set_done (b : bool) (self : Env) :
  tick (set_done b self) = set_done b (tick self).
Proof.
  unfold tick, JumpTaskEnv._continue_jump. reduce_attributes.
  destruct (agent_pos_y self >? floor_height self + JUMP_HEIGHT);
    reduce_attributes.
  - destruct (agent_pos_y self - agent_speed self * JUMP_VERTICAL_SPEED
              =? floor_height self); reflexivity.
  - destruct (jumping self) as [j [[|]|]]; reduce_attributes; try reflexivity.
    destruct (agent_pos_y self - agent_speed self * JUMP_VERTICAL_SPEED
              =? floor_height self); reflexivity.
Qed.

Lemma movement_set_done (action : Z) (b : bool) (self : Env) :
  movement action (set_done b self) = set_done b (movement action self).
Proof.
  unfold movement.
  change (jumping (set_done b self)) with (jumping self).
  change (agent_pos_x (set_done b self)) with (agent_pos_x self).
  destruct (jumping self).1; [apply tick_set_done|].
  destruct (action =? 0); [reflexivity|].
  destruct (action =? 1); [apply (tick_set_done b (set_jumping (true, Some up) self))|].
  destruct (action =? 2); [|reflexivity].
  destruct (agent_pos_x self >? 0); reflexivity.
Qed.

Lemma game_status_set_done (b : bool) (self : Env) :
  JumpTaskEnv._game_status (set_done b self) = JumpTaskEnv._game_status self.
Proof. reflexivity. Qed.

Section Loop_facts.

Variable self__game_status : M (bool * bool).

(** On the ground the loop is not entered. *)
Lemma finish_jump_loop_grounded (fuel : nat) (killed exited : bool) (self : Env) :
  (jumping self).1 = false ->
  JumpTaskEnv.finish_jump_loop self__game_status fuel killed exited self
  = (Return (killed, exited), self).
Proof. intros H. destruct fuel; simpl; rewrite H; reflexivity. Qed.

(** Nor after a collision or at the exit. *)
Lemma finish_jump_loop_stopped (fuel : nat) (killed exited : bool) (self : Env) :
  killed || exited = true ->
  JumpTaskEnv.finish_jump_loop self__game_status fuel killed exited self
  = (Return (killed, exited), self).
Proof.
  intros H. destruct fuel; simpl; destruct (jumping self).1, killed, exited;
    try discriminate H; reflexivity.
Qed.

End Loop_facts.

Lemma reachable_collided_env : reachable collided_env.
Proof.
  apply reachable_after; [apply reachable_episode|]. vm_compute. reflexivity.
Qed.

(** C1, as stated, fails: in the default environment the 26th step to the
    right ends the episode by collision, and the next step to the right
    (a legal action) moves the agent from x = 26 to x = 27. *)
Lemma step_after_terminal_moves_agent :
  ~ (forall self action fuel,
        reachable self ->
        done self = true ->
        contains (legal_actions self) action = true ->
        agent_pos_x (Base.step fuel action self).2 = agent_pos_x self
        /\ agent_pos_y (Base.step fuel action self).2 = agent_pos_y self).
Proof.
  intros H.
  assert (Hd : done collided_env = true) by (vm_compute; reflexivity).
  assert (Hl : contains (legal_actions collided_env) 0 = true)
    by (vm_compute; reflexivity).
  assert (Hx : (agent_pos_x (Base.step 0 0 collided_env).2
                =? agent_pos_x collided_env) = false)
    by (vm_compute; reflexivity).
  destruct (H collided_env 0 O reachable_collided_env Hd Hl) as [E _].
  rewrite E, Z.eqb_refl in Hx. discriminate Hx.
Qed.

(** C1, amended.  [step] does not read the terminal flag: from a state whose
    flag is set, a legal action gives the same result and the same next
    state as from that state with the flag cleared.  In particular, while
    [step_id] does not exceed [max_number_of_steps], action 0 on the ground
    advances the agent by [agent_speed]; the position is left unchanged once
    [step_id] exceeds [max_number_of_steps]. *)
Theorem step_does_not_read_done (fuel : nat) (action : Z) (self : Env) :
  done self = true ->
  contains (legal_actions self) action = true ->
  Base.step fuel action self = Base.step fuel action (set_done false self)
  /\ (step_id self <= max_number_of_steps self ->
      (jumping self).1 = false -> action = 0 ->
      agent_pos_x (Base.step fuel action self).2 = agent_pos_x self + agent_speed self)
  /\ (step_id self > max_number_of_steps self ->
      agent_pos_x (Base.step fuel action self).2 = agent_pos_x self
      /\ agent_pos_y (Base.step fuel action self).2 = agent_pos_y self).
Proof.
  intros Hd Hl. unfold Base.step.
  destruct (step_id self >? max_number_of_steps self) eqn:He.
  - rewrite (step_exhausted_eq _ _ fuel action self He).
    rewrite (step_exhausted_eq _ _ fuel action (set_done false self) He).
    split; [reflexivity|]. split.
    + intros Hle. apply Z.gtb_lt in He. lia.
    + intros _. rewrite (exhausted_tail_state _ base_get_state_read_only).
      split; reflexivity.
  - rewrite (step_accepted _ _ fuel action self He Hl).
    rewrite (step_accepted _ _ fuel action (set_done false self) He Hl).
    split; [|split].
    + rewrite movement_set_done. unfold bind at 1 3.
      unfold Base._game_status. rewrite game_status_set_done. reflexivity.
    + intros _ Hj ->. unfold movement. rewrite Hj. cbn [Z.eqb].
      unfold bind at 1. unfold Base._game_status. rewrite game_status_eq.
      unfold complete_jump, bind at 1 2, attr at 1.
      match goal with |- context [finish_jump ?s] => destruct (finish_jump s) end.
      * rewrite finish_jump_loop_grounded by exact Hj.
        cbv beta iota.
        match goal with |- context [settle ?g ?x ?k ?e ?s] =>
          destruct (settle_state g base_get_state_read_only x k e s) as [-> | ->] end;
          reflexivity.
      * unfold ret. cbv beta iota.
        match goal with |- context [settle ?g ?x ?k ?e ?s] =>
          destruct (settle_state g base_get_state_read_only x k e s) as [-> | ->] end;
          reflexivity.
    + intros Hgt. rewrite Z.gtb_ltb in He. apply Z.ltb_ge in He. lia.
Qed.

Lemma step_does_not_read_done_witness :
  Base.step 0 0 collided_env = Base.step 0 0 (set_done false collided_env).
Proof.
  assert (Hd : done collided_env = true) by (vm_compute; reflexivity).
  assert (Hl : contains (legal_actions collided_env) 0 = true)
    by (vm_compute; reflexivity).
  exact (proj1 (step_does_not_read_done 0 0 collided_env Hd Hl)).
Defined.

(** ** The jump: invariant and termination of the completion loop *)

Lemma same_motion_wf (s s' : Env) : same_motion s s' -> jump_wf s -> jump_wf s'.
Proof. intros (Hy & Hj & Hv & Hf). unfold jump_wf. rewrite Hy, Hj, Hv, Hf. auto. Qed.

Lemma same_motion_measure (s s' : Env) :
  same_motion s s' -> jump_measure s' = jump_measure s.
Proof. intros (Hy & Hj & Hv & Hf). unfold jump_measure. rewrite Hy, Hj, Hv, Hf. auto. Qed.

(** What one call of [_continue_jump] does to direction and height. *)
Lemma tick_jump (self : Env) :
  agent_speed (tick self) = agent_speed self
  /\ floor_height (tick self) = floor_height self
  /\ agent_pos_x (tick self) = Z.max (agent_pos_x self + agent_current_speed self) 0
  /\ (jumping (tick self), agent_pos_y (tick self))
     = let y := agent_pos_y self in
       let v := agent_speed self * JUMP_VERTICAL_SPEED in
       let dir := if y >? floor_height self + JUMP_HEIGHT then Some down
                  else (jumping self).2 in
       match dir with
       | Some up => (((jumping self).1, dir), y + v)
       | Some down =>
           ((if y - v =? floor_height self then false else (jumping self).1, dir), y - v)
       | None => (((jumping self).1, dir), y)
       end.
Proof.
  unfold tick, JumpTaskEnv._continue_jump. reduce_attributes.
  destruct (agent_pos_y self >? floor_height self + JUMP_HEIGHT); reduce_attributes.
  - destruct (agent_pos_y self - agent_speed self * JUMP_VERTICAL_SPEED
              =? floor_height self); repeat split; reflexivity.
  - destruct (jumping self) as [j [[|]|]] eqn:Ej; reduce_attributes; rewrite ?Ej;
      try (repeat split; reflexivity).
    destruct (agent_pos_y self - agent_speed self * JUMP_VERTICAL_SPEED
              =? floor_height self); reduce_attributes; rewrite ?Ej;
      repeat split; reflexivity.
Qed.

Lemma tick_wf (self : Env) :
  jump_wf self -> (jumping self).1 = true ->
  jump_wf (tick self)
  /\ 0 < jump_measure self
  /\ jump_measure (tick self) < jump_measure self.
Proof.
  intros [Hv Hw] Hj.
  destruct (tick_jump self) as (Ev & Ef & _ & E).
  unfold jump_wf, jump_measure. rewrite Ev, Ef.
  unfold JUMP_VERTICAL_SPEED, JUMP_HEIGHT in *. cbv zeta in E.
  destruct (jumping self) as [j dir]. cbn [fst snd] in *. subst j.
  destruct dir as [[|]|]; [| |contradiction]; destruct Hw as (k & Hk & Hy).
  - (* going up *)
    destruct (agent_pos_y self >? floor_height self + 15) eqn:Htop.
    + apply Z.gtb_lt in Htop.
      destruct (agent_pos_y self - agent_speed self * 1 =? floor_height self) eqn:Hl;
        injection E as Ej Ey; rewrite Ej, Ey.
      * apply Z.eqb_eq in Hl. repeat split; lia.
      * apply Z.eqb_neq in Hl. split; [|lia]. split; [exact Hv|].
        exists (k - 1). split; [|lia].
        assert (k <> 1) by (intros ->; lia). assert (k <> 0) by (intros ->; lia). lia.
    + rewrite Z.gtb_ltb in Htop. apply Z.ltb_ge in Htop.
      injection E as Ej Ey; rewrite Ej, Ey.
      split; [split; [exact Hv|exists (k + 1); split; lia]|].
      destruct (agent_pos_y self + agent_speed self * 1 >? floor_height self + 15) eqn:H';
        [apply Z.gtb_lt in H'|]; lia.
  - (* coming down *)
    assert (Hd : (if agent_pos_y self >? floor_height self + 15
                  then Some down else Some down) = Some down)
      by (destruct (agent_pos_y self >? floor_height self + 15); reflexivity).
    rewrite Hd in E. clear Hd.
    assert (0 < k * agent_speed self) by nia.
    destruct (agent_pos_y self - agent_speed self * 1 =? floor_height self) eqn:Hl;
      injection E as Ej Ey; rewrite Ej, Ey.
    + apply Z.eqb_eq in Hl. repeat split; lia.
    + apply Z.eqb_neq in Hl. split; [|lia]. split; [exact Hv|].
      exists (k - 1). split; [|lia].
      assert (k <> 1) by (intros ->; lia). lia.
Qed.

Lemma same_setting_refl (s : Env) : same_setting s s.
Proof. repeat split. Qed.

Lemma same_setting_trans (s1 s2 s3 : Env) :
  same_setting s1 s2 -> same_setting s2 s3 -> same_setting s1 s3.
Proof.
  unfold same_setting. intros H1 H2.
  repeat match goal with H : _ /\ _ |- _ => destruct H end.
  repeat split; congruence.
Qed.

Lemma tick_setting (self : Env) : same_setting self (tick self).
Proof.
  unfold tick, JumpTaskEnv._continue_jump, same_setting. reduce_attributes.
  destruct (agent_pos_y self >? floor_height self + JUMP_HEIGHT); reduce_attributes;
    [|destruct (jumping self) as [j [[|]|]] eqn:Ej; reduce_attributes];
    try destruct (agent_pos_y self - agent_speed self * JUMP_VERTICAL_SPEED
                  =? floor_height self);
    repeat split; reflexivity.
Qed.

Lemma tick_already_collided (self : Env) :
  _already_collided (tick self) = _already_collided self.
Proof.
  unfold tick, JumpTaskEnv._continue_jump. reduce_attributes.
  destruct (agent_pos_y self >? floor_height self + JUMP_HEIGHT); reduce_attributes;
    [|destruct (jumping self) as [j [[|]|]] eqn:Ej; reduce_attributes];
    try destruct (agent_pos_y self - agent_speed self * JUMP_VERTICAL_SPEED
                  =? floor_height self);
    reflexivity.
Qed.

Lemma movement_setting (action : Z) (self : Env) :
  same_setting self (movement action self).
Proof.
  unfold movement.
  destruct (jumping self).1; [apply tick_setting|].
  destruct (action =? 0); [repeat split|].
  destruct (action =? 1).
  { apply (same_setting_trans _ (set_jumping (true, Some up) self));
      [repeat split|apply tick_setting]. }
  destruct (action =? 2); [|apply same_setting_refl].
  destruct (agent_pos_x self >? 0); repeat split.
Qed.

Lemma movement_already_collided (action : Z) (self : Env) :
  _already_collided (movement action self) = _already_collided self.
Proof.
  unfold movement.
  destruct (jumping self).1; [apply tick_already_collided|].
  destruct (action =? 0); [reflexivity|].
  destruct (action =? 1); [apply (tick_already_collided (set_jumping _ self))|].
  destruct (action =? 2); [|reflexivity].
  destruct (agent_pos_x self >? 0); reflexivity.
Qed.

Lemma movement_wf (action : Z) (self : Env) :
  jump_wf self -> jump_wf (movement action self).
Proof.
  intros Hw. unfold movement.
  destruct (jumping self).1 eqn:Hj; [apply tick_wf; assumption|].
  assert (Hg : agent_pos_y self = floor_height self).
  { destruct Hw as [_ Hw]. destruct (jumping self) as [j d].
    cbn [fst] in Hj. subst j. exact Hw. }
  destruct (action =? 0); [apply (same_motion_wf self); [repeat split|exact Hw]|].
  destruct (action =? 1).
  { apply tick_wf; [|reflexivity]. split; [apply Hw|].
    reduce_attributes. exists 0. split; lia. }
  destruct (action =? 2); [|exact Hw].
  destruct (agent_pos_x self >? 0);
    (apply (same_motion_wf self); [repeat split|exact Hw]).
Qed.

Section Loop_spec.

Variable self__game_status : M (bool * bool).
Variable I : bool -> bool -> Env -> Prop.

(** The status method returns and leaves the jump alone. *)
Hypothesis status_frame :
  forall s, exists killed exited s',
    self__game_status s = (Return (killed, exited), s') /\ same_motion s s'.

(** [I] survives one round of the loop. *)
Hypothesis I_round :
  forall killed exited s killed' exited' s',
    I killed exited s ->
    (jumping s).1 = true -> killed = false -> exited = false ->
    self__game_status (tick s) = (Return (killed', exited'), s') ->
    I killed' exited' s'.

Lemma finish_jump_loop_spec (fuel : nat) :
  forall s killed exited,
    jump_wf s ->
    jump_measure s <= Z.of_nat fuel ->
    I killed exited s ->
    exists killed' exited' s',
      JumpTaskEnv.finish_jump_loop self__game_status fuel killed exited s
      = (Return (killed', exited'), s')
      /\ I killed' exited' s'
      /\ jump_wf s'
      /\ (jumping s').1 && negb killed' && negb exited' = false.
Proof.
  induction fuel as [|fuel IH]; intros s killed exited Hw Hm HI.
  - cbn [JumpTaskEnv.finish_jump_loop].
    destruct ((jumping s).1 && negb killed && negb exited) eqn:Hg.
    + apply andb_true_iff in Hg as [Hg _]. apply andb_true_iff in Hg as [Hj _].
      destruct (tick_wf s Hw Hj) as (_ & Hpos & _). simpl in Hm. lia.
    + exists killed, exited, s.
      split; [reflexivity|]. split; [exact HI|]. split; [exact Hw|exact Hg].
  - cbn [JumpTaskEnv.finish_jump_loop].
    destruct ((jumping s).1 && negb killed && negb exited) eqn:Hg.
    + apply andb_true_iff in Hg as [Hg He]. apply andb_true_iff in Hg as [Hj Hk].
      apply negb_true_iff in Hk, He.
      destruct (tick_wf s Hw Hj) as (Hw' & Hpos & Hdec).
      unfold bind at 1. rewrite _continue_jump_eq. unfold bind at 1.
      destruct (status_frame (tick s)) as (k' & e' & s' & Es & Hsm).
      rewrite Es.
      apply IH.
      * apply (same_motion_wf (tick s)); assumption.
      * rewrite (same_motion_measure (tick s) s' Hsm). lia.
      * apply (I_round killed exited s k' e' s'); assumption.
    + exists killed, exited, s.
      split; [reflexivity|]. split; [exact HI|]. split; [exact Hw|exact Hg].
Qed.

End Loop_spec.

(** ** The reward of an accepted step *)

Section Accepted_step.

(** The observation method of the class does not assign, and whether it
    returns depends on the setting only; the status method returns and
    assigns neither the jump nor the setting. *)
Variable self_get_state : M ndarray.
Variable self__game_status : M (bool * bool).
Hypothesis get_state_read_only : read_only self_get_state.
Hypothesis get_state_setting : reads_setting self_get_state.
Hypothesis status_frame :
  forall s, exists killed exited s',
    self__game_status s = (Return (killed, exited), s')
    /\ same_motion s s' /\ same_setting s s' /\ agent_pos_x s' = agent_pos_x s.

(** A property of the flags and the object that every evaluation of the
    status in the call establishes. *)
Variable I : bool -> bool -> Env -> Prop.
Hypothesis I_round :
  forall killed exited s killed' exited' s',
    I killed exited s ->
    (jumping s).1 = true -> killed = false -> exited = false ->
    self__game_status (tick s) = (Return (killed', exited'), s') ->
    I killed' exited' s'.

Lemma step_accepted_spec (action : Z) (self : Env) (life exit : Z) :
  returned (self_get_state self) = true ->
  step_id self <= max_number_of_steps self ->
  contains (legal_actions self) action = true ->
  rewards self !! "life" = Some life ->
  rewards self !! "exit" = Some exit ->
  (finish_jump self = true -> jump_wf self) ->
  (forall killed exited s',
      self__game_status (movement action self) = (Return (killed, exited), s') ->
      I killed exited s') ->
  exists fuel0, forall fuel, (fuel0 <= fuel)%nat ->
    exists (killed exited : bool) (s3 : Env) (state : ndarray),
      JumpTaskEnv.step self_get_state self__game_status fuel action self
      = (Return (state,
                 (if killed then life
                  else if exited then agent_pos_x s3 - agent_pos_x self + exit
                       else agent_pos_x s3 - agent_pos_x self),
                 done s3,
                 {["collision" := killed]}),
         set_step_id (step_id s3 + 1) s3)
      /\ I killed exited s3
      /\ same_setting self s3
      /\ (finish_jump self = true ->
          jump_wf s3 /\ (jumping s3).1 && negb killed && negb exited = false).
Proof.
  intros Hobs Hid Hl Hlife Hexit Hwf Hfirst.
  assert (He : (step_id self >? max_number_of_steps self) = false)
    by (rewrite Z.gtb_ltb; apply Z.ltb_ge; exact Hid).
  exists (Z.to_nat (jump_measure (movement action self))). intros fuel Hfuel.
  rewrite (step_accepted _ _ fuel action self He Hl).
  pose proof (movement_setting action self) as Hset.
  set (s1 := movement action self) in *.
  unfold bind at 1.
  destruct (status_frame s1) as (k0 & e0 & s2 & E0 & Hm2 & Hs2 & _).
  rewrite E0. cbv beta iota.
  pose (J := fun (k e : bool) (s : Env) => I k e s /\ same_setting self s).
  assert (HJ : J k0 e0 s2).
  { split; [apply Hfirst, E0|]. apply (same_setting_trans self s1); assumption. }
  assert (Hloop : exists k e s3,
             complete_jump self__game_status fuel k0 e0 s2 = (Return (k, e), s3)
             /\ J k e s3
             /\ (finish_jump self = true ->
                 jump_wf s3 /\ (jumping s3).1 && negb k && negb e = false)).
  { unfold complete_jump, bind at 1, attr at 1.
    destruct (finish_jump s2) eqn:Hfj.
    - assert (Hw : jump_wf s2).
      { apply (same_motion_wf s1); [exact Hm2|].
        apply movement_wf, Hwf.
        destruct HJ as (_ & _ & _ & Hf & _). rewrite <- Hf. exact Hfj. }
      destruct (finish_jump_loop_spec self__game_status J) with
        (fuel := fuel) (s := s2) (killed := k0) (exited := e0)
        as (k & e & s3 & E & HJ3 & Hw3 & Hg3).
      + intros s. destruct (status_frame s) as (k & e & s' & E & Hm & _).
        exists k, e, s'. auto.
      + intros k e s k' e' s' (HI & Hs) Hj Hk Hex E. split.
        * apply (I_round k e s k' e' s'); assumption.
        * destruct (status_frame (tick s)) as (k'' & e'' & s'' & E' & _ & Hs' & _).
          rewrite E in E'. injection E' as <- <- <-.
          apply (same_setting_trans self (tick s)); [|exact Hs'].
          apply (same_setting_trans self s); [exact Hs|apply tick_setting].
      + exact Hw.
      + rewrite (same_motion_measure s1 s2 Hm2). lia.
      + exact HJ.
      + exists k, e, s3. auto.
    - exists k0, e0, s2. split; [reflexivity|]. split; [exact HJ|].
      intros Hfj'. destruct HJ as (_ & _ & _ & Hf & _). congruence. }
  destruct Hloop as (k & e & s3 & E & (HI3 & Hs3) & Hfin).
  unfold bind at 1. rewrite E. cbv beta iota.
  unfold settle, bind, attr, assign, ret, getitem, raise. cbv beta.
  destruct (Hs3) as (Hr & _).
  rewrite Hr, Hlife, Hexit.
  destruct (read_only_returns self_get_state (set_step_id (step_id s3 + 1) s3)
              get_state_read_only) as [obs Ho].
  { rewrite (proj2 get_state_setting), (proj1 get_state_setting self s3 Hs3). exact Hobs. }
  exists k, e, s3, obs.
  split; [|split; [exact HI3|split; [exact Hs3|exact Hfin]]].
  destruct k; [|destruct e]; unfold ret; cbv beta iota; rewrite Ho;
    cbv beta iota;
    change (done (set_step_id (step_id s3 + 1) s3)) with (done s3);
    repeat f_equal; lia.
Qed.

End Accepted_step.

Lemma base_status_frame (s : Env) :
  exists killed exited s',
    JumpTaskEnv._game_status s = (Return (killed, exited), s')
    /\ same_motion s s' /\ same_setting s s' /\ agent_pos_x s' = agent_pos_x s.
Proof. rewrite game_status_eq. eexists _, _, _. repeat split. Qed.

Section Reward.

Variable self_get_state : M ndarray.
Hypothesis get_state_read_only : read_only self_get_state.
Hypothesis get_state_setting : reads_setting self_get_state.

Lemma step_reward_of_class (action : Z) (self : Env) (life exit : Z) :
  returned (self_get_state self) = true ->
  step_id self <= max_number_of_steps self ->
  contains (legal_actions self) action = true ->
  rewards self !! "life" = Some life ->
  rewards self !! "exit" = Some exit ->
  (finish_jump self = true -> jump_wf self) ->
  exists fuel0, forall fuel, (fuel0 <= fuel)%nat ->
    exists state self',
      JumpTaskEnv.step self_get_state JumpTaskEnv._game_status fuel action self
      = (Return (state,
                 (if failure_of self' then life
                  else if success_of self'
                       then agent_pos_x self' - agent_pos_x self + exit
                       else agent_pos_x self' - agent_pos_x self),
                 done self',
                 {["collision" := failure_of self']}),
         self')
      /\ step_id self' = step_id self + 1
      /\ done self' = failure_of self' || success_of self'.
Proof.
  intros Hobs Hid Hl Hlife Hexit Hwf.
  pose (I := fun (k e : bool) (s : Env) =>
               k = failure_of s /\ e = success_of s /\ done s = k || e).
  destruct (step_accepted_spec self_get_state JumpTaskEnv._game_status
              get_state_read_only get_state_setting base_status_frame I) with
    (action := action) (self := self) (life := life) (exit := exit)
    as [fuel0 H]; try assumption.
  - intros k e s k' e' s' _ _ _ _ E.
    rewrite game_status_eq in E. injection E as <- <- <-. repeat split.
  - intros k e s' E.
    rewrite game_status_eq in E. injection E as <- <- <-. repeat split.
  - exists fuel0. intros fuel Hfuel.
    destruct (H fuel Hfuel) as (k & e & s3 & obs & E & (Hk & Hex & Hd) & Hs3 & _).
    exists obs, (set_step_id (step_id s3 + 1) s3).
    change (failure_of (set_step_id (step_id s3 + 1) s3)) with (failure_of s3).
    change (success_of (set_step_id (step_id s3 + 1) s3)) with (success_of s3).
    change (done (set_step_id (step_id s3 + 1) s3)) with (done s3).
    change (agent_pos_x (set_step_id (step_id s3 + 1) s3)) with (agent_pos_x s3).
    change (step_id (set_step_id (step_id s3 + 1) s3)) with (step_id s3 + 1).
    rewrite <- Hk, <- Hex. split; [exact E|]. split; [|exact Hd].
    destruct Hs3 as (_ & -> & _). reflexivity.
Qed.

End Reward.

Lemma first_step_of_episode :
  exists state self',
    Base.step 0 0 (episode 30 10) = (Return (state, 1, false, {["collision" := false]}), self')
    /\ (agent_pos_x self' - agent_pos_x (episode 30 10) =? 1) = true.
Proof. eexists _, _. split; vm_compute; reflexivity. Qed.

Lemma rewards_of_episode :
  rewards (episode 30 10) = {["life" := -1; "exit" := 100]}.
Proof. vm_compute. reflexivity. Qed.

(** C3, as stated, fails: the first step to the right in the default
    environment is accepted, meets no obstacle and does not reach the edge;
    it moves the agent by 1 and returns the reward 1.  No entry of the reward
    table (-1 and 100), subtracted or added, gives that reward. *)
Lemma reward_has_no_step_penalty :
  ~ (exists key penalty,
        rewards (episode 30 10) !! key = Some penalty
        /\ forall state reward terminal info self',
            Base.step 0 0 (episode 30 10) = (Return (state, reward, terminal, info), self') ->
            info !! "collision" = Some false ->
            terminal = false ->
            reward = agent_pos_x self' - agent_pos_x (episode 30 10) - penalty
            \/ reward = agent_pos_x self' - agent_pos_x (episode 30 10) + penalty).
Proof.
  intros (key & penalty & Hk & H).
  destruct first_step_of_episode as (state & self' & E & Hx).
  apply Z.eqb_eq in Hx.
  specialize (H state 1 false _ self' E (lookup_singleton_eq _ _) eq_refl).
  rewrite Hx in H.
  rewrite rewards_of_episode in Hk.
  apply lookup_insert_Some in Hk as [[_ <-]|[_ Hk]]; [lia|].
  apply lookup_singleton_Some in Hk as [_ <-]. lia.
Qed.

(** C3, amended.  For every accepted call of [step] (the step budget is
    not exhausted, the action is legal) on an object whose reward table has
    the entries [life] and [exit], whose jump is well formed when
    [finish_jump] is set, and whose observation can be built ([get_state]
    returns on it), the call returns for every sufficient fuel, and the
    reward is: [life] if the agent overlaps an obstacle after the call;
    otherwise the agent's x after the call minus its x before the call, plus
    [exit] if the agent is past the right edge.  No per-step penalty is
    subtracted.  The terminal flag is the disjunction of collision and exit,
    [info] holds the collision flag and [step_id] grows by one.  This is
    [JumpTaskEnv.step], as instances of [JumpTaskEnv] and of
    [JumpTaskEnvWithCoordinates] run it; the observation of the coordinate
    class can always be built. *)
Theorem step_reward (action : Z) (self : Env) (life exit : Z) :
  step_id self <= max_number_of_steps self ->
  contains (legal_actions self) action = true ->
  rewards self !! "life" = Some life ->
  rewards self !! "exit" = Some exit ->
  (finish_jump self = true -> jump_wf self) ->
  (returned (Base.get_state self) = true ->
   exists fuel0, forall fuel, (fuel0 <= fuel)%nat ->
     exists state self',
       Base.step fuel action self
       = (Return (state, reward_rule life exit self self', done self',
                  {["collision" := failure_of self']}), self')
       /\ step_id self' = step_id self + 1
       /\ done self' = failure_of self' || success_of self')
  /\ (exists fuel0, forall fuel, (fuel0 <= fuel)%nat ->
       exists state self',
         JumpTaskEnvWithCoordinates.step fuel action self
         = (Return (state, reward_rule life exit self self', done self',
                    {["collision" := failure_of self']}), self')
         /\ step_id self' = step_id self + 1
         /\ done self' = failure_of self' || success_of self').
Proof.
  intros Hid Hl Hlife Hexit Hwf. split.
  - intros Hobs.
    exact (step_reward_of_class Base.get_state base_get_state_read_only base_reads_setting
             action self life exit Hobs Hid Hl Hlife Hexit Hwf).
  - exact (step_reward_of_class JumpTaskEnvWithCoordinates.get_state
             coordinates_get_state_read_only coordinates_reads_setting
             action self life exit eq_refl Hid Hl Hlife Hexit Hwf).
Qed.

Lemma finish_jump_of_episode : finish_jump (episode 30 10) = false.
Proof. vm_compute. reflexivity. Qed.

Lemma step_reward_witness :
  exists fuel0, forall fuel, (fuel0 <= fuel)%nat ->
    exists state self',
      Base.step fuel 0 (episode 30 10)
      = (Return (state, reward_rule (-1) 100 (episode 30 10) self', done self',
                 {["collision" := failure_of self']}), self')
      /\ step_id self' = step_id (episode 30 10) + 1
      /\ done self' = failure_of self' || success_of self'.
Proof.
  assert (Hid : step_id (episode 30 10) <= max_number_of_steps (episode 30 10))
    by (vm_compute; discriminate).
  assert (Hl : contains (legal_actions (episode 30 10)) 0 = true)
    by (vm_compute; reflexivity).
  assert (Hlife : rewards (episode 30 10) !! "life" = Some (-1))
    by (vm_compute; reflexivity).
  assert (Hexit : rewards (episode 30 10) !! "exit" = Some 100)
    by (vm_compute; reflexivity).
  assert (Hwf : finish_jump (episode 30 10) = true -> jump_wf (episode 30 10))
    by (rewrite finish_jump_of_episode; discriminate).
  assert (Hobs : returned (Base.get_state (episode 30 10)) = true)
    by (vm_compute; reflexivity).
  exact (proj1 (step_reward 0 (episode 30 10) (-1) 100 Hid Hl Hlife Hexit Hwf) Hobs).
Defined.

(** ** The colour class *)

Lemma colors_game_status_eq (self : Env) :
  JumpTaskEnvWithColors._game_status self
  = (Return (collided_of self, success_of self),
     set_already_collided (_already_collided self || collided_of self)
       (set_done (match _obstacle_color self with
                  | GREEN => success_of self
                  | RED => failure_of self || success_of self
                  end)
          (set_done (failure_of self || success_of self) self))).
Proof.
  unfold JumpTaskEnvWithColors._game_status, collided_of, bind at 1.
  rewrite game_status_eq. cbv beta iota.
  unfold bind, attr, assign, ret. cbv beta.
  change (_obstacle_color (set_done (failure_of self || success_of self) self))
    with (_obstacle_color self).
  destruct (_obstacle_color self); reflexivity.
Qed.

Lemma colors_status_frame (s : Env) :
  exists killed exited s',
    JumpTaskEnvWithColors._game_status s = (Return (killed, exited), s')
    /\ same_motion s s' /\ same_setting s s' /\ agent_pos_x s' = agent_pos_x s.
Proof. rewrite colors_game_status_eq. eexists _, _, _. repeat split. Qed.

Lemma landing_on_green_obstacle :
  exists state self',
    JumpTaskEnvWithColors.step 0 1 above_obstacle_env
    = (Return (state, -1, false, {["collision" := true]}), self').
Proof. eexists _, _. vm_compute. reflexivity. Qed.

(** C8, as stated, fails.  With a green obstacle at 20 the agent jumps at
    x = 0; on the 23rd call it comes down onto the obstacle.  That call is
    the first of the episode to observe a collision ([info] says so) and
    its reward is the life penalty -1: the bonus of 100 is not added.  The
    agent then lands and walks to the right edge; the bonus is paid on no
    call of the episode, whose rewards are 1 except for the -1 of the
    collision and the final 1 + 100 of the exit. *)
Lemma green_collision_in_the_air_pays_no_bonus :
  _obstacle_color above_obstacle_env = GREEN
  /\ _already_collided above_obstacle_env = false
  /\ rewards above_obstacle_env !! "collision" = Some 100
  /\ ~ (forall state reward terminal info self',
          JumpTaskEnvWithColors.step 0 1 above_obstacle_env
          = (Return (state, reward, terminal, info), self') ->
          info !! "collision" = Some true ->
          reward = -1 + 100)
  /\ map reward_of (rollout (JumpTaskEnvWithColors.step 0)
                      (repeat 1 32%nat ++ repeat 0 24%nat) (green_episode 20 10))
     = map Some (repeat 1 22%nat ++ [-1] ++ repeat 1 32%nat ++ [1 + 100])
  /\ map collision_of (rollout (JumpTaskEnvWithColors.step 0)
                         (repeat 1 32%nat ++ repeat 0 24%nat) (green_episode 20 10))
     = map Some (repeat false 22%nat ++ [true] ++ repeat false 33%nat)
  /\ done (after (JumpTaskEnvWithColors.step 0)
             (repeat 1 32%nat ++ repeat 0 24%nat) (green_episode 20 10)) = true.
Proof.
  split; [vm_compute; reflexivity|]. split; [vm_compute; reflexivity|].
  split; [vm_compute; reflexivity|]. split.
  - intros H. destruct landing_on_green_obstacle as (state & self' & E).
    specialize (H state (-1) false _ self' E (lookup_singleton_eq _ _)).
    discriminate H.
  - repeat split; vm_compute; reflexivity.
Qed.

(** C8, amended.  With a green obstacle, for every accepted call of [step]
    (on an object whose reward table has the entries [life], [exit] and
    [collision], whose jump is well formed when [finish_jump] is set, and
    whose observation can be built: [get_state] returns on it):
    the collision flag of [info] is set exactly when the agent overlaps an
    obstacle after the call and [_already_collided] was not set before; the
    reward is that of [JumpTaskEnv.step] for this flag (the life penalty when
    it is set), plus the collision bonus when the flag is set and the agent
    is on the floor; [_already_collided] is set from the first overlap on,
    so the flag is raised, and the bonus paid, on at most one call until the
    next reset; and the terminal flag is the exit test alone. *)
Theorem green_collision_bonus (action : Z) (self : Env) (life exit bonus : Z) :
  _obstacle_color self = GREEN ->
  step_id self <= max_number_of_steps self ->
  contains (legal_actions self) action = true ->
  rewards self !! "life" = Some life ->
  rewards self !! "exit" = Some exit ->
  rewards self !! "collision" = Some bonus ->
  (finish_jump self = true -> jump_wf self) ->
  returned (JumpTaskEnvWithColors.get_state self) = true ->
  exists fuel0, forall fuel, (fuel0 <= fuel)%nat ->
    exists state self',
      let collided := negb (_already_collided self) && failure_of self' in
      let on_floor := agent_pos_y self' =? floor_height self' in
      JumpTaskEnvWithColors.step fuel action self
      = (Return (state,
                 (if collided then life
                  else if success_of self'
                       then agent_pos_x self' - agent_pos_x self + exit
                       else agent_pos_x self' - agent_pos_x self)
                 + (if on_floor && collided then bonus else 0),
                 done self',
                 {["collision" := collided]}),
         self')
      /\ done self' = success_of self'
      /\ _already_collided self' = _already_collided self || failure_of self'
      /\ step_id self' = step_id self + 1.
Proof.
  intros Hgreen Hid Hl Hlife Hexit Hbonus Hwf Hobs.
  pose (a0 := _already_collided self).
  pose (I := fun (k e : bool) (s : Env) =>
               k = negb a0 && failure_of s /\ e = success_of s
               /\ done s = e /\ _already_collided s = a0 || k
               /\ _obstacle_color s = GREEN).
  destruct (step_accepted_spec JumpTaskEnvWithColors.get_state
              JumpTaskEnvWithColors._game_status
              colors_get_state_read_only colors_reads_setting colors_status_frame I) with
    (action := action) (self := self) (life := life) (exit := exit)
    as [fuel0 H]; try assumption.
  - intros k e s k' e' s' (_ & _ & _ & Ha & Hc) _ -> _ E.
    rewrite colors_game_status_eq in E. injection E as <- <- <-.
    assert (Hc' : _obstacle_color (tick s) = GREEN).
    { destruct (tick_setting s) as (_ & _ & _ & _ & _ & _ & _ & _ & _ & _ & -> & _).
      exact Hc. }
    assert (Ha' : _already_collided (tick s) = a0).
    { rewrite tick_already_collided, Ha. apply orb_false_r. }
    unfold I, collided_of. reduce_attributes. rewrite Hc', Ha'.
    repeat split; try (destruct a0; reflexivity).
  - intros k e s' E.
    rewrite colors_game_status_eq in E. injection E as <- <- <-.
    assert (Hc' : _obstacle_color (movement action self) = GREEN).
    { destruct (movement_setting action self)
        as (_ & _ & _ & _ & _ & _ & _ & _ & _ & _ & -> & _).
      exact Hgreen. }
    unfold I, collided_of. reduce_attributes.
    rewrite Hc', movement_already_collided. fold a0.
    repeat split; try (destruct a0; reflexivity).
  - exists fuel0. intros fuel Hfuel.
    destruct (H fuel Hfuel) as (k & e & s3 & obs & E & (Hk & Hex & Hd & Ha & Hc) & Hs3 & _).
    exists obs, (set_step_id (step_id s3 + 1) s3).
    cbv zeta.
    change (failure_of (set_step_id (step_id s3 + 1) s3)) with (failure_of s3).
    change (success_of (set_step_id (step_id s3 + 1) s3)) with (success_of s3).
    change (done (set_step_id (step_id s3 + 1) s3)) with (done s3).
    change (agent_pos_x (set_step_id (step_id s3 + 1) s3)) with (agent_pos_x s3).
    change (agent_pos_y (set_step_id (step_id s3 + 1) s3)) with (agent_pos_y s3).
    change (floor_height (set_step_id (step_id s3 + 1) s3)) with (floor_height s3).
    change (_already_collided (set_step_id (step_id s3 + 1) s3))
      with (_already_collided s3).
    change (step_id (set_step_id (step_id s3 + 1) s3)) with (step_id s3 + 1).
    fold a0. rewrite <- Hk, <- Hex.
    split; [|split; [exact Hd|split]].
    + unfold JumpTaskEnvWithColors.step, bind at 1. rewrite E. cbv beta iota.
      unfold bind, attr, ret, getitem, raise. cbv beta.
      change (agent_pos_y (set_step_id (step_id s3 + 1) s3)) with (agent_pos_y s3).
      change (floor_height (set_step_id (step_id s3 + 1) s3)) with (floor_height s3).
      change (rewards (set_step_id (step_id s3 + 1) s3)) with (rewards s3).
      rewrite lookup_singleton_eq. destruct Hs3 as (Hr & _).
      destruct (agent_pos_y s3 =? floor_height s3); unfold ret; cbv beta iota;
        [destruct k; cbv beta iota|]; cbn [andb];
        try (change (rewards (set_step_id (step_id s3 + 1) s3)) with (rewards s3);
             rewrite Hr, Hbonus; cbv beta iota);
        repeat f_equal; lia.
    + rewrite Ha, Hk. destruct a0, (failure_of s3); reflexivity.
    + destruct Hs3 as (_ & -> & _). reflexivity.
Qed.

Example walking_into_green_obstacle :
  reward_of (JumpTaskEnvWithColors.step 0 0 before_obstacle_env) = Some (-1 + 100)
  /\ collision_of (JumpTaskEnvWithColors.step 0 0 before_obstacle_env) = Some true
  /\ done (JumpTaskEnvWithColors.step 0 0 before_obstacle_env).2 = false.
Proof. repeat split; vm_compute; reflexivity. Qed.

Lemma finish_jump_before_obstacle : finish_jump before_obstacle_env = false.
Proof. vm_compute. reflexivity. Qed.

Lemma green_collision_bonus_witness :
  exists fuel0, forall fuel, (fuel0 <= fuel)%nat ->
    exists state self',
      JumpTaskEnvWithColors.step fuel 0 before_obstacle_env
      = (Return (state,
                 (if negb (_already_collided before_obstacle_env) && failure_of self'
                  then -1
                  else if success_of self'
                       then agent_pos_x self' - agent_pos_x before_obstacle_env + 100
                       else agent_pos_x self' - agent_pos_x before_obstacle_env)
                 + (if (agent_pos_y self' =? floor_height self')
                       && (negb (_already_collided before_obstacle_env) && failure_of self')
                    then 100 else 0),
                 done self',
                 {["collision" :=
                     negb (_already_collided before_obstacle_env) && failure_of self']}),
         self')
      /\ done self' = success_of self'.
Proof.
  assert (Hc : _obstacle_color before_obstacle_env = GREEN) by (vm_compute; reflexivity).
  assert (Hid : step_id before_obstacle_env <= max_number_of_steps before_obstacle_env)
    by (vm_compute; discriminate).
  assert (Hl : contains (legal_actions before_obstacle_env) 0 = true)
    by (vm_compute; reflexivity).
  assert (Hlife : rewards before_obstacle_env !! "life" = Some (-1))
    by (vm_compute; reflexivity).
  assert (Hexit : rewards before_obstacle_env !! "exit" = Some 100)
    by (vm_compute; reflexivity).
  assert (Hbonus : rewards before_obstacle_env !! "collision" = Some 100)
    by (vm_compute; reflexivity).
  assert (Hwf : finish_jump before_obstacle_env = true -> jump_wf before_obstacle_env)
    by (rewrite finish_jump_before_obstacle; discriminate).
  assert (Hobs : returned (JumpTaskEnvWithColors.get_state before_obstacle_env) = true)
    by (vm_compute; reflexivity).
  destruct (green_collision_bonus 0 before_obstacle_env (-1) 100 100
              Hc Hid Hl Hlife Hexit Hbonus Hwf Hobs) as [fuel0 H].
  exists fuel0. intros fuel Hfuel.
  destruct (H fuel Hfuel) as (state & self' & E & Hd & _).
  exists state, self'. split; [exact E|exact Hd].
Defined.

(** ** Exhausted step budget *)

(** The raster encoders return or raise what numpy raises. *)
Lemma np_zeros_painted_outcome (shape : list Z) (paint : list assignment)
    (a : ndarray) (s : Env) :
  (np_zeros_painted shape paint >> ret a) s = (Return a, s)
  \/ (np_zeros_painted shape paint >> ret a) s = (Raise ValueError, s)
  \/ (np_zeros_painted shape paint >> ret a) s = (Raise IndexError, s).
Proof.
  unfold np_zeros_painted, bind, ret, raise.
  destruct (existsb _ _); [right; left; reflexivity|].
  destruct (forallb _ _); [left; reflexivity|right; right; reflexivity].
Qed.

Lemma base_get_state_set_done (b : bool) (s : Env) :
  (Base.get_state (set_done b s)).1 = (Base.get_state s).1.
Proof.
  unfold Base.get_state, JumpTaskEnv.get_state, np_zeros_painted, bind, ret, raise.
  reduce_attributes.
  destruct (existsb _ _); [reflexivity|]. destruct (forallb _ _); reflexivity.
Qed.

Lemma colors_get_state_set_done (b : bool) (s : Env) :
  (JumpTaskEnvWithColors.get_state (set_done b s)).1
  = (JumpTaskEnvWithColors.get_state s).1.
Proof.
  unfold JumpTaskEnvWithColors.get_state, np_zeros_painted, bind, ret, raise.
  reduce_attributes.
  destruct (existsb _ _); [reflexivity|]. destruct (forallb _ _); reflexivity.
Qed.

Section Exhausted.

Variable self_get_state : M ndarray.
Variable self__game_status : M (bool * bool).
Hypothesis get_state_read_only : read_only self_get_state.
Hypothesis get_state_done :
  forall b s, (self_get_state (set_done b s)).1 = (self_get_state s).1.

(** The exhausted branch of [JumpTaskEnv.step]: [done] is set, and the
    outcome is that of building the observation. *)
Lemma step_exhausted_outcome (fuel : nat) (action : Z) (self : Env) :
  (step_id self >? max_number_of_steps self) = true ->
  JumpTaskEnv.step self_get_state self__game_status fuel action self
  = (match (self_get_state self).1 with
     | Return state => Return (state, 0, true, ∅)
     | Raise e => Raise e
     | OutOfFuel => OutOfFuel
     end, set_done true self).
Proof.
  intros He. rewrite (step_exhausted_eq _ _ fuel action self He).
  unfold bind, attr, ret. rewrite <- (get_state_done true self).
  destruct_read_only self_get_state (set_done true self) get_state_read_only;
    reflexivity.
Qed.

End Exhausted.

(** C5: the code at the failing input.  When [step_id] exceeds
    [max_number_of_steps], [JumpTaskEnv.step] with any action sets [done]
    and changes nothing else, and, when the observation can be built, returns
    it with reward 0, terminal flag true and an empty [info]: so do instances
    of [JumpTaskEnv] and of [JumpTaskEnvWithCoordinates].  The override
    [JumpTaskEnvWithColors.step] then reads [info['collision']] from that
    empty [info]: with the agent on the floor the call raises [KeyError]
    instead of returning. *)
Theorem step_exhausted (fuel : nat) (action : Z) (self : Env) :
  step_id self > max_number_of_steps self ->
  (returned (Base.get_state self) = true ->
   exists state,
     Base.step fuel action self = (Return (state, 0, true, ∅), set_done true self))
  /\ (exists state,
      JumpTaskEnvWithCoordinates.step fuel action self
      = (Return (state, 0, true, ∅), set_done true self))
  /\ (returned (JumpTaskEnvWithColors.get_state self) = true ->
      agent_pos_y self = floor_height self ->
      JumpTaskEnvWithColors.step fuel action self = (Raise KeyError, set_done true self))
  /\ done (set_done true self) = true
  /\ agent_pos_x (set_done true self) = agent_pos_x self
  /\ agent_pos_y (set_done true self) = agent_pos_y self.
Proof.
  intros H. apply Z.gt_lt, Z.gtb_lt in H.
  split; [|split; [|split; [|repeat split]]].
  - intros Hobs.
    destruct (read_only_returns _ self base_get_state_read_only Hobs) as [obs Ho].
    exists obs. unfold Base.step.
    rewrite (step_exhausted_outcome Base.get_state Base._game_status
               base_get_state_read_only base_get_state_set_done fuel action self H).
    rewrite Ho. reflexivity.
  - eexists. unfold JumpTaskEnvWithCoordinates.step.
    rewrite (step_exhausted_eq _ _ fuel action self H). reflexivity.
  - intros Hobs Hy.
    destruct (read_only_returns _ self colors_get_state_read_only Hobs) as [obs Ho].
    unfold JumpTaskEnvWithColors.step, bind at 1.
    rewrite (step_exhausted_outcome JumpTaskEnvWithColors.get_state
               JumpTaskEnvWithColors._game_status
               colors_get_state_read_only colors_get_state_set_done fuel action self H).
    rewrite Ho. cbn [fst]. cbv beta iota.
    unfold bind, attr, ret, getitem, raise. cbv beta iota.
    change (agent_pos_y (set_done true self)) with (agent_pos_y self).
    change (floor_height (set_done true self)) with (floor_height self).
    rewrite (proj2 (Z.eqb_eq _ _) Hy), lookup_empty. reflexivity.
Qed.

Lemma step_exhausted_witness :
  step_id exhausted_green_env > max_number_of_steps exhausted_green_env
  /\ JumpTaskEnvWithColors.step 0 0 exhausted_green_env
     = (Raise KeyError, set_done true exhausted_green_env).
Proof.
  assert (Hx : step_id exhausted_green_env > max_number_of_steps exhausted_green_env)
    by (vm_compute; reflexivity).
  assert (Hobs : returned (JumpTaskEnvWithColors.get_state exhausted_green_env) = true)
    by (vm_compute; reflexivity).
  assert (Hy : (agent_pos_y exhausted_green_env =? floor_height exhausted_green_env) = true)
    by (vm_compute; reflexivity).
  apply Z.eqb_eq in Hy.
  split; [exact Hx|].
  exact (proj1 (proj2 (proj2 (step_exhausted 0 0 exhausted_green_env Hx))) Hobs Hy).
Defined.

(** In the base class the same call returns. *)
Example step_exhausted_in_the_base_class :
  step_id exhausted_env > max_number_of_steps exhausted_env
  /\ returned (Base.step 0 7 exhausted_env) = true
  /\ reward_of (Base.step 0 7 exhausted_env) = Some 0
  /\ (Base.step 0 7 exhausted_env).2 = set_done true exhausted_env.
Proof.
  split; [vm_compute; reflexivity|]. split; [vm_compute; reflexivity|].
  split; [vm_compute; reflexivity|].
  assert (H : (step_id exhausted_env >? max_number_of_steps exhausted_env) = true)
    by (vm_compute; reflexivity).
  unfold Base.step.
  rewrite (step_exhausted_outcome Base.get_state Base._game_status
             base_get_state_read_only base_get_state_set_done 0%nat 7 exhausted_env H).
  reflexivity.
Qed.

(** With the step budget used up, [JumpTaskEnvWithColors.step] sets [done]
    and then: raises what [get_state] raises when the raster cannot be
    built ([ValueError] or [IndexError]); otherwise reads
    [info['collision']] from the empty [info] of the exhausted branch and
    raises [KeyError] when the agent is on the floor; in the air the test is
    not reached and the call returns as in the base class. *)
Lemma colors_step_exhausted (fuel : nat) (action : Z) (self : Env) :
  step_id self > max_number_of_steps self ->
  (returned (JumpTaskEnvWithColors.get_state self) = true ->
   agent_pos_y self = floor_height self ->
   JumpTaskEnvWithColors.step fuel action self = (Raise KeyError, set_done true self))
  /\ (returned (JumpTaskEnvWithColors.get_state self) = true ->
      agent_pos_y self <> floor_height self ->
      exists state,
        JumpTaskEnvWithColors.step fuel action self
        = (Return (state, 0, true, ∅), set_done true self))
  /\ (returned (JumpTaskEnvWithColors.get_state self) = false ->
      exists e,
        (e = ValueError \/ e = IndexError)
        /\ JumpTaskEnvWithColors.get_state self = (Raise e, self)
        /\ JumpTaskEnvWithColors.step fuel action self = (Raise e, set_done true self)).
Proof.
  intros H. apply Z.gt_lt, Z.gtb_lt in H.
  pose proof (step_exhausted_outcome JumpTaskEnvWithColors.get_state
                JumpTaskEnvWithColors._game_status
                colors_get_state_read_only colors_get_state_set_done fuel action self H) as E.
  split; [|split]; intros Hobs.
  - intros Hy.
    destruct (read_only_returns _ self colors_get_state_read_only Hobs) as [obs Ho].
    unfold JumpTaskEnvWithColors.step, bind at 1. rewrite E, Ho. cbn [fst]. cbv beta iota.
    unfold bind, attr, ret, getitem, raise. cbv beta iota.
    change (agent_pos_y (set_done true self)) with (agent_pos_y self).
    change (floor_height (set_done true self)) with (floor_height self).
    rewrite (proj2 (Z.eqb_eq _ _) Hy), lookup_empty. reflexivity.
  - intros Hy.
    destruct (read_only_returns _ self colors_get_state_read_only Hobs) as [obs Ho].
    unfold JumpTaskEnvWithColors.step, bind at 1. rewrite E, Ho. cbn [fst]. cbv beta iota.
    unfold bind, attr, ret, getitem, raise. cbv beta iota.
    change (agent_pos_y (set_done true self)) with (agent_pos_y self).
    change (floor_height (set_done true self)) with (floor_height self).
    rewrite (proj2 (Z.eqb_neq _ _) Hy). eexists. reflexivity.
  - unfold JumpTaskEnvWithColors.step, bind at 1. rewrite E. clear E.
    unfold JumpTaskEnvWithColors.get_state in *.
    match goal with |- context [(np_zeros_painted ?sh ?p >> ret ?a) self] =>
      destruct (np_zeros_painted_outcome sh p a self) as [Eo|[Eo|Eo]];
      rewrite Eo in *
    end.
    + discriminate Hobs.
    + exists ValueError. split; [left; reflexivity|]. split; reflexivity.
    + exists IndexError. split; [right; reflexivity|]. split; reflexivity.
Qed.

Lemma colors_step_exhausted_witness :
  JumpTaskEnvWithColors.step 0 0 exhausted_green_env
  = (Raise KeyError, set_done true exhausted_green_env).
Proof.
  assert (Hx : step_id exhausted_green_env > max_number_of_steps exhausted_green_env)
    by (vm_compute; reflexivity).
  assert (Hobs : returned (JumpTaskEnvWithColors.get_state exhausted_green_env) = true)
    by (vm_compute; reflexivity).
  assert (Hy : (agent_pos_y exhausted_green_env =? floor_height exhausted_green_env) = true)
    by (vm_compute; reflexivity).
  apply Z.eqb_eq in Hy.
  exact (proj1 (colors_step_exhausted 0 0 exhausted_green_env Hx) Hobs Hy).
Defined.

(** ** What every call of [step] preserves *)

Lemma bind_inv {A B} (m : M A) (k : A -> M B) (s : Env) (b : B) (s' : Env) :
  bind m k s = (Return b, s') ->
  exists a s1, m s = (Return a, s1) /\ k a s1 = (Return b, s').
Proof.
  unfold bind. destruct (m s) as [[a|e|] s1]; intros H;
    [exists a, s1; auto|discriminate H|discriminate H].
Qed.

Lemma bind_state {A B} (P : Env -> Prop) (m : M A) (k : A -> M B) (s : Env) :
  P (m s).2 ->
  (forall a s1, m s = (Return a, s1) -> P (k a s1).2) ->
  P (bind m k s).2.
Proof.
  unfold bind. intros Hm Hk. destruct (m s) as [[a|e|] s1] eqn:E; cbn [snd] in *;
    [apply (Hk a s1 eq_refl)|exact Hm|exact Hm].
Qed.

Section Preservation.

Variable self_get_state : M ndarray.
Variable self__game_status : M (bool * bool).
Hypothesis get_state_read_only : read_only self_get_state.

Lemma step_illegal_eq (fuel : nat) (action : Z) (self : Env) :
  (step_id self >? max_number_of_steps self) = false ->
  contains (legal_actions self) action = false ->
  JumpTaskEnv.step self_get_state self__game_status fuel action self
  = (Raise ValueError, self).
Proof.
  intros He Hl. unfold JumpTaskEnv.step. unfold bind, attr, raise. cbv beta.
  rewrite He, Hl. reflexivity.
Qed.

(** A property of the object that the assignments of [step] keep. *)
Variable P : Env -> Prop.
Hypothesis P_done : forall b s, P s -> P (set_done b s).
Hypothesis P_step_id : forall n s, P s -> P (set_step_id n s).
Hypothesis P_movement : forall action s, P s -> P (movement action s).
Hypothesis P_tick : forall s, P s -> (jumping s).1 = true -> P (tick s).
Hypothesis P_status : forall s, P s -> P (self__game_status s).2.

Lemma finish_jump_loop_preserves (fuel : nat) :
  forall killed exited s,
    P s -> P (JumpTaskEnv.finish_jump_loop self__game_status fuel killed exited s).2.
Proof.
  induction fuel as [|fuel IH]; intros killed exited s Hs;
    cbn [JumpTaskEnv.finish_jump_loop];
    destruct ((jumping s).1 && negb killed && negb exited) eqn:Hg;
    try exact Hs.
  apply andb_true_iff in Hg as [Hg _]. apply andb_true_iff in Hg as [Hj _].
  unfold bind at 1. rewrite _continue_jump_eq.
  apply bind_state.
  - apply P_status, P_tick; assumption.
  - intros [k e] s1 E. apply IH.
    replace s1 with (self__game_status (tick s)).2 by (rewrite E; reflexivity).
    apply P_status, P_tick; assumption.
Qed.

Lemma step_preserves (fuel : nat) (action : Z) (self : Env) :
  P self ->
  P (JumpTaskEnv.step self_get_state self__game_status fuel action self).2.
Proof.
  intros Hs.
  destruct (step_id self >? max_number_of_steps self) eqn:He.
  - rewrite (step_exhausted_eq _ _ fuel action self He).
    rewrite (exhausted_tail_state _ get_state_read_only).
    apply P_done, Hs.
  - destruct (contains (legal_actions self) action) eqn:Hl;
      [|rewrite (step_illegal_eq fuel action self He Hl); exact Hs].
    rewrite (step_accepted _ _ fuel action self He Hl).
    apply bind_state; [apply P_status, P_movement, Hs|].
    intros [k0 e0] s2 E0.
    assert (H2 : P s2).
    { replace s2 with (self__game_status (movement action self)).2
        by (rewrite E0; reflexivity).
      apply P_status, P_movement, Hs. }
    assert (Hc : P (complete_jump self__game_status fuel k0 e0 s2).2).
    { unfold complete_jump, bind, attr.
      destruct (finish_jump s2); [apply finish_jump_loop_preserves, H2|exact H2]. }
    apply bind_state; [exact Hc|].
    intros [k e] s3 E3.
    assert (H3 : P s3).
    { replace s3 with (complete_jump self__game_status fuel k0 e0 s2).2
        by (rewrite E3; reflexivity).
      exact Hc. }
    destruct (settle_state _ get_state_read_only (agent_pos_x self) k e s3) as [-> | ->];
      [exact H3|apply P_step_id, H3].
Qed.

(** The observation [step] returns is that of the object it leaves. *)
Lemma step_returns_observation (fuel : nat) (action : Z) (self : Env)
    (state : ndarray) (reward : Z) (terminal : bool) (info : gmap string bool)
    (self' : Env) :
  JumpTaskEnv.step self_get_state self__game_status fuel action self
  = (Return (state, reward, terminal, info), self') ->
  self_get_state self' = (Return state, self').
Proof.
  destruct (step_id self >? max_number_of_steps self) eqn:He.
  - rewrite (step_exhausted_eq _ _ fuel action self He).
    intros E. apply bind_inv in E as (obs & s1 & E1 & E).
    pose proof (read_only_inv _ _ _ _ get_state_read_only E1) as ->.
    apply bind_inv in E as (dn & s2 & E2 & E). injection E2 as _ <-.
    injection E as <- _ _ _ <-. exact E1.
  - destruct (contains (legal_actions self) action) eqn:Hl;
      [|rewrite (step_illegal_eq fuel action self He Hl); discriminate].
    rewrite (step_accepted _ _ fuel action self He Hl).
    intros H.
    apply bind_inv in H as ([k0 e0] & s2 & _ & H).
    apply bind_inv in H as ([k e] & s3 & _ & H).
    unfold settle in H.
    apply bind_inv in H as (x1 & s4 & E4 & H). injection E4 as _ <-.
    apply bind_inv in H as (table & s4 & E4 & H). injection E4 as _ <-.
    apply bind_inv in H as (r & s4 & E4 & H).
    assert (s4 = s3) as ->.
    { unfold getitem, bind, ret, raise in E4.
      destruct k; [|destruct e];
        repeat match type of E4 with
               | context [match ?m !! ?key with _ => _ end] => destruct (m !! key)
               end;
        try discriminate E4; injection E4 as _ <-; reflexivity. }
    apply bind_inv in H as ([] & s5 & E5 & H). injection E5 as <-.
    apply bind_inv in H as (obs & s6 & E6 & H).
    pose proof (read_only_inv _ _ _ _ get_state_read_only E6) as ->.
    apply bind_inv in H as (dn & s7 & E7 & H). injection E7 as _ <-.
    injection H as <- _ _ _ <-. exact E6.
Qed.

End Preservation.

(** ** The jump invariant holds in every reachable state *)

Lemma _reset_grounded (self_get_state : M ndarray) (ox fy : Z) (two : bool) (self : Env) :
  read_only self_get_state ->
  agent_speed (JumpTaskEnv._reset self_get_state ox fy two self).2 = agent_speed self
  /\ jumping (JumpTaskEnv._reset self_get_state ox fy two self).2 = (false, None)
  /\ agent_pos_y (JumpTaskEnv._reset self_get_state ox fy two self).2
     = floor_height (JumpTaskEnv._reset self_get_state ox fy two self).2.
Proof.
  intros Hg. unfold JumpTaskEnv._reset.
  destruct two; [rewrite !Hg; repeat split|].
  repeat match goal with
         | |- context [if ?c then _ else _] => destruct c
         end; rewrite ?Hg; repeat split.
Qed.

Lemma reset_grounded (self_get_state : M ndarray) (self : Env) :
  read_only self_get_state ->
  agent_speed (JumpTaskEnv.reset (JumpTaskEnv._reset self_get_state) self).2
  = agent_speed self
  /\ jumping (JumpTaskEnv.reset (JumpTaskEnv._reset self_get_state) self).2 = (false, None)
  /\ agent_pos_y (JumpTaskEnv.reset (JumpTaskEnv._reset self_get_state) self).2
     = floor_height (JumpTaskEnv.reset (JumpTaskEnv._reset self_get_state) self).2.
Proof.
  intros Hg. unfold JumpTaskEnv.reset, bind, choice. cbv beta iota zeta.
  match goal with |- context [JumpTaskEnv._reset _ ?ox ?fy false ?s] =>
    destruct (_reset_grounded self_get_state ox fy false s Hg) as (H1 & H2 & H3) end.
  rewrite H1, H2, H3. repeat split.
Qed.

Lemma grounded_wf (self : Env) :
  0 < agent_speed self ->
  jumping self = (false, None) ->
  agent_pos_y self = floor_height self ->
  jump_wf self.
Proof. intros Hv Hj Hy. split; [exact Hv|]. rewrite Hj. exact Hy. Qed.

(** In every reachable state of an environment with a positive
    [agent_speed], the agent stands on the floor unless it is jumping, and
    is a whole number of vertical steps above the floor while it jumps. *)
Lemma reachable_jump_wf (self : Env) :
  reachable self -> 0 < agent_speed self -> jump_wf self.
Proof.
  induction 1 as [seeding kw self E|self Hr IH|self ox fy two Hr IH|self fuel action Hr IH Hf].
  - unfold Base.__init__, JumpTaskEnv.__init__, JumpTaskEnv.seed, bind, assign, ret in E.
    cbv beta iota in E.
    match type of E with context [Base.reset ?s] =>
      destruct (reset_grounded Base.get_state s base_get_state_read_only) as (_ & H2 & H3);
      fold Base._reset in H2, H3; fold Base.reset in H2, H3;
      destruct (Base.reset s) as [[obs|e|] s'] end;
      try discriminate E.
    injection E as <-. intros Hv. apply grounded_wf; assumption.
  - destruct (reset_grounded Base.get_state self base_get_state_read_only) as (H1 & H2 & H3).
    fold Base._reset in H1, H2, H3. fold Base.reset in H1, H2, H3.
    intros Hv. apply grounded_wf; assumption.
  - destruct (_reset_grounded Base.get_state ox fy two self base_get_state_read_only)
      as (H1 & H2 & H3).
    fold Base._reset in H1, H2, H3.
    intros Hv. apply grounded_wf; assumption.
  - revert IH. unfold Base.step.
    apply (step_preserves Base.get_state Base._game_status base_get_state_read_only
             (fun s => 0 < agent_speed s -> jump_wf s)).
    + intros b s Hs Hv. apply (same_motion_wf s); [repeat split|apply Hs, Hv].
    + intros n s Hs Hv. apply (same_motion_wf s); [repeat split|apply Hs, Hv].
    + intros a s Hs Hv. apply movement_wf, Hs.
      destruct (movement_setting a s) as (_ & _ & _ & _ & _ & _ & _ & _ & _ & <- & _).
      exact Hv.
    + intros s Hs Hj Hv. apply tick_wf; [apply Hs|exact Hj].
      destruct (tick_setting s) as (_ & _ & _ & _ & _ & _ & _ & _ & _ & <- & _).
      exact Hv.
    + intros s Hs Hv. unfold Base._game_status in *. rewrite game_status_eq in *.
      apply (same_motion_wf s); [repeat split|apply Hs, Hv].
Qed.

(** ** The coordinate observation *)

Lemma _reset_returns_observation (self_get_state : M ndarray)
    (ox fy : Z) (two : bool) (self : Env) (obs : ndarray) (self' : Env) :
  read_only self_get_state ->
  JumpTaskEnv._reset self_get_state ox fy two self = (Return obs, self') ->
  self_get_state self' = (Return obs, self').
Proof.
  intros Hg. unfold JumpTaskEnv._reset.
  destruct two;
    repeat match goal with
           | |- context [if ?c then _ else _] => destruct c
           end; try discriminate;
    intros E; pose proof (read_only_inv _ _ _ _ Hg E) as ->; exact E.
Qed.

(** C10: the coordinate observation against the declared space.  The
    observation of the coordinate class
    is the vector (agent x - obstacle x, agent y - floor height) of the
    object, from [get_state] and so from every [_reset], [reset] and [step]
    that returns: an array of two integers, of numpy's integer type.  The
    constructor declares [state_shape = (3,)] and a [float32] box: the shape
    of the returned array is not the declared [state_shape], and its element
    type is not the declared one. *)
Theorem coordinates_observation_against_declaration
    (seeding : Z -> nat -> nat) (kw : JumpTaskEnv.kwargs.t) (s : Env) :
  JumpTaskEnvWithCoordinates.get_state s = (Return (relative_coordinates s), s)
  /\ (forall ox fy two obs s',
        JumpTaskEnvWithCoordinates._reset ox fy two s = (Return obs, s') ->
        obs = relative_coordinates s')
  /\ (forall obs s',
        JumpTaskEnvWithCoordinates.reset s = (Return obs, s') ->
        obs = relative_coordinates s')
  /\ (forall fuel action obs reward terminal info s',
        JumpTaskEnvWithCoordinates.step fuel action s
        = (Return (obs, reward, terminal, info), s') ->
        obs = relative_coordinates s')
  /\ exists self,
      JumpTaskEnvWithCoordinates.__init__ seeding kw object_new = (Return tt, self)
      /\ state_shape self = [3]
      /\ shape (observation_space self) = [2]
      /\ dtype (observation_space self) = float32
      /\ array_shape (relative_coordinates self) <> state_shape self
      /\ array_dtype (relative_coordinates self) <> dtype (observation_space self).
Proof.
  split; [reflexivity|]. split; [|split; [|split]].
  - intros ox fy two obs s' E.
    apply _reset_returns_observation in E; [|apply coordinates_get_state_read_only].
    injection E as <-. reflexivity.
  - intros obs s' E. unfold JumpTaskEnvWithCoordinates.reset, JumpTaskEnv.reset in E.
    apply bind_inv in E as (ox & s1 & _ & E).
    apply bind_inv in E as (fy & s2 & _ & E).
    apply _reset_returns_observation in E; [|apply coordinates_get_state_read_only].
    injection E as <-. reflexivity.
  - intros fuel action obs reward terminal info s' E.
    apply step_returns_observation in E; [|apply coordinates_get_state_read_only].
    injection E as <-. reflexivity.
  - unfold JumpTaskEnvWithCoordinates.__init__, JumpTaskEnv.__init__, JumpTaskEnv.seed,
      bind, assign, ret.
    unfold JumpTaskEnvWithCoordinates.reset, JumpTaskEnvWithCoordinates._reset.
    match goal with |- context [JumpTaskEnv.reset _ ?s] =>
      destruct (reset_single_obstacle JumpTaskEnvWithCoordinates.get_state s
                  (fun s' _ _ _ => coordinates_get_state_total s'))
        as (obs & self & E & _); [reflexivity..|rewrite E] end.
    eexists. split; [reflexivity|]. cbn.
    repeat split; try reflexivity; discriminate.
Qed.

(** ** A whole jump in one call *)

Example full_jump_clears_nothing_at_40 :
  reward_of (Base.step 40 1 (full_jump_episode 40 10)) = Some 32
  /\ agent_pos_x (Base.step 40 1 (full_jump_episode 40 10)).2 = 32
  /\ agent_pos_y (Base.step 40 1 (full_jump_episode 40 10)).2 = 10
  /\ jumping (Base.step 40 1 (full_jump_episode 40 10)).2 = (false, Some down)
  /\ step_id (Base.step 40 1 (full_jump_episode 40 10)).2 = 1.
Proof. repeat split; vm_compute; reflexivity. Qed.

Example full_jump_stops_at_the_obstacle :
  reward_of (Base.step 40 1 (full_jump_episode 30 10)) = Some (-1)
  /\ agent_pos_x (Base.step 40 1 (full_jump_episode 30 10)).2 = 26
  /\ agent_pos_y (Base.step 40 1 (full_jump_episode 30 10)).2 = 16
  /\ done (Base.step 40 1 (full_jump_episode 30 10)).2 = true.
Proof. repeat split; vm_compute; reflexivity. Qed.

(** With [finish_jump] set, an accepted call of [step] on an object whose
    observation can be built returns (for every sufficient fuel) with the
    agent in collision, past the right edge, or back on the ground at the
    floor height: one call spans the whole jump. *)
Theorem full_jump_in_one_step (action : Z) (self : Env) (life exit : Z) :
  finish_jump self = true ->
  jump_wf self ->
  step_id self <= max_number_of_steps self ->
  contains (legal_actions self) action = true ->
  rewards self !! "life" = Some life ->
  rewards self !! "exit" = Some exit ->
  returned (Base.get_state self) = true ->
  exists fuel0, forall fuel, (fuel0 <= fuel)%nat ->
    exists result self',
      Base.step fuel action self = (Return result, self')
      /\ (failure_of self' = true
          \/ success_of self' = true
          \/ ((jumping self').1 = false /\ agent_pos_y self' = floor_height self')).
Proof.
  intros Hfj Hw Hid Hl Hlife Hexit Hobs.
  pose (I := fun (k e : bool) (s : Env) => k = failure_of s /\ e = success_of s).
  destruct (step_accepted_spec Base.get_state JumpTaskEnv._game_status
              base_get_state_read_only base_reads_setting base_status_frame I) with
    (action := action) (self := self) (life := life) (exit := exit)
    as [fuel0 H]; try assumption.
  - intros k e s k' e' s' _ _ _ _ E.
    rewrite game_status_eq in E. injection E as <- <- <-. split; reflexivity.
  - intros _. exact Hw.
  - intros k e s' E.
    rewrite game_status_eq in E. injection E as <- <- <-. split; reflexivity.
  - exists fuel0. intros fuel Hfuel.
    destruct (H fuel Hfuel) as (k & e & s3 & obs & E & (Hk & Hex) & _ & Hfin).
    destruct (Hfin Hfj) as ((_ & Hshape) & Hg).
    eexists _, _. split; [exact E|].
    change (failure_of (set_step_id (step_id s3 + 1) s3)) with (failure_of s3).
    change (success_of (set_step_id (step_id s3 + 1) s3)) with (success_of s3).
    change (jumping (set_step_id (step_id s3 + 1) s3)) with (jumping s3).
    change (agent_pos_y (set_step_id (step_id s3 + 1) s3)) with (agent_pos_y s3).
    change (floor_height (set_step_id (step_id s3 + 1) s3)) with (floor_height s3).
    rewrite <- Hk, <- Hex.
    destruct k; [left; reflexivity|]. destruct e; [right; left; reflexivity|].
    right; right. rewrite !andb_true_r in Hg.
    destruct (jumping s3) as [j d]. cbn [fst] in *. subst j. split; [reflexivity|exact Hshape].
Qed.

Lemma full_jump_episode_facts :
  finish_jump (full_jump_episode 40 10) = true
  /\ 0 < agent_speed (full_jump_episode 40 10)
  /\ jumping (full_jump_episode 40 10) = (false, None)
  /\ agent_pos_y (full_jump_episode 40 10) = floor_height (full_jump_episode 40 10)
  /\ step_id (full_jump_episode 40 10) <= max_number_of_steps (full_jump_episode 40 10)
  /\ contains (legal_actions (full_jump_episode 40 10)) 1 = true
  /\ rewards (full_jump_episode 40 10) !! "life" = Some (-1)
  /\ rewards (full_jump_episode 40 10) !! "exit" = Some 100
  /\ returned (Base.get_state (full_jump_episode 40 10)) = true.
Proof. repeat split; vm_compute; solve [reflexivity|discriminate]. Qed.

Lemma full_jump_in_one_step_witness :
  exists fuel0, forall fuel, (fuel0 <= fuel)%nat ->
    exists result self',
      Base.step fuel 1 (full_jump_episode 40 10) = (Return result, self')
      /\ (failure_of self' = true
          \/ success_of self' = true
          \/ ((jumping self').1 = false /\ agent_pos_y self' = floor_height self')).
Proof.
  destruct full_jump_episode_facts
    as (Hfj & Hv & Hj & Hy & Hid & Hl & Hlife & Hexit & Hobs).
  exact (full_jump_in_one_step 1 (full_jump_episode 40 10) (-1) 100
           Hfj (grounded_wf _ Hv Hj Hy) Hid Hl Hlife Hexit Hobs).
Defined.

Lemma agent_speed_of_collided_env : 0 < agent_speed collided_env.
Proof. vm_compute. reflexivity. Qed.

Lemma reachable_jump_wf_witness : jump_wf collided_env.
Proof.
  exact (reachable_jump_wf collided_env reachable_collided_env
           agent_speed_of_collided_env).
Defined.

(** ** The collision flag of the colour class is raised at most once *)

Section Step_inversion.

Variable self_get_state : M ndarray.
Variable self__game_status : M (bool * bool).
Hypothesis get_state_read_only : read_only self_get_state.

(** What an accepted call that returns went through. *)
Lemma step_accepted_inv (fuel : nat) (action : Z) (self : Env)
    (state : ndarray) (reward : Z) (terminal : bool) (info : gmap string bool)
    (self' : Env) :
  (step_id self >? max_number_of_steps self) = false ->
  contains (legal_actions self) action = true ->
  JumpTaskEnv.step self_get_state self__game_status fuel action self
  = (Return (state, reward, terminal, info), self') ->
  exists k0 e0 s2 k e s3,
    self__game_status (movement action self) = (Return (k0, e0), s2)
    /\ complete_jump self__game_status fuel k0 e0 s2 = (Return (k, e), s3)
    /\ info = {["collision" := k]}
    /\ terminal = done s3
    /\ self' = set_step_id (step_id s3 + 1) s3.
Proof.
  intros He Hl H. rewrite (step_accepted _ _ fuel action self He Hl) in H.
  apply bind_inv in H as ([k0 e0] & s2 & E0 & H).
  apply bind_inv in H as ([k e] & s3 & E3 & H).
  exists k0, e0, s2, k, e, s3. split; [exact E0|]. split; [exact E3|].
  unfold settle in H.
  apply bind_inv in H as (x1 & s4 & E4 & H). injection E4 as _ <-.
  apply bind_inv in H as (table & s4 & E4 & H). injection E4 as _ <-.
  apply bind_inv in H as (r & s4 & E4 & H).
  assert (s4 = s3) as ->.
  { unfold getitem, bind, ret, raise in E4.
    destruct k; [|destruct e];
      repeat match type of E4 with
             | context [match ?m !! ?key with _ => _ end] => destruct (m !! key)
             end;
      try discriminate E4; injection E4 as _ <-; reflexivity. }
  apply bind_inv in H as ([] & s5 & E5 & H). injection E5 as <-.
  apply bind_inv in H as (obs & s6 & E6 & H).
  pose proof (read_only_inv _ _ _ _ get_state_read_only E6) as ->.
  apply bind_inv in H as (dn & s7 & E7 & H). injection E7 as <- <-.
  injection H as _ _ <- <- <-. repeat split.
Qed.

(** A property that every round of the loop keeps holds when the loop
    returns. *)
Lemma finish_jump_loop_partial (I : bool -> bool -> Env -> Prop) :
  (forall killed exited s killed' exited' s',
      I killed exited s ->
      (jumping s).1 = true -> killed = false -> exited = false ->
      self__game_status (tick s) = (Return (killed', exited'), s') ->
      I killed' exited' s') ->
  forall fuel killed exited s killed' exited' s',
    I killed exited s ->
    JumpTaskEnv.finish_jump_loop self__game_status fuel killed exited s
    = (Return (killed', exited'), s') ->
    I killed' exited' s'.
Proof.
  intros Hround. induction fuel as [|fuel IH]; intros k e s k' e' s' HI;
    cbn [JumpTaskEnv.finish_jump_loop];
    destruct ((jumping s).1 && negb k && negb e) eqn:Hg;
    try discriminate;
    try (intros E; injection E as <- <- <-; exact HI).
  apply andb_true_iff in Hg as [Hg He]. apply andb_true_iff in Hg as [Hj Hk].
  apply negb_true_iff in Hk, He.
  unfold bind at 1. rewrite _continue_jump_eq. intros E.
  apply bind_inv in E as ([k1 e1] & s1 & E1 & E).
  apply (IH k1 e1 s1 k' e' s'); [|exact E].
  apply (Hround k e s k1 e1 s1); assumption.
Qed.

End Step_inversion.

(** The colour class only adds to the reward: the object after its [step]
    is the object after [JumpTaskEnv.step]. *)
Lemma colors_step_state (fuel : nat) (action : Z) (self : Env) :
  (JumpTaskEnvWithColors.step fuel action self).2
  = (JumpTaskEnv.step JumpTaskEnvWithColors.get_state JumpTaskEnvWithColors._game_status
       fuel action self).2.
Proof.
  unfold JumpTaskEnvWithColors.step, bind at 1.
  destruct (JumpTaskEnv.step _ _ fuel action self) as [[[[[obs r] d] info]|e|] s'];
    try reflexivity.
  unfold bind, attr, ret, getitem, raise. cbv beta.
  destruct (agent_pos_y s' =? floor_height s'); [|reflexivity].
  destruct (info !! "collision") as [[|]|]; unfold ret, raise; cbv beta iota;
    try reflexivity.
  destruct (rewards s' !! "collision"); reflexivity.
Qed.

Lemma colors_step_keeps (P : Env -> Prop) (fuel : nat) (action : Z) (self : Env) :
  (forall s s', _obstacle_color s' = _obstacle_color s ->
                (_already_collided s = true -> _already_collided s' = true) ->
                P s -> P s') ->
  P self -> P (JumpTaskEnvWithColors.step fuel action self).2.
Proof.
  intros HP Hs. rewrite colors_step_state.
  apply (step_preserves JumpTaskEnvWithColors.get_state JumpTaskEnvWithColors._game_status
           colors_get_state_read_only P); try exact Hs.
  - intros b s. apply HP; [reflexivity|intros H; exact H].
  - intros n s. apply HP; [reflexivity|intros H; exact H].
  - intros a s. apply HP; [apply movement_setting|].
    rewrite movement_already_collided. intros H. exact H.
  - intros s H _. revert H. apply HP; [apply tick_setting|].
    rewrite tick_already_collided. intros H. exact H.
  - intros s. rewrite colors_game_status_eq. apply HP; [reflexivity|].
    cbn. intros ->. reflexivity.
Qed.

(** With a green obstacle: a call that reports a collision found
    [_already_collided] clear and leaves it set. *)
Lemma green_collision_flag (fuel : nat) (action : Z) (self : Env) :
  _obstacle_color self = GREEN ->
  collision_of (JumpTaskEnvWithColors.step fuel action self) = Some true ->
  _already_collided self = false
  /\ _already_collided (JumpTaskEnvWithColors.step fuel action self).2 = true.
Proof.
  intros Hgreen Hc. rewrite colors_step_state.
  unfold collision_of in Hc.
  destruct (JumpTaskEnvWithColors.step fuel action self) as [[[[[obs r] d] info]|e|] s']
    eqn:E; cbn [fst] in Hc; try discriminate Hc.
  unfold JumpTaskEnvWithColors.step in E.
  apply bind_inv in E as ([[[obs0 r0] d0] info0] & s0 & E0 & E).
  assert (info0 = info /\ s0 = s') as [-> ->].
  { unfold bind, attr, ret, getitem, raise in E. cbv beta in E.
    destruct (agent_pos_y s0 =? floor_height s0);
      [destruct (info0 !! "collision") as [[|]|]|];
      unfold ret, raise in E; cbv beta iota in E;
      try destruct (rewards s0 !! "collision"); try discriminate E;
      injection E as _ _ _ <- <-; split; reflexivity. }
  rewrite E0. cbn [snd].
  destruct (step_id self >? max_number_of_steps self) eqn:He.
  { rewrite (step_exhausted_eq _ _ fuel action self He) in E0.
    apply bind_inv in E0 as (o1 & s1 & _ & E0).
    apply bind_inv in E0 as (d1 & s2 & _ & E0).
    injection E0 as _ _ _ <- _. rewrite lookup_empty in Hc. discriminate Hc. }
  destruct (contains (legal_actions self) action) eqn:Hl;
    [|rewrite (step_illegal_eq _ _ fuel action self He Hl) in E0; discriminate E0].
  apply (step_accepted_inv _ _ colors_get_state_read_only) in E0
    as (k0 & e0 & s2 & k & e & s3 & E1 & E3 & -> & _ & ->); try assumption.
  rewrite lookup_singleton_eq in Hc. injection Hc as ->.
  pose (a0 := _already_collided self).
  pose (I := fun (k e : bool) (s : Env) =>
               _obstacle_color s = GREEN
               /\ _already_collided s = a0 || k /\ (a0 = true -> k = false)).
  assert (H2 : I k0 e0 s2).
  { rewrite colors_game_status_eq in E1. injection E1 as <- <- <-.
    assert (Hc' : _obstacle_color (movement action self) = GREEN).
    { destruct (movement_setting action self)
        as (_ & _ & _ & _ & _ & _ & _ & _ & _ & _ & -> & _).
      exact Hgreen. }
    unfold I, collided_of. reduce_attributes.
    rewrite Hc', movement_already_collided. fold a0.
    destruct a0; repeat split; try reflexivity; discriminate. }
  assert (H3 : I true e s3).
  { unfold complete_jump in E3. apply bind_inv in E3 as (fj & s4 & E4 & E3).
    injection E4 as <- <-.
    destruct (finish_jump s2); [|injection E3 as <- <- <-; exact H2].
    apply (finish_jump_loop_partial JumpTaskEnvWithColors._game_status I)
      with (fuel := fuel) (killed := k0) (exited := e0) (s := s2); [|exact H2|exact E3].
    intros k1 e1 s k1' e1' s1' (Hc1 & Ha1 & _) _ -> _ Er.
    rewrite colors_game_status_eq in Er. injection Er as <- <- <-.
    assert (Hc' : _obstacle_color (tick s) = GREEN).
    { destruct (tick_setting s) as (_ & _ & _ & _ & _ & _ & _ & _ & _ & _ & -> & _).
      exact Hc1. }
    assert (Ha' : _already_collided (tick s) = a0).
    { rewrite tick_already_collided, Ha1. apply orb_false_r. }
    unfold I, collided_of. reduce_attributes. rewrite Hc', Ha'.
    destruct a0; repeat split; try reflexivity; discriminate. }
  destruct H3 as (_ & Ha3 & Hk3). reduce_attributes. fold a0.
  split; [|rewrite Ha3; apply orb_true_r].
  destruct a0; [|reflexivity]. discriminate (Hk3 eq_refl).
Qed.

(** With a green obstacle, in any sequence of calls of [step] without a
    reset, at most one call reports a collision, and none does once
    [_already_collided] is set: the bonus, which is added only to a call
    that reports a collision, is paid at most once per episode. *)
Theorem green_collision_reported_at_most_once (fuel : nat) (actions : list Z) :
  forall self,
    _obstacle_color self = GREEN ->
    (collisions (rollout (JumpTaskEnvWithColors.step fuel) actions self)
     <= if _already_collided self then 0 else 1)%nat.
Proof.
  induction actions as [|a actions IH]; intros self Hgreen.
  - destruct (_already_collided self); cbn; lia.
  - unfold collisions in *. cbn [rollout List.filter].
    assert (Hg' : _obstacle_color (JumpTaskEnvWithColors.step fuel a self).2 = GREEN).
    { apply (colors_step_keeps (fun s => _obstacle_color s = GREEN)); [|exact Hgreen].
      intros s s' -> _ H. exact H. }
    specialize (IH _ Hg').
    destruct (collision_of (JumpTaskEnvWithColors.step fuel a self)) as [[|]|] eqn:Hc.
    + destruct (green_collision_flag fuel a self Hgreen Hc) as [H0 H1].
      rewrite H0. rewrite H1 in IH. cbn [length]. lia.
    + destruct (_already_collided self) eqn:Ha; [|destruct (_already_collided _); lia].
      assert (H1 : _already_collided (JumpTaskEnvWithColors.step fuel a self).2 = true).
      { apply (colors_step_keeps (fun s => _already_collided s = true)); [|exact Ha].
        intros s s' _ H. exact H. }
      rewrite H1 in IH. exact IH.
    + destruct (_already_collided self) eqn:Ha; [|destruct (_already_collided _); lia].
      assert (H1 : _already_collided (JumpTaskEnvWithColors.step fuel a self).2 = true).
      { apply (colors_step_keeps (fun s => _already_collided s = true)); [|exact Ha].
        intros s s' _ H. exact H. }
      rewrite H1 in IH. exact IH.
Qed.

Lemma green_collision_reported_at_most_once_witness :
  (collisions (rollout (JumpTaskEnvWithColors.step 0%nat) (repeat 0%Z 56%nat)
                 (green_episode 20%Z 10%Z))
   <= if _already_collided (green_episode 20%Z 10%Z) then 0 else 1)%nat.
Proof.
  assert (Hc : _obstacle_color (green_episode 20%Z 10%Z) = GREEN)
    by (vm_compute; reflexivity).
  exact (green_collision_reported_at_most_once 0%nat (repeat 0%Z 56%nat)
           (green_episode 20%Z 10%Z) Hc).
Defined.

Example walking_through_green_obstacle :
  collisions (rollout (JumpTaskEnvWithColors.step 0) (repeat 0 56%nat)
                (green_episode 20 10)) = 1%nat
  /\ map reward_of (rollout (JumpTaskEnvWithColors.step 0) (repeat 0 56%nat)
                      (green_episode 20 10))
     = map Some (repeat 1 15%nat ++ [-1 + 100] ++ repeat 1 39%nat ++ [1 + 100])
  /\ done (after (JumpTaskEnvWithColors.step 0) (repeat 0 56%nat)
             (green_episode 20 10)) = true.
Proof. repeat split; vm_compute; reflexivity. Qed.

(** * Further properties *)

(** ** In the air the action is not read *)

Lemma movement_in_the_air (a b : Z) (self : Env) :
  (jumping self).1 = true -> movement a self = movement b self.
Proof. intros H. unfold movement. rewrite H. reflexivity. Qed.

Lemma step_in_the_air (self_get_state : M ndarray) (self__game_status : M (bool * bool))
    (fuel : nat) (a b : Z) (self : Env) :
  (jumping self).1 = true ->
  contains (legal_actions self) a = true ->
  contains (legal_actions self) b = true ->
  JumpTaskEnv.step self_get_state self__game_status fuel a self
  = JumpTaskEnv.step self_get_state self__game_status fuel b self.
Proof.
  intros Hj Ha Hb.
  destruct (step_id self >? max_number_of_steps self) eqn:He.
  - rewrite !(step_exhausted_eq _ _ fuel _ self He). reflexivity.
  - rewrite (step_accepted _ _ fuel a self He Ha), (step_accepted _ _ fuel b self He Hb).
    rewrite (movement_in_the_air a b self Hj). reflexivity.
Qed.

(** While the agent is in the air ([jumping[0]] is set), [step] gives the
    same result and the same next object for any two legal actions: the
    jump goes on and the action is not read, in each of the three
    classes. *)
Theorem action_ignored_in_the_air (fuel : nat) (a b : Z) (self : Env) :
  (jumping self).1 = true ->
  contains (legal_actions self) a = true ->
  contains (legal_actions self) b = true ->
  Base.step fuel a self = Base.step fuel b self
  /\ JumpTaskEnvWithCoordinates.step fuel a self
     = JumpTaskEnvWithCoordinates.step fuel b self
  /\ JumpTaskEnvWithColors.step fuel a self = JumpTaskEnvWithColors.step fuel b self.
Proof.
  intros Hj Ha Hb.
  unfold Base.step, JumpTaskEnvWithCoordinates.step, JumpTaskEnvWithColors.step.
  split; [|split].
  - apply step_in_the_air; assumption.
  - apply step_in_the_air; assumption.
  - unfold bind at 1 5.
    rewrite (step_in_the_air _ _ fuel a b self Hj Ha Hb). reflexivity.
Qed.

Lemma action_ignored_in_the_air_witness :
  (jumping airborne_env).1 = true
  /\ Base.step 0 0 airborne_env = Base.step 0 1 airborne_env.
Proof.
  assert (Hj : (jumping airborne_env).1 = true) by (vm_compute; reflexivity).
  assert (Ha : contains (legal_actions airborne_env) 0 = true) by (vm_compute; reflexivity).
  assert (Hb : contains (legal_actions airborne_env) 1 = true) by (vm_compute; reflexivity).
  split; [exact Hj|].
  exact (proj1 (action_ignored_in_the_air 0 0 1 airborne_env Hj Ha Hb)).
Defined.

(** ** Once the step budget is used up *)

(** Once [step_id] exceeds [max_number_of_steps], every further call of
    [step], whatever the actions, leaves the object of the first such call:
    the object before it with [done] set; and when the observation can be
    built every call returns it with reward 0, terminal true and an empty
    [info].  Nothing but a reset moves the agent again. *)
Theorem exhausted_budget_is_absorbing (fuel : nat) (actions : list Z) (self : Env) :
  step_id self > max_number_of_steps self ->
  Forall (fun r => r.2 = set_done true self) (rollout (Base.step fuel) actions self)
  /\ (actions <> [] -> after (Base.step fuel) actions self = set_done true self)
  /\ (returned (Base.get_state self) = true ->
      Forall (fun r => exists state, r = (Return (state, 0, true, ∅), set_done true self))
        (rollout (Base.step fuel) actions self)).
Proof.
  intros H. apply Z.gt_lt, Z.gtb_lt in H.
  assert (Hstep : forall a s, (step_id s >? max_number_of_steps s) = true ->
            (Base.step fuel a s).2 = set_done true s).
  { intros a s Hs. unfold Base.step.
    rewrite (step_exhausted_outcome Base.get_state Base._game_status
               base_get_state_read_only base_get_state_set_done fuel a s Hs).
    reflexivity. }
  split; [|split].
  - revert self H. induction actions as [|a actions IH]; intros self H; [constructor|].
    cbn [rollout]. constructor; [apply Hstep, H|].
    rewrite (Hstep a self H). exact (IH (set_done true self) H).
  - intros Hne. destruct actions as [|a actions]; [congruence|]. clear Hne.
    unfold after. cbn [fold_left]. rewrite (Hstep a self H).
    assert (G : forall l s, (step_id s >? max_number_of_steps s) = true ->
              fold_left (fun self a => (Base.step fuel a self).2) l (set_done true s)
              = set_done true s).
    { induction l as [|b l IH]; intros s Hs; [reflexivity|].
      cbn [fold_left]. rewrite (Hstep b (set_done true s) Hs). exact (IH s Hs). }
    apply G, H.
  - intros Hobs.
    assert (Hret : forall a s, (step_id s >? max_number_of_steps s) = true ->
              returned (Base.get_state s) = true ->
              exists state,
                Base.step fuel a s = (Return (state, 0, true, ∅), set_done true s)).
    { intros a s Hs Ho.
      destruct (read_only_returns _ s base_get_state_read_only Ho) as [obs Eo].
      exists obs. unfold Base.step.
      rewrite (step_exhausted_outcome Base.get_state Base._game_status
                 base_get_state_read_only base_get_state_set_done fuel a s Hs).
      rewrite Eo. reflexivity. }
    revert self H Hobs. induction actions as [|a actions IH]; intros self H Hobs;
      [constructor|].
    cbn [rollout]. destruct (Hret a self H Hobs) as [state E]. rewrite E. cbn [snd].
    constructor; [exists state; reflexivity|].
    apply (IH (set_done true self) H).
    apply base_get_state_returned. apply base_get_state_returned in Hobs. exact Hobs.
Qed.

Lemma exhausted_budget_is_absorbing_witness :
  after (Base.step 0) [0; 1; 7] exhausted_env = set_done true exhausted_env.
Proof.
  assert (H : step_id exhausted_env > max_number_of_steps exhausted_env)
    by (vm_compute; reflexivity).
  apply (proj1 (proj2 (exhausted_budget_is_absorbing 0 [0; 1; 7] exhausted_env H))).
  discriminate.
Defined.

(** ** The step counter *)

Lemma base_step_counter (self_get_state : M ndarray) (fuel : nat) (action : Z) (self : Env)
    (result : StepResult) (self' : Env) :
  read_only self_get_state ->
  JumpTaskEnv.step self_get_state JumpTaskEnv._game_status fuel action self
  = (Return result, self') ->
  max_number_of_steps self' = max_number_of_steps self
  /\ step_id self'
     = if step_id self >? max_number_of_steps self then step_id self else step_id self + 1.
Proof.
  intros Hg E. destruct result as [[[state reward] terminal] info].
  destruct (step_id self >? max_number_of_steps self) eqn:He.
  - rewrite (step_exhausted_eq _ _ fuel action self He) in E.
    apply bind_inv in E as (obs & s1 & E1 & E).
    pose proof (read_only_inv _ _ _ _ Hg E1) as ->.
    injection E as _ _ _ _ <-. split; reflexivity.
  - destruct (contains (legal_actions self) action) eqn:Hl;
      [|rewrite (step_illegal_eq _ _ fuel action self He Hl) in E; discriminate E].
    apply (step_accepted_inv _ _ Hg) in E
      as (k0 & e0 & s2 & k & e & s3 & E1 & E3 & _ & _ & ->); try assumption.
    pose (I := fun (_ _ : bool) (s : Env) =>
                 step_id s = step_id self
                 /\ max_number_of_steps s = max_number_of_steps self).
    assert (Hm : forall s, I false false s -> I false false (movement action s)).
    { intros s [H1 H2]. unfold I, movement.
      destruct (jumping s).1.
      - unfold tick, JumpTaskEnv._continue_jump. reduce_attributes.
        destruct (agent_pos_y s >? floor_height s + JUMP_HEIGHT); reduce_attributes;
          [|destruct (jumping s) as [j [[|]|]]; reduce_attributes];
          try destruct (agent_pos_y s - agent_speed s * JUMP_VERTICAL_SPEED
                        =? floor_height s);
          split; assumption.
      - destruct (action =? 0); [split; assumption|].
        destruct (action =? 1).
        { unfold tick, JumpTaskEnv._continue_jump. reduce_attributes.
          destruct (agent_pos_y s >? floor_height s + JUMP_HEIGHT); reduce_attributes;
            try destruct (agent_pos_y s - agent_speed s * JUMP_VERTICAL_SPEED
                          =? floor_height s);
            split; assumption. }
        destruct (action =? 2); [|split; assumption].
        destruct (agent_pos_x s >? 0); split; assumption. }
    assert (H2 : I k0 e0 s2).
    { rewrite game_status_eq in E1. injection E1 as _ _ <-.
      apply (Hm self). split; reflexivity. }
    assert (H3 : I k e s3).
    { unfold complete_jump in E3. apply bind_inv in E3 as (fj & s4 & E4 & E3).
      injection E4 as <- <-.
      destruct (finish_jump s2); [|injection E3 as _ _ <-; exact H2].
      apply (finish_jump_loop_partial JumpTaskEnv._game_status I)
        with (fuel := fuel) (killed := k0) (exited := e0) (s := s2); [|exact H2|exact E3].
      intros k1 e1 s k1' e1' s1' [Hs1 Hs2] Hj _ _ Er.
      rewrite game_status_eq in Er. injection Er as _ _ <-.
      unfold I, tick, JumpTaskEnv._continue_jump. reduce_attributes.
      destruct (agent_pos_y s >? floor_height s + JUMP_HEIGHT); reduce_attributes;
        [|destruct (jumping s) as [j [[|]|]]; reduce_attributes];
        try destruct (agent_pos_y s - agent_speed s * JUMP_VERTICAL_SPEED
                      =? floor_height s);
        split; assumption. }
    destruct H3 as [Hs Hmax]. reduce_attributes. rewrite Hs, Hmax. split; reflexivity.
Qed.

(** The step counter grows by one on every call that returns while it does
    not exceed [max_number_of_steps], and stays once it does: over any
    sequence of calls that all return, it saturates at
    [max_number_of_steps + 1].  An episode therefore has
    [max_number_of_steps + 1] accepted steps before the budget test fires. *)
Theorem step_counter_saturates (fuel : nat) (actions : list Z) (self : Env) :
  forallb returned (rollout (Base.step fuel) actions self) = true ->
  step_id self <= max_number_of_steps self + 1 ->
  step_id (after (Base.step fuel) actions self)
  = Z.min (step_id self + Z.of_nat (length actions)) (max_number_of_steps self + 1)
  /\ max_number_of_steps (after (Base.step fuel) actions self) = max_number_of_steps self.
Proof.
  revert self. induction actions as [|a actions IH]; intros self Hr Hid.
  - unfold after. cbn [fold_left length]. split; [lia|reflexivity].
  - cbn [rollout forallb] in Hr. apply andb_true_iff in Hr as [Ha Hr].
    unfold after. cbn [fold_left].
    unfold returned in Ha.
    destruct (Base.step fuel a self) as [[res|e|] s1] eqn:E; cbn [fst] in Ha;
      try discriminate Ha.
    cbn [snd] in *.
    destruct (base_step_counter Base.get_state fuel a self res s1 base_get_state_read_only E)
      as [Hmax Hs].
    assert (Hid1 : step_id s1 <= max_number_of_steps s1 + 1).
    { rewrite Hmax, Hs. destruct (step_id self >? max_number_of_steps self) eqn:He; [lia|].
      rewrite Z.gtb_ltb in He. apply Z.ltb_ge in He. lia. }
    destruct (IH s1 Hr Hid1) as [H1 H2]. unfold after in H1, H2.
    rewrite H1, H2, Hmax, Hs. split; [|reflexivity].
    cbn [length]. rewrite Nat2Z.inj_succ.
    destruct (step_id self >? max_number_of_steps self) eqn:He.
    + apply Z.gtb_lt in He. lia.
    + rewrite Z.gtb_ltb in He. apply Z.ltb_ge in He. lia.
Qed.

Lemma step_counter_saturates_witness :
  step_id (after (Base.step 0) (repeat 0 700%nat) (episode 30 10))
  = Z.min (step_id (episode 30 10) + Z.of_nat (length (repeat 0 700%nat)))
      (max_number_of_steps (episode 30 10) + 1).
Proof.
  assert (Hr : forallb returned (rollout (Base.step 0) (repeat 0 700%nat) (episode 30 10))
               = true) by (vm_compute; reflexivity).
  assert (Hid : step_id (episode 30 10) <= max_number_of_steps (episode 30 10) + 1)
    by (vm_compute; discriminate).
  exact (proj1 (step_counter_saturates 0 (repeat 0 700%nat) (episode 30 10) Hr Hid)).
Defined.

Example episode_has_601_accepted_steps :
  step_id (after (Base.step 0) (repeat 0 700%nat) (episode 30 10)) = 601
  /\ agent_pos_x (after (Base.step 0) (repeat 0 700%nat) (episode 30 10)) = 601.
Proof. split; vm_compute; reflexivity. Qed.

(** ** A reset forgets the steps *)

Lemma forget_tick (self : Env) : forget_episode (tick self) = forget_episode self.
Proof.
  unfold tick, JumpTaskEnv._continue_jump. reduce_attributes.
  destruct (agent_pos_y self >? floor_height self + JUMP_HEIGHT); reduce_attributes;
    [|destruct (jumping self) as [j [[|]|]]; reduce_attributes];
    try destruct (agent_pos_y self - agent_speed self * JUMP_VERTICAL_SPEED
                  =? floor_height self);
    reflexivity.
Qed.

Lemma forget_movement (action : Z) (self : Env) :
  forget_episode (movement action self) = forget_episode self.
Proof.
  unfold movement.
  destruct (jumping self).1; [apply forget_tick|].
  destruct (action =? 0); [reflexivity|].
  destruct (action =? 1); [apply (forget_tick (set_jumping (true, Some up) self))|].
  destruct (action =? 2); [|reflexivity].
  destruct (agent_pos_x self >? 0); reflexivity.
Qed.

Lemma forget_colors_tick (self : Env) :
  forget_colors_episode (tick self) = forget_colors_episode self.
Proof.
  unfold forget_colors_episode, tick, JumpTaskEnv._continue_jump. reduce_attributes.
  destruct (agent_pos_y self >? floor_height self + JUMP_HEIGHT); reduce_attributes;
    [|destruct (jumping self) as [j [[|]|]]; reduce_attributes];
    try destruct (agent_pos_y self - agent_speed self * JUMP_VERTICAL_SPEED
                  =? floor_height self);
    reflexivity.
Qed.

Lemma forget_colors_movement (action : Z) (self : Env) :
  forget_colors_episode (movement action self) = forget_colors_episode self.
Proof.
  unfold movement.
  destruct (jumping self).1; [apply forget_colors_tick|].
  destruct (action =? 0); [reflexivity|].
  destruct (action =? 1); [apply (forget_colors_tick (set_jumping (true, Some up) self))|].
  destruct (action =? 2); [|reflexivity].
  destruct (agent_pos_x self >? 0); reflexivity.
Qed.

(** [step] assigns nothing but the attributes of the running episode. *)
Lemma step_forget (self_get_state : M ndarray) (fuel : nat) (action : Z) (self : Env) :
  read_only self_get_state ->
  forget_episode (JumpTaskEnv.step self_get_state JumpTaskEnv._game_status fuel action self).2
  = forget_episode self.
Proof.
  intros Hg.
  apply (step_preserves self_get_state JumpTaskEnv._game_status Hg
           (fun s => forget_episode s = forget_episode self)).
  - intros b s H. exact H.
  - intros n s H. exact H.
  - intros a s H. rewrite forget_movement. exact H.
  - intros s H _. rewrite forget_tick. exact H.
  - intros s H. rewrite game_status_eq. exact H.
  - reflexivity.
Qed.

Lemma colors_step_forget (fuel : nat) (action : Z) (self : Env) :
  forget_colors_episode (JumpTaskEnvWithColors.step fuel action self).2
  = forget_colors_episode self.
Proof.
  rewrite colors_step_state.
  apply (step_preserves JumpTaskEnvWithColors.get_state JumpTaskEnvWithColors._game_status
           colors_get_state_read_only
           (fun s => forget_colors_episode s = forget_colors_episode self)).
  - intros b s H. exact H.
  - intros n s H. exact H.
  - intros a s H. rewrite forget_colors_movement. exact H.
  - intros s H _. rewrite forget_colors_tick. exact H.
  - intros s H. rewrite colors_game_status_eq. exact H.
  - reflexivity.
Qed.

Lemma after_forget (forget : Env -> Env) (step : Z -> M StepResult) :
  (forall a s, forget (step a s).2 = forget s) ->
  forall actions self, forget (after step actions self) = forget self.
Proof.
  intros H. induction actions as [|a actions IH]; intros self; [reflexivity|].
  unfold after in *. cbn [fold_left]. rewrite IH. apply H.
Qed.

(** [_reset] reads nothing of what an episode assigns. *)
Lemma _reset_of_forget (self_get_state : M ndarray) (ox fy : Z) (two : bool) (s s' : Env) :
  forget_episode s' = forget_episode s ->
  JumpTaskEnv._reset self_get_state ox fy two s'
  = JumpTaskEnv._reset self_get_state ox fy two s.
Proof.
  intros H.
  change (JumpTaskEnv._reset self_get_state ox fy two (forget_episode s')
          = JumpTaskEnv._reset self_get_state ox fy two (forget_episode s)).
  rewrite H. reflexivity.
Qed.

Lemma reset_of_forget (self_get_state : M ndarray) (s s' : Env) :
  forget_episode s' = forget_episode s ->
  JumpTaskEnv.reset (JumpTaskEnv._reset self_get_state) s'
  = JumpTaskEnv.reset (JumpTaskEnv._reset self_get_state) s.
Proof.
  intros H.
  change (JumpTaskEnv.reset (JumpTaskEnv._reset self_get_state) (forget_episode s')
          = JumpTaskEnv.reset (JumpTaskEnv._reset self_get_state) (forget_episode s)).
  rewrite H. reflexivity.
Qed.

Lemma colors__reset_of_forget (ox fy : Z) (two : bool) (s s' : Env) :
  forget_colors_episode s' = forget_colors_episode s ->
  JumpTaskEnvWithColors._reset ox fy two s' = JumpTaskEnvWithColors._reset ox fy two s.
Proof.
  intros H.
  change (JumpTaskEnvWithColors._reset ox fy two (forget_colors_episode s')
          = JumpTaskEnvWithColors._reset ox fy two (forget_colors_episode s)).
  rewrite H. reflexivity.
Qed.

Lemma colors_reset_of_forget (s s' : Env) :
  forget_colors_episode s' = forget_colors_episode s ->
  JumpTaskEnvWithColors.reset s' = JumpTaskEnvWithColors.reset s.
Proof.
  intros H.
  change (JumpTaskEnvWithColors.reset (forget_colors_episode s')
          = JumpTaskEnvWithColors.reset (forget_colors_episode s)).
  rewrite H. reflexivity.
Qed.

(** A reset after any sequence of [step] calls (returning, raising or cut
    short) is the reset of the object the sequence started from: [_reset]
    with given arguments and [reset] give the same result and leave the same
    object, in each of the three classes.  [step] leaves no trace that a
    reset does not erase: it assigns neither the layout, nor the generator,
    nor anything the constructor set. *)
Theorem reset_forgets_the_steps
    (fuel : nat) (actions : list Z) (self : Env) (ox fy : Z) (two : bool) :
  (Base._reset ox fy two (after (Base.step fuel) actions self) = Base._reset ox fy two self
   /\ Base.reset (after (Base.step fuel) actions self) = Base.reset self)
  /\ (JumpTaskEnvWithCoordinates._reset ox fy two
        (after (JumpTaskEnvWithCoordinates.step fuel) actions self)
      = JumpTaskEnvWithCoordinates._reset ox fy two self
      /\ JumpTaskEnvWithCoordinates.reset
           (after (JumpTaskEnvWithCoordinates.step fuel) actions self)
         = JumpTaskEnvWithCoordinates.reset self)
  /\ (JumpTaskEnvWithColors._reset ox fy two
        (after (JumpTaskEnvWithColors.step fuel) actions self)
      = JumpTaskEnvWithColors._reset ox fy two self
      /\ JumpTaskEnvWithColors.reset (after (JumpTaskEnvWithColors.step fuel) actions self)
         = JumpTaskEnvWithColors.reset self).
Proof.
  split; [|split]; split.
  - apply _reset_of_forget, after_forget. intros a s.
    apply step_forget, base_get_state_read_only.
  - apply reset_of_forget, after_forget. intros a s.
    apply step_forget, base_get_state_read_only.
  - apply _reset_of_forget, after_forget. intros a s.
    apply step_forget, coordinates_get_state_read_only.
  - apply reset_of_forget, after_forget. intros a s.
    apply step_forget, coordinates_get_state_read_only.
  - apply colors__reset_of_forget, after_forget. intros a s. apply colors_step_forget.
  - apply colors_reset_of_forget, after_forget. intros a s. apply colors_step_forget.
Qed.


(** ** When the rasters can be built *)

Lemma np_zeros_painted_raises (shape : list Z) (paint : list assignment)
    (a : ndarray) (s : Env) :
  returned ((np_zeros_painted shape paint >> ret a) s) = false ->
  (np_zeros_painted shape paint >> ret a) s
  = (Raise (if existsb (fun n => n <? 0) shape then ValueError else IndexError), s).
Proof.
  unfold np_zeros_painted, returned, bind, raise, ret.
  destruct (existsb _ _); [reflexivity|]. destruct (forallb _ _); [discriminate|reflexivity].
Qed.

(** [JumpTaskEnv.get_state] and [JumpTaskEnvWithColors.get_state] return
    the raster exactly when the screen is square (and not empty) and
    [floor_height] is one of its rows, counted from either end
    ([-scr_w <= floor_height < scr_w]); they raise [ValueError] (from
    [np.zeros]) when a screen size is negative and [IndexError] (from the
    assignments that draw the outline and the floor) otherwise; they never
    assign.  [JumpTaskEnvWithCoordinates.get_state] always returns. *)
Theorem get_state_raises_outside_the_raster (self : Env) :
  let in_raster :=
    0 < scr_w self /\ scr_h self = scr_w self
    /\ - scr_w self <= floor_height self < scr_w self in
  let error := if (scr_h self <? 0) || (scr_w self <? 0) then ValueError else IndexError in
  ((exists obs, Base.get_state self = (Return obs, self)) <-> in_raster)
  /\ ((exists obs, JumpTaskEnvWithColors.get_state self = (Return obs, self)) <-> in_raster)
  /\ (~ in_raster ->
      Base.get_state self = (Raise error, self)
      /\ JumpTaskEnvWithColors.get_state self = (Raise error, self))
  /\ exists obs, JumpTaskEnvWithCoordinates.get_state self = (Return obs, self).
Proof.
  cbv zeta. split; [|split; [|split]].
  - rewrite <- base_get_state_returned. split.
    + intros [obs E]. rewrite E. reflexivity.
    + apply read_only_returns, base_get_state_read_only.
  - rewrite <- colors_get_state_returned. split.
    + intros [obs E]. rewrite E. reflexivity.
    + apply read_only_returns, colors_get_state_read_only.
  - intros Hn. split.
    + assert (Hr : returned (Base.get_state self) = false).
      { destruct (returned (Base.get_state self)) eqn:E; [|reflexivity].
        apply base_get_state_returned in E. contradiction. }
      unfold Base.get_state, JumpTaskEnv.get_state in *.
      rewrite (np_zeros_painted_raises _ _ _ _ Hr).
      cbn [existsb]. rewrite ?orb_false_r. reflexivity.
    + assert (Hr : returned (JumpTaskEnvWithColors.get_state self) = false).
      { destruct (returned (JumpTaskEnvWithColors.get_state self)) eqn:E; [|reflexivity].
        apply colors_get_state_returned in E. contradiction. }
      unfold JumpTaskEnvWithColors.get_state in *.
      rewrite (np_zeros_painted_raises _ _ _ _ Hr).
      cbn [existsb]. rewrite ?orb_false_r. reflexivity.
  - eexists. reflexivity.
Qed.

(** After the rejected [_reset(30, 70)] the agent still walks, and each call
    of [step] raises [IndexError] when it builds the observation. *)
Example step_with_the_floor_outside_the_raster :
  (Base._reset 30 70 false (episode 30 10)).1 = Raise ValueError
  /\ floor_height floor_outside_env = 70
  /\ (Base.step 0 0 floor_outside_env).1 = Raise IndexError
  /\ agent_pos_x (Base.step 0 0 floor_outside_env).2 = 1
  /\ step_id (Base.step 0 0 floor_outside_env).2 = 1.
Proof. repeat split; vm_compute; reflexivity. Qed.

(** On a screen that is not square the constructor raises [IndexError]:
    its [reset()] cannot build the first observation. *)
Example constructor_on_a_screen_that_is_not_square :
  (Base.__init__ counting_draws (with_screen 40 60 JumpTaskEnv.kwargs.defaults) object_new).1
  = Raise IndexError
  /\ (JumpTaskEnvWithColors.__init__ counting_draws GREEN
        (with_screen 40 60 JumpTaskEnv.kwargs.defaults) object_new).1
     = Raise IndexError
  /\ (JumpTaskEnvWithCoordinates.__init__ counting_draws
        (with_screen 40 60 JumpTaskEnv.kwargs.defaults) object_new).1
     = Return tt.
Proof. repeat split; vm_compute; reflexivity. Qed.

(** ** The return of an episode that goes on *)

Section Running_step.

Variable self_get_state : M ndarray.
Hypothesis get_state_read_only : read_only self_get_state.

(** A call of [JumpTaskEnv.step] that returns with the terminal flag clear
    met no obstacle and did not reach the edge: its reward is the distance
    covered. *)
Lemma step_running_reward (fuel : nat) (action : Z) (self : Env)
    (state : ndarray) (reward : Z) (info : gmap string bool) (self' : Env) :
  JumpTaskEnv.step self_get_state JumpTaskEnv._game_status fuel action self
  = (Return (state, reward, false, info), self') ->
  reward = agent_pos_x self' - agent_pos_x self
  /\ info = {["collision" := false]}.
Proof.
  intros E.
  destruct (step_id self >? max_number_of_steps self) eqn:He.
  { rewrite (step_exhausted_eq _ _ fuel action self He) in E.
    apply bind_inv in E as (obs & s1 & E1 & E).
    pose proof (read_only_inv _ _ _ _ get_state_read_only E1) as ->.
    injection E as _ _ Hd _. discriminate Hd. }
  destruct (contains (legal_actions self) action) eqn:Hl;
    [|rewrite (step_illegal_eq _ _ fuel action self He Hl) in E; discriminate E].
  rewrite (step_accepted _ _ fuel action self He Hl) in E.
  apply bind_inv in E as ([k0 e0] & s2 & E0 & E).
  apply bind_inv in E as ([k e] & s3 & E3 & E).
  pose (I := fun (k e : bool) (s : Env) => done s = k || e).
  assert (H2 : I k0 e0 s2).
  { rewrite game_status_eq in E0. injection E0 as <- <- <-. reflexivity. }
  assert (H3 : I k e s3).
  { unfold complete_jump in E3. apply bind_inv in E3 as (fj & s4 & E4 & E3).
    injection E4 as <- <-.
    destruct (finish_jump s2); [|injection E3 as <- <- <-; exact H2].
    apply (finish_jump_loop_partial JumpTaskEnv._game_status I)
      with (fuel := fuel) (killed := k0) (exited := e0) (s := s2); [|exact H2|exact E3].
    intros k1 e1 s k1' e1' s1' _ _ _ _ Er.
    rewrite game_status_eq in Er. injection Er as <- <- <-. reflexivity. }
  unfold settle in E.
  apply bind_inv in E as (x1 & s4 & E4 & E). injection E4 as <- <-.
  apply bind_inv in E as (table & s4 & E4 & E). injection E4 as <- <-.
  apply bind_inv in E as (r & s4 & E4 & E).
  apply bind_inv in E as ([] & s5 & E5 & E). injection E5 as <-.
  apply bind_inv in E as (obs & s6 & E6 & E).
  pose proof (read_only_inv _ _ _ _ get_state_read_only E6) as ->.
  apply bind_inv in E as (dn & s7 & E7 & E). injection E7 as <- <-.
  injection E as _ <- Hd <- <-.
  unfold I in H3.
  assert (Hke : k = false /\ e = false).
  { unfold getitem, bind, ret, raise in E4.
    destruct k; [|destruct e];
      repeat match type of E4 with
             | context [match ?m !! ?key with _ => _ end] => destruct (m !! key)
             end;
      try discriminate E4; injection E4 as _ <-;
      reduce_attributes; rewrite H3 in Hd; try discriminate Hd; split; reflexivity. }
  destruct Hke as [-> ->].
  unfold ret in E4. injection E4 as <- <-.
  reduce_attributes. split; [lia|reflexivity].
Qed.

(** While every call returns with the terminal flag clear, the rewards add
    up to the distance the agent has covered, and no call reports a
    collision. *)
Lemma running_rollout_reward (fuel : nat) (actions : list Z) :
  forall self,
    forallb running
      (rollout (JumpTaskEnv.step self_get_state JumpTaskEnv._game_status fuel) actions self)
    = true ->
    total_reward
      (rollout (JumpTaskEnv.step self_get_state JumpTaskEnv._game_status fuel) actions self)
    = agent_pos_x
        (after (JumpTaskEnv.step self_get_state JumpTaskEnv._game_status fuel) actions self)
      - agent_pos_x self
    /\ collisions
         (rollout (JumpTaskEnv.step self_get_state JumpTaskEnv._game_status fuel) actions self)
       = 0%nat.
Proof.
  induction actions as [|a actions IH]; intros self Hr.
  - unfold after. cbn. split; [lia|reflexivity].
  - cbn [rollout forallb] in Hr. apply andb_true_iff in Hr as [Ha Hr].
    unfold after, collisions in *. cbn [rollout fold_left total_reward fold_right List.filter].
    fold (total_reward
            (rollout (JumpTaskEnv.step self_get_state JumpTaskEnv._game_status fuel) actions
               (JumpTaskEnv.step self_get_state JumpTaskEnv._game_status fuel a self).2)).
    unfold running in Ha.
    destruct (JumpTaskEnv.step self_get_state JumpTaskEnv._game_status fuel a self)
      as [[[[[state reward] [|]] info]|e|] s1] eqn:E; cbn [fst] in Ha;
      try discriminate Ha.
    cbn [snd] in *.
    destruct (step_running_reward fuel a self state reward info s1 E) as [-> ->].
    destruct (IH s1 Hr) as [H1 H2].
    unfold reward_of at 1, collision_of at 1. cbn [fst].
    rewrite lookup_singleton_eq. cbn [default id]. rewrite H1, H2.
    split; [lia|reflexivity].
Qed.

End Running_step.

(** As long as the episode goes on (every call of [step] so far returned
    with the terminal flag clear), the sum of the rewards is the distance the
    agent has covered since the first call, and no call has reported a
    collision: the reward is one per pixel moved to the right, as the
    docstring of [step] says.  This holds for [JumpTaskEnv.step] as instances
    of [JumpTaskEnv] and of [JumpTaskEnvWithCoordinates] run it. *)
Theorem return_is_the_distance_covered (fuel : nat) (actions : list Z) (self : Env) :
  (forallb running (rollout (Base.step fuel) actions self) = true ->
   total_reward (rollout (Base.step fuel) actions self)
   = agent_pos_x (after (Base.step fuel) actions self) - agent_pos_x self
   /\ collisions (rollout (Base.step fuel) actions self) = 0%nat)
  /\ (forallb running (rollout (JumpTaskEnvWithCoordinates.step fuel) actions self) = true ->
      total_reward (rollout (JumpTaskEnvWithCoordinates.step fuel) actions self)
      = agent_pos_x (after (JumpTaskEnvWithCoordinates.step fuel) actions self)
        - agent_pos_x self
      /\ collisions (rollout (JumpTaskEnvWithCoordinates.step fuel) actions self) = 0%nat).
Proof.
  split.
  - apply (running_rollout_reward Base.get_state base_get_state_read_only).
  - apply (running_rollout_reward JumpTaskEnvWithCoordinates.get_state
             coordinates_get_state_read_only).
Qed.

Lemma return_is_the_distance_covered_witness :
  total_reward
    (rollout (Base.step 0) (repeat 0 10%nat ++ repeat 1 14%nat) (episode 30 10))
  = agent_pos_x
      (after (Base.step 0) (repeat 0 10%nat ++ repeat 1 14%nat) (episode 30 10))
    - agent_pos_x (episode 30 10).
Proof.
  assert (Hr : forallb running
                 (rollout (Base.step 0) (repeat 0 10%nat ++ repeat 1 14%nat) (episode 30 10))
               = true) by (vm_compute; reflexivity).
  exact (proj1 (proj1 (return_is_the_distance_covered 0
                         (repeat 0 10%nat ++ repeat 1 14%nat) (episode 30 10)) Hr)).
Defined.

Example walking_and_jumping_to_the_obstacle :
  forallb running
    (rollout (Base.step 0) (repeat 0 10%nat ++ repeat 1 14%nat) (episode 30 10)) = true
  /\ total_reward
       (rollout (Base.step 0) (repeat 0 10%nat ++ repeat 1 14%nat) (episode 30 10)) = 24
  /\ agent_pos_x
       (after (Base.step 0) (repeat 0 10%nat ++ repeat 1 14%nat) (episode 30 10)) = 24.
Proof. repeat split; vm_compute; reflexivity. Qed.

(** ** The red obstacle *)

(** With a red obstacle, [JumpTaskEnvWithColors.step] behaves as
    [JumpTaskEnv.step]: for every accepted call on an object whose reward
    table has the entries [life], [exit] and [collision], whose jump is well
    formed when [finish_jump] is set and whose observation can be built, the
    collision flag is the overlap test after the call (it is not gated by
    [_already_collided]), a collision ends the episode, and the reward is
    that of the base class plus the entry [collision] on a collision with
    the agent on the floor.  The constructor sets that entry to 0 for a red
    obstacle, so that the reward is then the reward of the base class. *)
Theorem red_collision_ends_the_episode (action : Z) (self : Env) (life exit bonus : Z) :
  _obstacle_color self = RED ->
  step_id self <= max_number_of_steps self ->
  contains (legal_actions self) action = true ->
  rewards self !! "life" = Some life ->
  rewards self !! "exit" = Some exit ->
  rewards self !! "collision" = Some bonus ->
  (finish_jump self = true -> jump_wf self) ->
  returned (JumpTaskEnvWithColors.get_state self) = true ->
  exists fuel0, forall fuel, (fuel0 <= fuel)%nat ->
    exists state self',
      let on_floor := agent_pos_y self' =? floor_height self' in
      JumpTaskEnvWithColors.step fuel action self
      = (Return (state,
                 reward_rule life exit self self'
                 + (if on_floor && failure_of self' then bonus else 0),
                 done self',
                 {["collision" := failure_of self']}),
         self')
      /\ done self' = failure_of self' || success_of self'
      /\ _already_collided self' = _already_collided self || failure_of self'
      /\ step_id self' = step_id self + 1.
Proof.
  intros Hred Hid Hl Hlife Hexit Hbonus Hwf Hobs.
  pose (a0 := _already_collided self).
  pose (I := fun (k e : bool) (s : Env) =>
               k = failure_of s /\ e = success_of s
               /\ done s = k || e /\ _already_collided s = a0 || k
               /\ _obstacle_color s = RED).
  destruct (step_accepted_spec JumpTaskEnvWithColors.get_state
              JumpTaskEnvWithColors._game_status
              colors_get_state_read_only colors_reads_setting colors_status_frame I) with
    (action := action) (self := self) (life := life) (exit := exit)
    as [fuel0 H]; try assumption.
  - intros k e s k' e' s' (_ & _ & _ & Ha & Hc) _ -> _ E.
    rewrite colors_game_status_eq in E. injection E as <- <- <-.
    assert (Hc' : _obstacle_color (tick s) = RED).
    { destruct (tick_setting s) as (_ & _ & _ & _ & _ & _ & _ & _ & _ & _ & -> & _).
      exact Hc. }
    assert (Ha' : _already_collided (tick s) = a0).
    { rewrite tick_already_collided, Ha. apply orb_false_r. }
    unfold I, collided_of. reduce_attributes. rewrite Hc', Ha'.
    repeat split; reflexivity.
  - intros k e s' E.
    rewrite colors_game_status_eq in E. injection E as <- <- <-.
    assert (Hc' : _obstacle_color (movement action self) = RED).
    { destruct (movement_setting action self)
        as (_ & _ & _ & _ & _ & _ & _ & _ & _ & _ & -> & _).
      exact Hred. }
    unfold I, collided_of. reduce_attributes.
    rewrite Hc', movement_already_collided. fold a0.
    repeat split; reflexivity.
  - exists fuel0. intros fuel Hfuel.
    destruct (H fuel Hfuel) as (k & e & s3 & obs & E & (Hk & Hex & Hd & Ha & Hc) & Hs3 & _).
    exists obs, (set_step_id (step_id s3 + 1) s3).
    cbv zeta. unfold reward_rule.
    change (failure_of (set_step_id (step_id s3 + 1) s3)) with (failure_of s3).
    change (success_of (set_step_id (step_id s3 + 1) s3)) with (success_of s3).
    change (done (set_step_id (step_id s3 + 1) s3)) with (done s3).
    change (agent_pos_x (set_step_id (step_id s3 + 1) s3)) with (agent_pos_x s3).
    change (agent_pos_y (set_step_id (step_id s3 + 1) s3)) with (agent_pos_y s3).
    change (floor_height (set_step_id (step_id s3 + 1) s3)) with (floor_height s3).
    change (_already_collided (set_step_id (step_id s3 + 1) s3))
      with (_already_collided s3).
    change (step_id (set_step_id (step_id s3 + 1) s3)) with (step_id s3 + 1).
    fold a0. rewrite <- Hk, <- Hex.
    split; [|split; [exact Hd|split; [exact Ha|]]].
    + unfold JumpTaskEnvWithColors.step, bind at 1. rewrite E. cbv beta iota.
      unfold bind, attr, ret, getitem, raise. cbv beta.
      change (agent_pos_y (set_step_id (step_id s3 + 1) s3)) with (agent_pos_y s3).
      change (floor_height (set_step_id (step_id s3 + 1) s3)) with (floor_height s3).
      change (rewards (set_step_id (step_id s3 + 1) s3)) with (rewards s3).
      rewrite lookup_singleton_eq. destruct Hs3 as (Hr & _).
      destruct (agent_pos_y s3 =? floor_height s3); unfold ret; cbv beta iota;
        [destruct k; cbv beta iota|]; cbn [andb];
        try (change (rewards (set_step_id (step_id s3 + 1) s3)) with (rewards s3);
             rewrite Hr, Hbonus; cbv beta iota);
        repeat f_equal; lia.
    + destruct Hs3 as (_ & -> & _). reflexivity.
Qed.

Lemma before_red_obstacle_facts :
  _obstacle_color before_red_obstacle_env = RED
  /\ step_id before_red_obstacle_env <= max_number_of_steps before_red_obstacle_env
  /\ contains (legal_actions before_red_obstacle_env) 0 = true
  /\ rewards before_red_obstacle_env !! "life" = Some (-1)
  /\ rewards before_red_obstacle_env !! "exit" = Some 100
  /\ rewards before_red_obstacle_env !! "collision" = Some 0
  /\ finish_jump before_red_obstacle_env = false
  /\ returned (JumpTaskEnvWithColors.get_state before_red_obstacle_env) = true.
Proof. repeat split; vm_compute; solve [reflexivity|discriminate]. Qed.

Lemma red_collision_ends_the_episode_witness :
  exists fuel0, forall fuel, (fuel0 <= fuel)%nat ->
    exists state self',
      JumpTaskEnvWithColors.step fuel 0 before_red_obstacle_env
      = (Return (state,
                 reward_rule (-1) 100 before_red_obstacle_env self'
                 + (if (agent_pos_y self' =? floor_height self') && failure_of self'
                    then 0 else 0),
                 done self',
                 {["collision" := failure_of self']}),
         self')
      /\ done self' = failure_of self' || success_of self'.
Proof.
  destruct before_red_obstacle_facts as (Hc & Hid & Hl & Hlife & Hexit & Hbonus & Hfj & Hobs).
  assert (Hwf : finish_jump before_red_obstacle_env = true -> jump_wf before_red_obstacle_env)
    by (rewrite Hfj; discriminate).
  destruct (red_collision_ends_the_episode 0 before_red_obstacle_env (-1) 100 0
              Hc Hid Hl Hlife Hexit Hbonus Hwf Hobs) as [fuel0 H].
  exists fuel0. intros fuel Hfuel.
  destruct (H fuel Hfuel) as (state & self' & E & Hd & _).
  exists state, self'. split; [exact E|exact Hd].
Defined.

Example walking_into_red_obstacle :
  reward_of (JumpTaskEnvWithColors.step 0 0 before_red_obstacle_env) = Some (-1)
  /\ collision_of (JumpTaskEnvWithColors.step 0 0 before_red_obstacle_env) = Some true
  /\ done (JumpTaskEnvWithColors.step 0 0 before_red_obstacle_env).2 = true.
Proof. repeat split; vm_compute; reflexivity. Qed.

(** ** The one jump that clears the obstacle *)

Lemma jump_policies_checked_everywhere (rs : RandomState) (fuel : nat) :
  forallb (fun ox =>
    forallb (fun fy =>
      walk_checked rs fuel (Z.of_nat ox) fy
      && forallb (fun p => jump_policy_checked rs fuel (Z.of_nat ox) fy p) (seq 0 56))
      ALLOWED_OBSTACLE_Y)
    (seq 14 34) = true.
Proof. vm_compute. reflexivity. Qed.

Lemma jump_policy_checked_at (rs : RandomState) (fuel : nat) (ox fy : Z) (p : nat) :
  LEFT <= ox < RIGHT -> In fy ALLOWED_OBSTACLE_Y -> (p <= 55)%nat ->
  walk_checked rs fuel ox fy = true /\ jump_policy_checked rs fuel ox fy p = true.
Proof.
  intros Hx Hfy Hp. unfold LEFT, RIGHT in Hx.
  pose proof (jump_policies_checked_everywhere rs fuel) as H.
  assert (Hin : In (Z.to_nat ox) (seq 14 34)) by (apply in_seq; lia).
  pose proof (proj1 (forallb_forall _ _) H _ Hin) as H1. cbv beta in H1.
  pose proof (proj1 (forallb_forall _ _) H1 _ Hfy) as H2. cbv beta in H2.
  rewrite Z2Nat.id in H2 by lia.
  apply andb_true_iff in H2 as [Hwalk H2]. split; [exact Hwalk|].
  assert (Hp' : In p (seq 0 56)) by (apply in_seq; lia).
  exact (proj1 (forallb_forall _ _) H2 _ Hp').
Qed.

Lemma jump_policy_checked_spec (rs : RandomState) (fuel : nat) (ox fy : Z) (p : nat) :
  walk_checked rs fuel ox fy = true ->
  jump_policy_checked rs fuel ox fy p = true ->
  forallb returned (rollout (Base.step fuel) (jump_at p) (default_attributes rs ox fy)) = true
  /\ (collisions (rollout (Base.step fuel) (jump_at p) (default_attributes rs ox fy)) = 0%nat
      <-> Z.of_nat p = ox - 14)
  /\ (Z.of_nat p = ox - 14 ->
      total_reward (rollout (Base.step fuel) (jump_at p) (default_attributes rs ox fy))
      = 56 + 100
      /\ done (after (Base.step fuel) (jump_at p) (default_attributes rs ox fy)) = true)
  /\ (0 < collisions (rollout (Base.step fuel) (repeat 0%Z 56%nat)
                        (default_attributes rs ox fy)))%nat.
Proof.
  unfold walk_checked, jump_policy_checked. cbv zeta. intros Hwalk H.
  apply andb_true_iff in H as [H Hgood]. apply andb_true_iff in H as [Hret Hiff].
  split; [exact Hret|]. split; [|split].
  - apply eqb_prop in Hiff. rewrite <- Nat.eqb_eq, <- Z.eqb_eq, Hiff. reflexivity.
  - intros E. apply Z.eqb_eq in E. rewrite E in Hgood.
    apply andb_true_iff in Hgood as [Hr Hd]. apply Z.eqb_eq in Hr. split; assumption.
  - apply Nat.ltb_lt. exact Hwalk.
Qed.

(** An episode of the default environment. *)
Lemma episode_of_default_env (seeding : Z -> nat -> nat) (ox fy : Z) :
  LEFT <= ox < RIGHT -> DOWN <= fy < UP ->
  exists rs,
    (Base._reset ox fy false (default_env seeding)).2 = default_attributes rs ox fy.
Proof.
  intros Hx Hy. unfold LEFT, RIGHT, DOWN, UP in *.
  destruct (default_env_attributes seeding) as (ox0 & fy0 & _ & _ & E).
  unfold default_env. rewrite E. cbn [snd].
  eexists. unfold Base._reset, JumpTaskEnv._reset.
  cbn [min_x_position max_x_position min_y_position max_y_position default_attributes
       set_agent_pos_x set_agent_pos_y set_agent_current_speed set_jumping
       set_step_id set_done set_floor_height set_two_obstacles].
  replace (ox <? 14) with false by (symmetry; apply Z.ltb_ge; lia).
  replace (ox >=? 48) with false by (symmetry; rewrite Z.geb_leb; apply Z.leb_gt; lia).
  replace (fy <? 0) with false by (symmetry; apply Z.ltb_ge; lia).
  replace (fy >=? 41) with false by (symmetry; rewrite Z.geb_leb; apply Z.leb_gt; lia).
  cbn [orb]. rewrite base_get_state_read_only. reflexivity.
Qed.

(** In the environment built with the default arguments, for every obstacle
    position [_reset] accepts and both floor heights [reset()] draws: among
    the policies that walk right and jump once, after [p] steps, the one
    with [p = obstacle_position - 14] is the only one that meets no
    obstacle; it reaches the right edge on the 56th call, with a return of
    56 + 100; and walking right without a jump runs into the obstacle.  (The
    smallest accepted position, [LEFT = 14], is the first for which there is
    room for that jump.) *)
Theorem one_jump_clears_the_obstacle
    (seeding : Z -> nat -> nat) (fuel : nat) (ox fy : Z) (p : nat) :
  LEFT <= ox < RIGHT ->
  In fy ALLOWED_OBSTACLE_Y ->
  (p <= 55)%nat ->
  let self := (Base._reset ox fy false (default_env seeding)).2 in
  let calls := rollout (Base.step fuel) (jump_at p) self in
  forallb returned calls = true
  /\ (collisions calls = 0%nat <-> Z.of_nat p = ox - 14)
  /\ (Z.of_nat p = ox - 14 ->
      total_reward calls = 56 + 100
      /\ done (after (Base.step fuel) (jump_at p) self) = true)
  /\ (0 < collisions (rollout (Base.step fuel) (repeat 0%Z 56%nat) self))%nat.
Proof.
  intros Hx Hfy Hp. cbv zeta.
  destruct (episode_of_default_env seeding ox fy Hx (allowed_y_in_range fy Hfy)) as [rs ->].
  destruct (jump_policy_checked_at rs fuel ox fy p Hx Hfy Hp) as [Hwalk H].
  exact (jump_policy_checked_spec rs fuel ox fy p Hwalk H).
Qed.

Lemma one_jump_clears_the_obstacle_witness :
  collisions (rollout (Base.step 0) (jump_at 16)
                (Base._reset 30 10 false (default_env counting_draws)).2) = 0%nat
  <-> Z.of_nat 16 = 30 - 14.
Proof.
  assert (Hx : LEFT <= 30 < RIGHT) by (unfold LEFT, RIGHT; lia).
  assert (Hfy : In 10 ALLOWED_OBSTACLE_Y) by (left; reflexivity).
  assert (Hp : (16 <= 55)%nat) by lia.
  exact (proj1 (proj2 (one_jump_clears_the_obstacle counting_draws 0 30 10 16 Hx Hfy Hp))).
Defined.
